(** * Order lifecycle and time-gated availability of the food-delivery backend

    A shallow embedding of the status transition tables, the opening-hours
    evaluators, the product availability check, the status-update
    operations, the scheduler tick and the Porter webhook / reassignment
    flow, followed by the properties established about them.

    Go strings are [string] compared bytewise, JSONB columns are finite maps
    from keys to JSON values, database tables are finite maps or row lists
    inside a [World], and every Go function that touches the database is a
    state-passing function over that world. *)

From Stdlib Require Import ZArith NArith String Ascii List Bool Lia DecimalString.
From Stdlib Require Import OrderedTypeEx.
From stdpp Require Import base option list gmap strings.

Set Warnings "-register-all".
#[local] Open Scope string_scope.
#[local] Open Scope Z_scope.

(* ================================================================== *)
(** * Go strings *)
(* ================================================================== *)

Module GoString.

(** Go compares strings byte by byte; [String.compare] does the same on
    the character codes. *)
Definition lt (a b : string) : bool :=
  match String.compare a b with Lt => true | _ => false end.

Definition le (a b : string) : bool :=
  match String.compare a b with Gt => false | _ => true end.

Definition ge (a b : string) : bool :=
  match String.compare a b with Lt => false | _ => true end.

Definition is_upper (c : ascii) : bool :=
  (65 <=? Z.of_nat (nat_of_ascii c)) && (Z.of_nat (nat_of_ascii c) <=? 90).

Definition lower_ascii (c : ascii) : ascii :=
  if is_upper c then ascii_of_nat (nat_of_ascii c + 32) else c.

(** [strings.ToLower] on ASCII text (weekday names are ASCII). *)
Fixpoint ToLower (s : string) : string :=
  match s with
  | EmptyString => EmptyString
  | String c s' => String (lower_ascii c) (ToLower s')
  end.

Fixpoint HasPrefix (s p : string) : bool :=
  match p, s with
  | EmptyString, _ => true
  | String a p', String b s' => Ascii.eqb a b && HasPrefix s' p'
  | String _ _, EmptyString => false
  end.

Fixpoint Contains (s q : string) : bool :=
  HasPrefix s q ||
  match s with
  | EmptyString => false
  | String _ s' => Contains s' q
  end.

End GoString.

(* ================================================================== *)
(** * JSON values and JSONB columns *)
(* ================================================================== *)

(** [interface{}] values as they come out of a JSONB column. *)
Inductive jvalue : Type :=
| JNull
| JBool (b : bool)
| JStr (s : string)
| JNum (n : Z)
| JArr (l : list jvalue)
| JObj (m : gmap string jvalue).

(** [models.JSONB] is [map[string]interface{}]; [None] is the nil map. *)
Definition JSONB : Type := option (gmap string jvalue).

Module Json.

(** [v, _ := x.(bool)] where [x] is the result of indexing a map: a
    missing key or a value of another type gives [false]. *)
Definition as_bool (x : option jvalue) : bool :=
  match x with Some (JBool b) => b | _ => false end.

(** [v, _ := x.(string)]: a missing key or another type gives [""]. *)
Definition as_string (x : option jvalue) : string :=
  match x with Some (JStr s) => s | _ => "" end.

(** [m, ok := x.(map[string]interface{})]. *)
Definition as_object (x : jvalue) : option (gmap string jvalue) :=
  match x with JObj m => Some m | _ => None end.

End Json.

(* ================================================================== *)
(** * Wall-clock time as the evaluators see it *)
(* ================================================================== *)

Module Clock.

Inductive Weekday : Type :=
| Sunday | Monday | Tuesday | Wednesday | Thursday | Friday | Saturday.

(** [time.Weekday.String]. *)
Definition Weekday_String (d : Weekday) : string :=
  match d with
  | Sunday => "Sunday" | Monday => "Monday" | Tuesday => "Tuesday"
  | Wednesday => "Wednesday" | Thursday => "Thursday"
  | Friday => "Friday" | Saturday => "Saturday"
  end.

(** The part of a [time.Time] the code reads: its weekday, the hour
    (0..23) and the minute (0..59), and the instant in seconds. *)
Record Time : Type := mkTime {
  t_weekday : Weekday;
  t_hour : nat;
  t_minute : nat;
  t_unix : Z
}.

Definition digit (n : nat) : ascii := ascii_of_nat (48 + n mod 10).

Definition pad2 (n : nat) : string :=
  String (digit (n / 10)) (String (digit n) EmptyString).

(** [t.Format("15:04")]: zero-padded hour, a colon, zero-padded minute. *)
Definition Format1504 (t : Time) : string :=
  String.append (pad2 (t_hour t)) (String.append ":" (pad2 (t_minute t))).

End Clock.

(* ================================================================== *)
(** * Status transition tables *)
(* ================================================================== *)

Module Transitions.

(** [for _, allowed := range allowedStatuses { if newStatus == allowed
    { return true } }; return false]. *)
Fixpoint range_allowed (allowedStatuses : list string) (newStatus : string) : bool :=
  match allowedStatuses with
  | [] => false
  | allowedStatus :: rest =>
      if String.eqb newStatus allowedStatus then true
      else range_allowed rest newStatus
  end.

(** The map literal of [OrderService.isValidStatusTransition]. *)
Definition order_validTransitions : gmap string (list string) :=
  <["pending" := ["confirmed"; "cancelled"] ]>
  (<["confirmed" := ["preparing"; "cancelled"] ]>
  (<["preparing" := ["dispatched"; "cancelled"] ]>
  (<["dispatched" := ["delivered"; "cancelled"] ]>
  (<["delivered" := [] ]>
  (<["cancelled" := [] ]> ∅))))).

(** [OrderService.isValidStatusTransition] (order_service.go). *)
Definition order_isValidStatusTransition (currentStatus newStatus : string) : bool :=
  match order_validTransitions !! currentStatus with
  | None => false
  | Some allowedStatuses => range_allowed allowedStatuses newStatus
  end.

(** The map literal of the package-level [isValidStatusTransition]
    (refund_service.go). *)
Definition refund_validTransitions : gmap string (list string) :=
  <["pending" := ["approved"; "rejected"] ]>
  (<["approved" := ["processed"; "failed"] ]>
  (<["rejected" := [] ]>
  (<["processed" := [] ]>
  (<["failed" := ["approved"] ]> ∅)))).

(** [isValidStatusTransition] (refund_service.go). *)
Definition isValidStatusTransition (currentStatus newStatus : string) : bool :=
  match refund_validTransitions !! currentStatus with
  | None => false
  | Some allowedStatuses => range_allowed allowedStatuses newStatus
  end.

(** The tables of the specification, as lists of (current, requested). *)
Definition order_table : list (string * string) :=
  [ ("pending", "confirmed"); ("pending", "cancelled");
    ("confirmed", "preparing"); ("confirmed", "cancelled");
    ("preparing", "dispatched"); ("preparing", "cancelled");
    ("dispatched", "delivered"); ("dispatched", "cancelled") ].

Definition refund_table : list (string * string) :=
  [ ("pending", "approved"); ("pending", "rejected");
    ("approved", "processed"); ("approved", "failed");
    ("failed", "approved") ].

End Transitions.

(* ================================================================== *)
(** * Records of the data model

    The records carry those columns of the model structs that the
    services below read or write; amounts are in minor units. *)
(* ================================================================== *)

Definition UUID : Type := N.

Record Restaurant : Type := mkRestaurant {
  r_ID : UUID;
  r_Name : string;
  r_Description : string;
  r_Status : string;
  r_IsOpen : bool;
  r_AutoOpenClose : bool;
  r_OpeningHours : JSONB;
  r_LastStatusUpdate : option Z
}.

Record Product : Type := mkProduct {
  p_ID : N;
  p_IsAvailable : bool
}.

Record TimeRangeProductsGroup : Type := mkGroup {
  g_GroupName : string;
  g_StartTime : string;
  g_EndTime : string;
  g_IsActive : bool
}.

(* ================================================================== *)
(** * Opening-hours evaluators *)
(* ================================================================== *)

Module Hours.
Import Clock.

(** [EnhancedCronService.shouldRestaurantBeOpenAtTime]
    (enhanced_cron_service.go), the evaluator of the scheduler. *)
Definition shouldRestaurantBeOpenAtTime (restaurant : Restaurant) (checkTime : Time) : bool :=
  if negb (r_AutoOpenClose restaurant) then r_IsOpen restaurant
  else
    match r_OpeningHours restaurant with
    | None => false
    | Some openingHours =>
        let currentDay := GoString.ToLower (Weekday_String (t_weekday checkTime)) in
        let currentTimeStr := Format1504 checkTime in
        match openingHours !! currentDay with
        | None => false
        | Some dayTiming =>
            match Json.as_object dayTiming with
            | None => false
            | Some dayTimingMap =>
                let isOpenToday := Json.as_bool (dayTimingMap !! "is_open") in
                if negb isOpenToday then false
                else
                  let openTimeStr := Json.as_string (dayTimingMap !! "open_time") in
                  let closeTimeStr := Json.as_string (dayTimingMap !! "close_time") in
                  if String.eqb openTimeStr "" || String.eqb closeTimeStr "" then false
                  else if GoString.lt closeTimeStr openTimeStr then
                    GoString.ge currentTimeStr openTimeStr
                    || GoString.le currentTimeStr closeTimeStr
                  else
                    GoString.ge currentTimeStr openTimeStr
                    && GoString.le currentTimeStr closeTimeStr
            end
        end
    end.

(** [ShopTimeService.isRestaurantOpenAtTime] (razorpay_service.go). *)
Definition isRestaurantOpenAtTime (restaurant : Restaurant) (checkTime : Time) : bool :=
  if negb (r_AutoOpenClose restaurant) then r_IsOpen restaurant
  else
    let currentDay := Weekday_String (t_weekday checkTime) in
    let currentTimeStr := Format1504 checkTime in
    match r_OpeningHours restaurant with
    | None => r_IsOpen restaurant
    | Some openingHours =>
        match openingHours !! currentDay with
        | None => false
        | Some dayTiming =>
            match Json.as_object dayTiming with
            | None => false
            | Some dayTimingMap =>
                let isOpen := Json.as_bool (dayTimingMap !! "is_open") in
                if negb isOpen then false
                else
                  let openTime := Json.as_string (dayTimingMap !! "open_time") in
                  let closeTime := Json.as_string (dayTimingMap !! "close_time") in
                  if String.eqb openTime "" || String.eqb closeTime "" then
                    r_IsOpen restaurant
                  else
                    GoString.ge currentTimeStr openTime
                    && GoString.le currentTimeStr closeTime
            end
        end
    end.

(** [CronService.shouldRestaurantBeOpen], the third copy of the evaluator
    in the [services] package. *)
Definition shouldRestaurantBeOpen (restaurant : Restaurant) (checkTime : Time) : bool :=
  if negb (r_AutoOpenClose restaurant) then r_IsOpen restaurant
  else
    let currentDay := Weekday_String (t_weekday checkTime) in
    let currentTimeStr := Format1504 checkTime in
    match r_OpeningHours restaurant with
    | None => r_IsOpen restaurant
    | Some openingHours =>
        match openingHours !! currentDay with
        | None => false
        | Some dayTiming =>
            match Json.as_object dayTiming with
            | None => false
            | Some dayTimingMap =>
                let isOpen := Json.as_bool (dayTimingMap !! "is_open") in
                if negb isOpen then false
                else
                  let openTime := Json.as_string (dayTimingMap !! "open_time") in
                  let closeTime := Json.as_string (dayTimingMap !! "close_time") in
                  if String.eqb openTime "" || String.eqb closeTime "" then
                    r_IsOpen restaurant
                  else if GoString.lt closeTime openTime then
                    GoString.ge currentTimeStr openTime
                    || GoString.le currentTimeStr closeTime
                  else
                    GoString.ge currentTimeStr openTime
                    && GoString.le currentTimeStr closeTime
            end
        end
    end.

(** A day entry [{is_open, open_time, close_time}] as
    [ShopTimeService.UpdateShopTiming] stores it. *)
Definition day_fields (isOpen : bool) (openTime closeTime : string)
  : gmap string jvalue :=
  <["is_open" := JBool isOpen]>
  (<["open_time" := JStr openTime]>
  (<["close_time" := JStr closeTime]> ∅)).

Definition day_entry (isOpen : bool) (openTime closeTime : string) : jvalue :=
  JObj (day_fields isOpen openTime closeTime).

(** The entry stored under [key] is an object whose [is_open] is true. *)
Definition day_is_open (openingHours : gmap string jvalue) (key : string) : bool :=
  match openingHours !! key with
  | Some (JObj dayTimingMap) => Json.as_bool (dayTimingMap !! "is_open")
  | _ => false
  end.

(** The key under which each evaluator looks the weekday up. *)
Definition lower_key (checkTime : Time) : string :=
  GoString.ToLower (Weekday_String (t_weekday checkTime)).

Definition title_key (checkTime : Time) : string :=
  Weekday_String (t_weekday checkTime).

(** The window rule of the specification on [HH:MM] strings. *)
Definition in_window (time openTime closeTime : string) : bool :=
  if GoString.lt closeTime openTime
  then GoString.ge time openTime || GoString.le time closeTime
  else GoString.ge time openTime && GoString.le time closeTime.

End Hours.

(* ================================================================== *)
(** * Product availability *)
(* ================================================================== *)

Module Availability.
Import Clock.

(** [TimeBasedProductService.isTimeInRange]. *)
Definition isTimeInRange (checkTime startTime endTime : string) : bool :=
  if GoString.lt endTime startTime then
    GoString.ge checkTime startTime || GoString.le checkTime endTime
  else
    GoString.ge checkTime startTime && GoString.le checkTime endTime.

(** The [for _, group := range timeGroups] loop of [isProductAvailable]. *)
Fixpoint range_groups (timeGroups : list TimeRangeProductsGroup) (targetTimeStr : string) : bool :=
  match timeGroups with
  | [] => false
  | group :: rest =>
      if g_IsActive group
         && isTimeInRange targetTimeStr (g_StartTime group) (g_EndTime group)
      then true
      else range_groups rest targetTimeStr
  end.

(** [TimeBasedProductService.isProductAvailable]. *)
Definition isProductAvailable (product : Product)
  (timeGroups : list TimeRangeProductsGroup) (targetTime : Time)
  (restaurantIsOpen : bool) : bool :=
  if negb restaurantIsOpen then false
  else if negb (p_IsAvailable product) then false
  else if (length timeGroups =? 0)%nat then true
  else range_groups timeGroups (Format1504 targetTime).

(** [TimeBasedProductService.getUnavailabilityReason]. *)
Definition getUnavailabilityReason (product : Product)
  (timeGroups : list TimeRangeProductsGroup) (targetTime : Time)
  (restaurantIsOpen : bool) : string :=
  if negb restaurantIsOpen then "Restaurant is closed"
  else if negb (p_IsAvailable product) then "Product is currently unavailable"
  else if (0 <? length timeGroups)%nat then "Product not available at this time"
  else "Unknown reason".

(** The window test of the specification: the instant lies in the window
    of some active group. *)
Definition in_some_active_window (timeGroups : list TimeRangeProductsGroup)
  (targetTime : Time) : Prop :=
  exists group, In group timeGroups /\ g_IsActive group = true /\
    isTimeInRange (Format1504 targetTime) (g_StartTime group) (g_EndTime group) = true.

End Availability.

(* ================================================================== *)
(** * Persisted records *)
(* ================================================================== *)

Record Order : Type := mkOrder {
  o_ID : UUID;
  o_UserID : UUID;
  o_RestaurantID : UUID;
  o_CartID : UUID;
  o_OrderStatus : string;
  o_DeliveryPartnerID : option UUID;
  o_TotalAmount : Z;
  o_CustomerName : string;
  o_CustomerContact : string;
  o_OrderLogs : JSONB
}.

Definition set_o_OrderStatus (s : string) (o : Order) : Order :=
  mkOrder (o_ID o) (o_UserID o) (o_RestaurantID o) (o_CartID o) s
          (o_DeliveryPartnerID o) (o_TotalAmount o) (o_CustomerName o)
          (o_CustomerContact o) (o_OrderLogs o).

Definition set_o_OrderLogs (l : JSONB) (o : Order) : Order :=
  mkOrder (o_ID o) (o_UserID o) (o_RestaurantID o) (o_CartID o)
          (o_OrderStatus o) (o_DeliveryPartnerID o) (o_TotalAmount o)
          (o_CustomerName o) (o_CustomerContact o) l.

Definition set_o_DeliveryPartnerID (p : option UUID) (o : Order) : Order :=
  mkOrder (o_ID o) (o_UserID o) (o_RestaurantID o) (o_CartID o)
          (o_OrderStatus o) p (o_TotalAmount o)
          (o_CustomerName o) (o_CustomerContact o) (o_OrderLogs o).

Record Refund : Type := mkRefund {
  rf_ID : UUID;
  rf_OrderID : UUID;
  rf_PaymentID : UUID;
  rf_UserID : UUID;
  rf_Amount : Z;
  rf_Reason : string;
  rf_Status : string;
  rf_AdminComment : option string;
  rf_ProcessedAt : option Z
}.

Definition set_rf_Status (s : string) (r : Refund) : Refund :=
  mkRefund (rf_ID r) (rf_OrderID r) (rf_PaymentID r) (rf_UserID r)
           (rf_Amount r) (rf_Reason r) s (rf_AdminComment r) (rf_ProcessedAt r).

Definition set_rf_AdminComment (c : option string) (r : Refund) : Refund :=
  mkRefund (rf_ID r) (rf_OrderID r) (rf_PaymentID r) (rf_UserID r)
           (rf_Amount r) (rf_Reason r) (rf_Status r) c (rf_ProcessedAt r).

Record PorterDelivery : Type := mkPorterDelivery {
  pd_ID : UUID;
  pd_OrderID : UUID;
  pd_PorterOrderID : string;
  pd_Status : string;
  pd_IsActive : bool;
  pd_PartnerName : string;
  pd_PartnerPhoneNumber : string;
  pd_VehicleNumber : string;
  pd_EstimatedDeliveryTime : option Z;
  pd_PickupTime : option Z;
  pd_ActualDeliveryTime : option Z;
  pd_UpdatedAt : Z
}.

Definition set_pd_Status (s : string) (d : PorterDelivery) : PorterDelivery :=
  mkPorterDelivery (pd_ID d) (pd_OrderID d) (pd_PorterOrderID d) s (pd_IsActive d)
    (pd_PartnerName d) (pd_PartnerPhoneNumber d) (pd_VehicleNumber d)
    (pd_EstimatedDeliveryTime d) (pd_PickupTime d) (pd_ActualDeliveryTime d)
    (pd_UpdatedAt d).

Definition set_pd_IsActive (b : bool) (d : PorterDelivery) : PorterDelivery :=
  mkPorterDelivery (pd_ID d) (pd_OrderID d) (pd_PorterOrderID d) (pd_Status d) b
    (pd_PartnerName d) (pd_PartnerPhoneNumber d) (pd_VehicleNumber d)
    (pd_EstimatedDeliveryTime d) (pd_PickupTime d) (pd_ActualDeliveryTime d)
    (pd_UpdatedAt d).

Definition set_pd_Partner (name phone vehicle : string) (d : PorterDelivery) : PorterDelivery :=
  mkPorterDelivery (pd_ID d) (pd_OrderID d) (pd_PorterOrderID d) (pd_Status d)
    (pd_IsActive d) name phone vehicle
    (pd_EstimatedDeliveryTime d) (pd_PickupTime d) (pd_ActualDeliveryTime d)
    (pd_UpdatedAt d).

Definition set_pd_EstimatedDeliveryTime (t : option Z) (d : PorterDelivery) : PorterDelivery :=
  mkPorterDelivery (pd_ID d) (pd_OrderID d) (pd_PorterOrderID d) (pd_Status d)
    (pd_IsActive d) (pd_PartnerName d) (pd_PartnerPhoneNumber d) (pd_VehicleNumber d)
    t (pd_PickupTime d) (pd_ActualDeliveryTime d) (pd_UpdatedAt d).

Definition set_pd_PickupTime (t : option Z) (d : PorterDelivery) : PorterDelivery :=
  mkPorterDelivery (pd_ID d) (pd_OrderID d) (pd_PorterOrderID d) (pd_Status d)
    (pd_IsActive d) (pd_PartnerName d) (pd_PartnerPhoneNumber d) (pd_VehicleNumber d)
    (pd_EstimatedDeliveryTime d) t (pd_ActualDeliveryTime d) (pd_UpdatedAt d).

Definition set_pd_ActualDeliveryTime (t : option Z) (d : PorterDelivery) : PorterDelivery :=
  mkPorterDelivery (pd_ID d) (pd_OrderID d) (pd_PorterOrderID d) (pd_Status d)
    (pd_IsActive d) (pd_PartnerName d) (pd_PartnerPhoneNumber d) (pd_VehicleNumber d)
    (pd_EstimatedDeliveryTime d) (pd_PickupTime d) t (pd_UpdatedAt d).

Definition set_pd_UpdatedAt (t : Z) (d : PorterDelivery) : PorterDelivery :=
  mkPorterDelivery (pd_ID d) (pd_OrderID d) (pd_PorterOrderID d) (pd_Status d)
    (pd_IsActive d) (pd_PartnerName d) (pd_PartnerPhoneNumber d) (pd_VehicleNumber d)
    (pd_EstimatedDeliveryTime d) (pd_PickupTime d) (pd_ActualDeliveryTime d) t.

Definition set_r_IsOpen (b : bool) (r : Restaurant) : Restaurant :=
  mkRestaurant (r_ID r) (r_Name r) (r_Description r) (r_Status r) b
    (r_AutoOpenClose r) (r_OpeningHours r) (r_LastStatusUpdate r).

Definition set_r_LastStatusUpdate (t : option Z) (r : Restaurant) : Restaurant :=
  mkRestaurant (r_ID r) (r_Name r) (r_Description r) (r_Status r) (r_IsOpen r)
    (r_AutoOpenClose r) (r_OpeningHours r) t.

Record RestaurantDeliveryPartners : Type := mkRestaurantDeliveryPartners {
  rdp_ID : UUID;
  rdp_RestaurantID : UUID;
  rdp_DeliveryPartnerCompanyID : UUID
}.

Record DeliveryPartnerCompany : Type := mkDeliveryPartnerCompany {
  dpc_ID : UUID;
  dpc_Name : string
}.

(** The parts of the carrier's answers that the services use. *)
Record PorterQuoteResponse : Type := mkQuote {
  q_Distance : string;
  q_VehicleType : string
}.

Record PorterCreateOrderResponse : Type := mkCreated {
  co_OrderID : string;
  co_TrackingURL : string;
  co_EstimatedPickupTime : Z;
  co_EstimatedFareMinorAmount : Z
}.

(* ================================================================== *)
(** * The world: tables, faults, observable effects *)
(* ================================================================== *)

Module Store.

(** The database calls the services make; a fault plan says which fail. *)
Inductive DbOp : Type :=
| OrderGetByID (id : UUID)
| OrderUpdate (id : UUID)
| RefundGetByID (id : UUID)
| RefundUpdate (id : UUID)
| RestaurantSearch (limit offset : nat)
| RestaurantUpdate (id : UUID)
| RestaurantGetByID (id : UUID)
| PartnerLinksGetByRestaurantID (restaurantID : UUID)
| PartnerCompanyGetByID (id : UUID)
| DeliveryGetByPorterOrderID (porterOrderID : string)
| DeliveryGetActiveByOrderID (orderID : UUID)
| DeliveryUpdate (id : UUID)
| DeliveryDeactivateOld (orderID : UUID).

(** Go [error] values. *)
Inductive error : Type :=
| ErrNew (msg : string)
| ErrRecordNotFound
| ErrDb (op : DbOp)
| ErrUpstream (what : string)
| ErrWrap (msg : string) (cause : error).

Inductive result (A : Type) : Type :=
| Ok (a : A)
| Fail (e : error).
Arguments Ok {A} a.
Arguments Fail {A} e.

(** Work started with [go func() { ... }()]. *)
Inductive Task : Type :=
| TaskReassign (orderID : UUID) (preferredPartner : string).

(** What the code does that is visible outside the database. *)
Inductive Event : Type :=
| EvKafka (topic key : string) (message : gmap string jvalue)
| EvLogTickStart
| EvLogFetchError (err : error)
| EvLogUpdateError (name : string) (id : UUID) (err : error)
| EvLogStatusChanged (name : string) (id : UUID) (opened : bool)
| EvLogTickDone (totalUpdated totalErrors : nat)
| EvLogCancelWarning (porterOrderID : string) (err : error)
| EvLogOrderUpdateFailed (err : error)
| EvLogPorterOrderCreated (orderID : UUID) (porterOrderID : string)
| EvLogLegacyOrderCreated (orderID : UUID) (partner : string)
| EvPorterGetQuote (orderID : UUID)
| EvPorterCreateOrder (orderID : UUID)
| EvPorterCancel (porterOrderID : string)
| EvGo (task : Task).

Record World : Type := mkWorld {
  w_orders : gmap UUID Order;
  w_refunds : gmap UUID Refund;
  w_restaurants : list Restaurant;
  w_deliveries : list PorterDelivery;
  w_partner_links : list RestaurantDeliveryPartners;
  w_partner_companies : gmap UUID DeliveryPartnerCompany;
  w_trace : list Event
}.

(** What the services take from outside the repository: the UUID
    library, the clock, the plan of database faults and the carrier's
    API, whose answers to the quote and create requests made for an order
    and to the cancel request for a carrier order are given here. *)
Record Env : Type := mkEnv {
  uuid_Parse : string -> option UUID;
  uuid_String : UUID -> string;
  time_Now : Clock.Time;
  db_fault : DbOp -> bool;
  porter_GetQuote : UUID -> result PorterQuoteResponse;
  porter_CreateOrder : UUID -> result PorterCreateOrderResponse;
  porter_cancel_fails : string -> bool
}.

(** A Go call: it ends normally with a value or panics, and leaves a world. *)
Inductive outcome (A : Type) : Type :=
| Done (a : A)
| Panic.
Arguments Done {A} a.
Arguments Panic {A}.

Definition Go (A : Type) : Type := World -> outcome A * World.

Definition ret {A : Type} (a : A) : Go A := fun w => (Done a, w).

Definition bind {A B : Type} (m : Go A) (k : A -> Go B) : Go B :=
  fun w =>
    match m w with
    | (Done a, w') => k a w'
    | (Panic, w') => (Panic, w')
    end.

Definition panic {A : Type} : Go A := fun w => (Panic, w).

Definition emit (e : Event) : Go unit :=
  fun w => (Done tt,
            mkWorld (w_orders w) (w_refunds w) (w_restaurants w)
                    (w_deliveries w) (w_partner_links w) (w_partner_companies w)
                    (w_trace w ++ [e])).

Definition set_w_orders (m : gmap UUID Order) (w : World) : World :=
  mkWorld m (w_refunds w) (w_restaurants w) (w_deliveries w)
          (w_partner_links w) (w_partner_companies w) (w_trace w).

Definition set_w_refunds (m : gmap UUID Refund) (w : World) : World :=
  mkWorld (w_orders w) m (w_restaurants w) (w_deliveries w)
          (w_partner_links w) (w_partner_companies w) (w_trace w).

Definition set_w_restaurants (l : list Restaurant) (w : World) : World :=
  mkWorld (w_orders w) (w_refunds w) l (w_deliveries w)
          (w_partner_links w) (w_partner_companies w) (w_trace w).

Definition set_w_deliveries (l : list PorterDelivery) (w : World) : World :=
  mkWorld (w_orders w) (w_refunds w) (w_restaurants w) l
          (w_partner_links w) (w_partner_companies w) (w_trace w).

End Store.

Notation "x <-- m ; k" := (Store.bind m (fun x => k))
  (at level 20, m at level 100, k at level 200, only parsing).
Notation "m ;;; k" := (Store.bind m (fun _ => k))
  (at level 100, k at level 200, right associativity, only parsing).

(* ================================================================== *)
(** * Repositories (postgres_repositories.go)

    [First] returns the matching row with the least primary key, [Save]
    replaces the row with the same primary key or adds it, and a call that
    the fault plan marks fails without touching the table.  Row order of
    an unordered [Find] is the order of the row list.  An update of a
    delivery row stamps its [UpdatedAt], as the ORM does for a column of
    that name; preloaded associations are not represented. *)
(* ================================================================== *)

Module Repo.
Import Store.

(** The row with the least primary key among those that satisfy [P]. *)
Fixpoint first_by_pk (P : PorterDelivery -> bool) (rows : list PorterDelivery)
  : option PorterDelivery :=
  match rows with
  | [] => None
  | d :: rest =>
      if P d then
        match first_by_pk P rest with
        | Some d' => if (pd_ID d' <? pd_ID d)%N then Some d' else Some d
        | None => Some d
        end
      else first_by_pk P rest
  end.

Fixpoint save_delivery (d : PorterDelivery) (rows : list PorterDelivery)
  : list PorterDelivery :=
  match rows with
  | [] => [d]
  | x :: rest =>
      if (pd_ID x =? pd_ID d)%N then d :: rest else x :: save_delivery d rest
  end.

Fixpoint save_restaurant (r : Restaurant) (rows : list Restaurant)
  : list Restaurant :=
  match rows with
  | [] => [r]
  | x :: rest =>
      if (r_ID x =? r_ID r)%N then r :: rest else x :: save_restaurant r rest
  end.

(** [UPDATE porter_deliveries SET is_active = false, updated_at = now
     WHERE order_id = ? AND is_active = true]. *)
Definition deactivate_rows (orderID : UUID) (now : Z) (rows : list PorterDelivery)
  : list PorterDelivery :=
  map (fun d =>
         if (pd_OrderID d =? orderID)%N && pd_IsActive d
         then set_pd_UpdatedAt now (set_pd_IsActive false d) else d) rows.

(** The restaurant stored under a primary key. *)
Definition row_of (id : UUID) (rows : list Restaurant) : option Restaurant :=
  List.find (fun x => (r_ID x =? id)%N) rows.

(** [name ILIKE '%q%' OR description ILIKE '%q%'], for a pattern without
    wildcard characters of its own. *)
Definition ilike_query (query : string) (r : Restaurant) : bool :=
  GoString.Contains (GoString.ToLower (r_Name r)) (GoString.ToLower query)
  || GoString.Contains (GoString.ToLower (r_Description r)) (GoString.ToLower query).

Section WithEnv.
Context (E : Env).

Definition orderRepo_GetByID (id : UUID) : Go (result Order) :=
  fun w =>
    if db_fault E (OrderGetByID id) then (Done (Fail (ErrDb (OrderGetByID id))), w)
    else match w_orders w !! id with
         | Some order => (Done (Ok order), w)
         | None => (Done (Fail ErrRecordNotFound), w)
         end.

Definition orderRepo_Update (order : Order) : Go (option error) :=
  fun w =>
    if db_fault E (OrderUpdate (o_ID order))
    then (Done (Some (ErrDb (OrderUpdate (o_ID order)))), w)
    else (Done None, set_w_orders (<[o_ID order := order]> (w_orders w)) w).

Definition refundRepo_GetByID (id : UUID) : Go (result Refund) :=
  fun w =>
    if db_fault E (RefundGetByID id) then (Done (Fail (ErrDb (RefundGetByID id))), w)
    else match w_refunds w !! id with
         | Some refund => (Done (Ok refund), w)
         | None => (Done (Fail ErrRecordNotFound), w)
         end.

Definition refundRepo_Update (refund : Refund) : Go (option error) :=
  fun w =>
    if db_fault E (RefundUpdate (rf_ID refund))
    then (Done (Some (ErrDb (RefundUpdate (rf_ID refund)))), w)
    else (Done None, set_w_refunds (<[rf_ID refund := refund]> (w_refunds w)) w).

Definition restaurantRepo_Search (query : string) (limit offset : nat)
  : Go (result (list Restaurant)) :=
  fun w =>
    if db_fault E (RestaurantSearch limit offset)
    then (Done (Fail (ErrDb (RestaurantSearch limit offset))), w)
    else (Done (Ok (take limit (drop offset
                     (List.filter (ilike_query query) (w_restaurants w))))), w).

Definition restaurantRepo_GetByID (id : UUID) : Go (result Restaurant) :=
  fun w =>
    if db_fault E (RestaurantGetByID id)
    then (Done (Fail (ErrDb (RestaurantGetByID id))), w)
    else match row_of id (w_restaurants w) with
         | Some restaurant => (Done (Ok restaurant), w)
         | None => (Done (Fail ErrRecordNotFound), w)
         end.

Definition restaurantDeliveryPartnerRepo_GetByRestaurantID (restaurantID : UUID)
  : Go (result (list RestaurantDeliveryPartners)) :=
  fun w =>
    if db_fault E (PartnerLinksGetByRestaurantID restaurantID)
    then (Done (Fail (ErrDb (PartnerLinksGetByRestaurantID restaurantID))), w)
    else (Done (Ok (List.filter (fun l => (rdp_RestaurantID l =? restaurantID)%N)
                                (w_partner_links w))), w).

Definition deliveryPartnerRepo_GetByID (id : UUID) : Go (result DeliveryPartnerCompany) :=
  fun w =>
    if db_fault E (PartnerCompanyGetByID id)
    then (Done (Fail (ErrDb (PartnerCompanyGetByID id))), w)
    else match w_partner_companies w !! id with
         | Some partner => (Done (Ok partner), w)
         | None => (Done (Fail ErrRecordNotFound), w)
         end.

Definition restaurantRepo_Update (restaurant : Restaurant) : Go (option error) :=
  fun w =>
    if db_fault E (RestaurantUpdate (r_ID restaurant))
    then (Done (Some (ErrDb (RestaurantUpdate (r_ID restaurant)))), w)
    else (Done None,
          set_w_restaurants (save_restaurant restaurant (w_restaurants w)) w).

Definition porterDeliveryRepo_GetByPorterOrderID (porterOrderID : string)
  : Go (result PorterDelivery) :=
  fun w =>
    if db_fault E (DeliveryGetByPorterOrderID porterOrderID)
    then (Done (Fail (ErrDb (DeliveryGetByPorterOrderID porterOrderID))), w)
    else match first_by_pk
                 (fun d => String.eqb (pd_PorterOrderID d) porterOrderID)
                 (w_deliveries w) with
         | Some delivery => (Done (Ok delivery), w)
         | None => (Done (Fail ErrRecordNotFound), w)
         end.

Definition porterDeliveryRepo_GetActiveByOrderID (orderID : UUID)
  : Go (result PorterDelivery) :=
  fun w =>
    if db_fault E (DeliveryGetActiveByOrderID orderID)
    then (Done (Fail (ErrDb (DeliveryGetActiveByOrderID orderID))), w)
    else match first_by_pk
                 (fun d => (pd_OrderID d =? orderID)%N && pd_IsActive d)
                 (w_deliveries w) with
         | Some delivery => (Done (Ok delivery), w)
         | None => (Done (Fail ErrRecordNotFound), w)
         end.

Definition porterDeliveryRepo_Update (delivery : PorterDelivery) : Go (option error) :=
  fun w =>
    if db_fault E (DeliveryUpdate (pd_ID delivery))
    then (Done (Some (ErrDb (DeliveryUpdate (pd_ID delivery)))), w)
    else (Done None,
          set_w_deliveries
            (save_delivery (set_pd_UpdatedAt (Clock.t_unix (time_Now E)) delivery)
                           (w_deliveries w)) w).

Definition porterDeliveryRepo_DeactivateOldDeliveries (orderID : UUID)
  : Go (option error) :=
  fun w =>
    if db_fault E (DeliveryDeactivateOld orderID)
    then (Done (Some (ErrDb (DeliveryDeactivateOld orderID))), w)
    else (Done None,
          set_w_deliveries
            (deactivate_rows orderID (Clock.t_unix (time_Now E)) (w_deliveries w)) w).

End WithEnv.
End Repo.

(* ================================================================== *)
(** * Status updates (order_service.go, refund_service.go) *)
(* ================================================================== *)

Module Services.
Import Store Repo.

(** The loop of [UpdateOrderStatus] that keeps the entries of the stored
    log list that are JSON objects. *)
Fixpoint range_logs (logSlice : list jvalue) : list jvalue :=
  match logSlice with
  | [] => []
  | JObj logMap :: rest => JObj logMap :: range_logs rest
  | _ :: rest => range_logs rest
  end.

(** [OrderService.getStatusUpdateMessage]. *)
Definition getStatusUpdateMessage (status : string) : string :=
  let messages : gmap string string :=
    <["confirmed" := "Your order has been confirmed by the restaurant"]>
    (<["preparing" := "Your order is being prepared"]>
    (<["dispatched" := "Your order is on the way"]>
    (<["delivered" := "Your order has been delivered"]>
    (<["cancelled" := "Your order has been cancelled"]> ∅)))) in
  match messages !! status with
  | Some message => message
  | None => "Your order status has been updated"
  end.

Record UpdateRefundStatusRequest : Type := mkUpdateRefundStatusRequest {
  req_Status : string;
  req_AdminComment : string
}.

Section WithEnv.
Context (E : Env).

(** [OrderService.UpdateOrderStatus]. *)
Definition UpdateOrderStatus (orderID newStatus restaurantID : string)
  : Go (option error) :=
  match uuid_Parse E orderID with
  | None => ret (Some (ErrNew "invalid order ID"))
  | Some orderUUID =>
      r <-- orderRepo_GetByID E orderUUID ;
      match r with
      | Fail err => ret (Some err)
      | Ok order =>
          if negb (String.eqb (uuid_String E (o_RestaurantID order)) restaurantID)
          then ret (Some (ErrNew "order does not belong to this restaurant"))
          else if negb (Transitions.order_isValidStatusTransition
                          (o_OrderStatus order) newStatus)
          then ret (Some (ErrNew "invalid status transition"))
          else
            let order := set_o_OrderStatus newStatus order in
            let logEntry :=
              JObj (<["timestamp" := JNum (Clock.t_unix (time_Now E))]>
                   (<["status" := JStr newStatus]>
                   (<["note" := JStr (String.append "Status updated to " newStatus)]> ∅))) in
            let orderLogs :=
              match o_OrderLogs order with
              | None => ∅
              | Some m => m
              end in
            let logs :=
              match orderLogs !! "logs" with
              | Some (JArr logSlice) => range_logs logSlice
              | _ => []
              end in
            let logs := (logs ++ [logEntry])%list in
            let order :=
              set_o_OrderLogs (Some (<["logs" := JArr logs]> orderLogs)) order in
            e <-- orderRepo_Update E order ;
            match e with
            | Some err => ret (Some err)
            | None =>
                emit (EvKafka "order_events" (uuid_String E (o_ID order))
                  (<["type" := JStr "order_status_updated"]>
                  (<["order_id" := JStr (uuid_String E (o_ID order))]>
                  (<["user_id" := JStr (uuid_String E (o_UserID order))]>
                  (<["data" := JObj
                       (<["order_id" := JStr (uuid_String E (o_ID order))]>
                       (<["new_status" := JStr newStatus]>
                       (<["old_status" := JStr (o_OrderStatus order)]> ∅)))]> ∅))))) ;;;
                emit (EvKafka "notification_events" (uuid_String E (o_UserID order))
                  (<["type" := JStr "order_status_update"]>
                  (<["user_id" := JStr (uuid_String E (o_UserID order))]>
                  (<["title" := JStr "Order Update"]>
                  (<["message" := JStr (getStatusUpdateMessage newStatus)]>
                  (<["metadata" := JObj
                       (<["order_id" := JStr (uuid_String E (o_ID order))]>
                       (<["status" := JStr newStatus]> ∅))]> ∅)))))) ;;;
                ret None
            end
      end
  end.

(** [RefundService.UpdateRefundStatus]. *)
Definition UpdateRefundStatus (adminID refundID : string)
  (req : UpdateRefundStatusRequest) : Go (result Refund) :=
  match uuid_Parse E refundID with
  | None => ret (Fail (ErrNew "invalid refund ID"))
  | Some id =>
      r <-- refundRepo_GetByID E id ;
      match r with
      | Fail err => ret (Fail err)
      | Ok refund =>
          if negb (Transitions.isValidStatusTransition (rf_Status refund) (req_Status req))
          then ret (Fail (ErrNew "invalid status transition"))
          else
            let refund := set_rf_Status (req_Status req) refund in
            let refund :=
              if negb (String.eqb (req_AdminComment req) "")
              then set_rf_AdminComment (Some (req_AdminComment req)) refund
              else refund in
            e <-- refundRepo_Update E refund ;
            match e with
            | Some err => ret (Fail err)
            | None => ret (Ok refund)
            end
      end
  end.

End WithEnv.
End Services.

(* ================================================================== *)
(** * The scheduler tick (enhanced_cron_service.go) *)
(* ================================================================== *)

Module Scheduler.
Import Store Repo Clock.

(** The filtering loop of [getRestaurantsWithAutoOpenClose]. *)
Fixpoint range_filter (allRestaurants : list Restaurant) (limit : nat)
  (filteredRestaurants : list Restaurant) : list Restaurant :=
  match allRestaurants with
  | [] => filteredRestaurants
  | restaurant :: rest =>
      if r_AutoOpenClose restaurant && String.eqb (r_Status restaurant) "active" then
        let filteredRestaurants := (filteredRestaurants ++ [restaurant])%list in
        if (limit <=? length filteredRestaurants)%nat then filteredRestaurants
        else range_filter rest limit filteredRestaurants
      else range_filter rest limit filteredRestaurants
  end.

Section WithEnv.
Context (E : Env).

(** [EnhancedCronService.getRestaurantsWithAutoOpenClose]. *)
Definition getRestaurantsWithAutoOpenClose (limit offset : nat)
  : Go (result (list Restaurant)) :=
  r <-- restaurantRepo_Search E "" (limit * 2) offset ;
  match r with
  | Fail err => ret (Fail err)
  | Ok allRestaurants => ret (Ok (range_filter allRestaurants limit []))
  end.

(** [EnhancedCronService.updateRestaurantStatus]. *)
Definition updateRestaurantStatus (restaurant : Restaurant) (checkTime : Time)
  : Go (option error) :=
  let shouldBeOpen := Hours.shouldRestaurantBeOpenAtTime restaurant checkTime in
  let statusChanged := negb (Bool.eqb (r_IsOpen restaurant) shouldBeOpen) in
  if statusChanged then
    let restaurant := set_r_IsOpen shouldBeOpen restaurant in
    let now := t_unix (time_Now E) in
    let restaurant := set_r_LastStatusUpdate (Some now) restaurant in
    e <-- restaurantRepo_Update E restaurant ;
    match e with
    | Some err => ret (Some (ErrWrap "failed to update restaurant status" err))
    | None =>
        emit (EvLogStatusChanged (r_Name restaurant) (r_ID restaurant) shouldBeOpen) ;;;
        ret None
    end
  else ret None.

(** The [for _, restaurant := range restaurants] loop of the tick. *)
Fixpoint range_restaurants (restaurants : list Restaurant) (currentTime : Time)
  (totalUpdated totalErrors : nat) : Go (nat * nat) :=
  match restaurants with
  | [] => ret (totalUpdated, totalErrors)
  | restaurant :: rest =>
      e <-- updateRestaurantStatus restaurant currentTime ;
      match e with
      | Some err =>
          emit (EvLogUpdateError (r_Name restaurant) (r_ID restaurant) err) ;;;
          range_restaurants rest currentTime totalUpdated (S totalErrors)
      | None =>
          range_restaurants rest currentTime (S totalUpdated) totalErrors
      end
  end.

(** The paging [for] loop of the tick; [None] when [fuel] iterations did
    not reach a [break]. *)
Fixpoint page_loop (fuel : nat) (currentTime : Time)
  (limit offset totalUpdated totalErrors : nat) : Go (option (nat * nat)) :=
  match fuel with
  | O => ret None
  | S fuel' =>
      r <-- getRestaurantsWithAutoOpenClose limit offset ;
      match r with
      | Fail err =>
          emit (EvLogFetchError err) ;;;
          ret (Some (totalUpdated, totalErrors))
      | Ok restaurants =>
          if (length restaurants =? 0)%nat then ret (Some (totalUpdated, totalErrors))
          else
            c <-- range_restaurants restaurants currentTime totalUpdated totalErrors ;
            let offset := (offset + limit)%nat in
            if (length restaurants <? limit)%nat then ret (Some c)
            else page_loop fuel' currentTime limit offset (fst c) (snd c)
      end
  end.

(** [EnhancedCronService.updateAllRestaurantStatuses]; the result says
    whether the paging loop came to its end within the fuel, which is one
    more than the number of rows of the table. *)
Definition updateAllRestaurantStatuses : Go bool :=
  fun w =>
    let currentTime := time_Now E in
    let limit := 100%nat in
    let offset := 0%nat in
    (emit EvLogTickStart ;;;
     c <-- page_loop (S (length (w_restaurants w))) currentTime limit offset 0 0 ;
     match c with
     | None => ret false
     | Some (totalUpdated, totalErrors) =>
         emit (EvLogTickDone totalUpdated totalErrors) ;;;
         ret true
     end) w.

End WithEnv.
End Scheduler.

(* ================================================================== *)
(** * Porter webhook and reassignment
      (porter_service.go, delivery_partner_service.go, the Porter handler) *)
(* ================================================================== *)

Module Porter.
Import Store Repo Clock.

Record PorterDriverDetails : Type := mkDriverDetails {
  dd_DriverName : string;
  dd_VehicleNumber : string;
  dd_Mobile : string
}.

Record PorterWebhookOrderDetails : Type := mkOrderDetails {
  od_EventTs : Z;
  od_DriverDetails : option PorterDriverDetails
}.

Record PorterWebhookPayload : Type := mkPayload {
  wp_Status : string;
  wp_OrderID : string;
  wp_OrderDetails : PorterWebhookOrderDetails
}.

(** [c.JSON(code, gin.H{...})]. *)
Record Response : Type := mkResponse {
  resp_code : Z;
  resp_body : gmap string jvalue
}.

(** The second [switch] of [HandleWebhook]: Porter status to order status;
    [""] when no case applies. *)
Definition newOrderStatus_of (status : string) : string :=
  if String.eqb status "order_accepted" then "dispatched"
  else if String.eqb status "order_start_trip" then "dispatched"
  else if String.eqb status "order_end_job" then "delivered"
  else if String.eqb status "order_cancel" then "cancelled"
  else if String.eqb status "order_reopen" then "dispatched"
  else "".

Section WithEnv.
Context (E : Env).

(** [PorterService.CancelOrder]: a call to the carrier's API. *)
Definition PorterService_CancelOrder (orderID : string) : Go (result unit) :=
  emit (EvPorterCancel orderID) ;;;
  ret (if porter_cancel_fails E orderID
       then Fail (ErrUpstream "Porter API error") else Ok tt).

(** The first [switch] of [HandleWebhook]; dereferencing absent driver
    details panics. *)
Definition apply_status (payload : PorterWebhookPayload)
  (porterDelivery : PorterDelivery) : Go PorterDelivery :=
  let status := wp_Status payload in
  let now := t_unix (time_Now E) in
  if String.eqb status "order_accepted" then
    match od_DriverDetails (wp_OrderDetails payload) with
    | None => panic
    | Some driver =>
        let porterDelivery :=
          set_pd_Partner (dd_DriverName driver) (dd_Mobile driver)
                         (dd_VehicleNumber driver) porterDelivery in
        if (0 <? od_EventTs (wp_OrderDetails payload))%Z
        then ret (set_pd_EstimatedDeliveryTime
                    (Some (od_EventTs (wp_OrderDetails payload))) porterDelivery)
        else ret porterDelivery
    end
  else if String.eqb status "order_start_trip" then
    ret (set_pd_PickupTime (Some now) porterDelivery)
  else if String.eqb status "order_end_job" then
    ret (set_pd_ActualDeliveryTime (Some now) porterDelivery)
  else if String.eqb status "order_reopen" then
    ret (set_pd_ActualDeliveryTime None porterDelivery)
  else if String.eqb status "order_cancel" then
    ret (set_pd_IsActive false porterDelivery)
  else ret porterDelivery.

(** [PorterService.HandleWebhook]. *)
Definition HandleWebhook (payload : PorterWebhookPayload) : Go (option error) :=
  r <-- porterDeliveryRepo_GetByPorterOrderID E (wp_OrderID payload) ;
  match r with
  | Fail err => ret (Some (ErrWrap "failed to find Porter delivery" err))
  | Ok porterDelivery =>
      let porterDelivery := set_pd_Status (wp_Status payload) porterDelivery in
      let porterDelivery := set_pd_UpdatedAt (t_unix (time_Now E)) porterDelivery in
      porterDelivery <-- apply_status payload porterDelivery ;
      e <-- porterDeliveryRepo_Update E porterDelivery ;
      match e with
      | Some err => ret (Some (ErrWrap "failed to update Porter delivery" err))
      | None =>
          r <-- orderRepo_GetByID E (pd_OrderID porterDelivery) ;
          match r with
          | Fail err => ret (Some (ErrWrap "failed to get order" err))
          | Ok order =>
              let newOrderStatus := newOrderStatus_of (wp_Status payload) in
              if negb (String.eqb newOrderStatus "")
                 && negb (String.eqb (o_OrderStatus order) newOrderStatus)
              then
                let order := set_o_OrderStatus newOrderStatus order in
                e <-- orderRepo_Update E order ;
                match e with
                | Some err => ret (Some (ErrWrap "failed to update order status" err))
                | None => ret None
                end
              else ret None
          end
      end
  end.

(** [PorterService.GetQuote] and [PorterService.CreateOrder] as
    [PorterService.CreateDeliveryOrder] calls them for an order: a request
    to the carrier, answered by the environment. *)
Definition PorterService_GetQuote (orderID : UUID) : Go (result PorterQuoteResponse) :=
  emit (EvPorterGetQuote orderID) ;;;
  ret (porter_GetQuote E orderID).

Definition PorterService_CreateOrder (orderID : UUID)
  : Go (result PorterCreateOrderResponse) :=
  emit (EvPorterCreateOrder orderID) ;;;
  ret (porter_CreateOrder E orderID).

(** [logs, ok := order.OrderLogs["logs"].([]interface{})], with the empty
    list when the assertion fails. *)
Definition logs_of (orderLogs : gmap string jvalue) : list jvalue :=
  match orderLogs !! "logs" with
  | Some (JArr logs) => logs
  | _ => []
  end.

(** [PorterService.CreateDeliveryOrder]; the order is returned as the
    call leaves the struct it was given. *)
Definition PorterService_CreateDeliveryOrder (order : Order) (restaurant : Restaurant)
  : Go (Order * result PorterCreateOrderResponse) :=
  q <-- PorterService_GetQuote (o_ID order) ;
  match q with
  | Fail err => ret (order, Fail (ErrWrap "failed to get Porter quote" err))
  | Ok quote =>
      c <-- PorterService_CreateOrder (o_ID order) ;
      match c with
      | Fail err => ret (order, Fail (ErrWrap "failed to create Porter order" err))
      | Ok porterOrder =>
          let orderLogs :=
            match o_OrderLogs order with
            | None => ∅
            | Some m => m
            end in
          let orderLog :=
            JObj (<["action" := JStr "porter_order_created"]>
                 (<["porter_order_id" := JStr (co_OrderID porterOrder)]>
                 (<["tracking_url" := JStr (co_TrackingURL porterOrder)]>
                 (<["estimated_fare" := JNum (co_EstimatedFareMinorAmount porterOrder)]>
                 (<["estimated_pickup" := JNum (co_EstimatedPickupTime porterOrder)]>
                 (<["quote_distance" := JStr (q_Distance quote)]>
                 (<["quote_vehicle" := JStr (q_VehicleType quote)]>
                 (<["timestamp" := JNum (t_unix (time_Now E))]> ∅)))))))) in
          let logs := (logs_of orderLogs ++ [orderLog])%list in
          let order := set_o_OrderLogs (Some (<["logs" := JArr logs]> orderLogs)) order in
          e <-- orderRepo_Update E order ;
          (match e with
           | Some err => emit (EvLogOrderUpdateFailed err)
           | None => ret tt
           end) ;;;
          ret (order, Ok porterOrder)
      end
  end.

(** [DeliveryPartnerService.createLegacyDeliveryOrder]: it changes the
    order struct only. *)
Definition createLegacyDeliveryOrder (order : Order) (restaurant : Restaurant)
  (partnerCompany : DeliveryPartnerCompany) (deliveryPartner : RestaurantDeliveryPartners)
  : Go (Order * option error) :=
  let order := set_o_DeliveryPartnerID (Some (rdp_ID deliveryPartner)) order in
  let orderLog :=
    JObj (<["action" := JStr "delivery_order_created"]>
         (<["delivery_partner" := JStr (dpc_Name partnerCompany)]>
         (<["order_id" := JStr (String.append (dpc_Name partnerCompany)
                                 (String.append "_"
                                    (NilZero.string_of_int (Z.to_int (t_unix (time_Now E))))))]>
         (<["estimated_time" := JNum 30]>
         (<["delivery_fee" := JNum 4500]>
         (<["timestamp" := JNum (t_unix (time_Now E))]> ∅)))))) in
  let orderLogs :=
    match o_OrderLogs order with
    | None => ∅
    | Some m => m
    end in
  let logs := (logs_of orderLogs ++ [orderLog])%list in
  let order := set_o_OrderLogs (Some (<["logs" := JArr logs]> orderLogs)) order in
  emit (EvLogLegacyOrderCreated (o_ID order) (dpc_Name partnerCompany)) ;;;
  ret (order, None).

(** [DeliveryPartnerService.CreateDeliveryOrder], the dispatch path; the
    order is returned as the call leaves the struct it was given. *)
Definition CreateDeliveryOrder (order : Order) : Go (Order * option error) :=
  r <-- restaurantRepo_GetByID E (o_RestaurantID order) ;
  match r with
  | Fail err => ret (order, Some (ErrWrap "failed to get restaurant" err))
  | Ok restaurant =>
      l <-- restaurantDeliveryPartnerRepo_GetByRestaurantID E (o_RestaurantID order) ;
      match l with
      | Fail err => ret (order, Some (ErrWrap "failed to get delivery partners" err))
      | Ok [] =>
          ret (order, Some (ErrNew (String.append "no delivery partners found for restaurant "
                                      (r_Name restaurant))))
      | Ok (deliveryPartner :: _) =>
          c <-- deliveryPartnerRepo_GetByID E (rdp_DeliveryPartnerCompanyID deliveryPartner) ;
          match c with
          | Fail err =>
              ret (order, Some (ErrWrap "failed to get delivery partner company" err))
          | Ok partnerCompany =>
              if String.eqb (dpc_Name partnerCompany) "Porter" then
                p <-- PorterService_CreateDeliveryOrder order restaurant ;
                match p with
                | (order, Fail err) =>
                    ret (order, Some (ErrWrap "failed to create Porter delivery order" err))
                | (order, Ok porterOrder) =>
                    let order :=
                      set_o_DeliveryPartnerID (Some (rdp_ID deliveryPartner)) order in
                    emit (EvLogPorterOrderCreated (o_ID order) (co_OrderID porterOrder)) ;;;
                    ret (order, None)
                end
              else
                createLegacyDeliveryOrder order restaurant partnerCompany deliveryPartner
          end
      end
  end.

(** [DeliveryPartnerService.ReassignDeliveryPartner]. *)
Definition ReassignDeliveryPartner (orderID : UUID) (preferredPartner : string)
  : Go (option error) :=
  r <-- orderRepo_GetByID E orderID ;
  match r with
  | Fail err => ret (Some (ErrWrap "failed to get order" err))
  | Ok order =>
      if String.eqb preferredPartner "porter" then
        e <-- porterDeliveryRepo_DeactivateOldDeliveries E orderID ;
        match e with
        | Some err => ret (Some (ErrWrap "failed to deactivate old deliveries" err))
        | None =>
            a <-- porterDeliveryRepo_GetActiveByOrderID E orderID ;
            (match a with
             | Ok activeDelivery =>
                 c <-- PorterService_CancelOrder (pd_PorterOrderID activeDelivery) ;
                 match c with
                 | Fail cancelErr =>
                     emit (EvLogCancelWarning (pd_PorterOrderID activeDelivery) cancelErr)
                 | Ok _ => ret tt
                 end
             | Fail _ => ret tt
             end) ;;;
            d <-- CreateDeliveryOrder order ;
            ret (snd d)
        end
      else
        ret (Some (ErrNew (String.append "reassignment for partner "
                            (String.append preferredPartner " not yet implemented"))))
  end.

(** The body of a detached task. *)
Definition run_task (t : Task) : Go unit :=
  match t with
  | TaskReassign orderID preferredPartner =>
      ReassignDeliveryPartner orderID preferredPartner ;;; ret tt
  end.

(** The tasks that a stretch of the trace shows as started, in order. *)
Fixpoint started_tasks (events : list Event) : list Task :=
  match events with
  | [] => []
  | EvGo task :: rest => task :: started_tasks rest
  | _ :: rest => started_tasks rest
  end.

(** Started tasks run to their end one after the other; a panic in a
    goroutine is recovered by nothing and ends the run. *)
Fixpoint run_tasks (tasks : list Task) : Go unit :=
  match tasks with
  | [] => ret tt
  | task :: rest => run_task task ;;; run_tasks rest
  end.

(** A request served to its end: the handler runs, and the goroutines
    that it has started run.  After its [go] statement [Webhook] only
    writes the answer, so the goroutine is run after the handler; the
    deadline of the goroutine's context is not represented. *)
Definition serve {A : Type} (handler : Go A) : Go A :=
  fun w =>
    match handler w with
    | (Done a, w1) =>
        match run_tasks (started_tasks (drop (length (w_trace w)) (w_trace w1))) w1 with
        | (Done _, w2) => (Done a, w2)
        | (Panic, w2) => (Panic, w2)
        end
    | (Panic, w1) => (Panic, w1)
    end.

(** [PorterHandler.Webhook]; [None] is a body that does not bind. *)
Definition Webhook (body : option PorterWebhookPayload) : Go Response :=
  match body with
  | None => ret (mkResponse 400 (<["error" := JStr "Invalid webhook payload"]> ∅))
  | Some payload =>
      if String.eqb (wp_OrderID payload) "" || String.eqb (wp_Status payload) ""
      then ret (mkResponse 400
                  (<["error" := JStr "Order ID and status are required in webhook payload"]> ∅))
      else
        r <-- porterDeliveryRepo_GetByPorterOrderID E (wp_OrderID payload) ;
        match r with
        | Fail _ =>
            ret (mkResponse 404
                   (<["error" := JStr (String.append "Porter delivery not found for order ID: "
                                         (wp_OrderID payload))]>
                   (<["porter_order_id" := JStr (wp_OrderID payload)]>
                   (<["status" := JStr (wp_Status payload)]> ∅))))
        | Ok porterDelivery =>
            r <-- orderRepo_GetByID E (pd_OrderID porterDelivery) ;
            match r with
            | Fail _ =>
                ret (mkResponse 404
                       (<["error" := JStr "Order not found for Porter delivery"]>
                       (<["porter_order_id" := JStr (wp_OrderID payload)]>
                       (<["order_id" := JStr (uuid_String E (pd_OrderID porterDelivery))]> ∅))))
            | Ok order =>
                let originalOrderStatus := o_OrderStatus order in
                e <-- HandleWebhook payload ;
                match e with
                | Some _ =>
                    ret (mkResponse 500
                           (<["error" := JStr "Failed to process webhook"]>
                           (<["porter_order_id" := JStr (wp_OrderID payload)]>
                           (<["order_id" := JStr (uuid_String E (o_ID order))]> ∅))))
                | None =>
                    (if String.eqb (wp_Status payload) "order_cancel"
                     then
                       if negb (String.eqb originalOrderStatus "cancelled")
                       then emit (EvGo (TaskReassign (o_ID order) "porter"))
                       else ret tt
                     else ret tt) ;;;
                    ret (mkResponse 200
                           (<["message" := JStr "Webhook processed successfully"]>
                           (<["porter_status" := JStr (wp_Status payload)]>
                           (<["order_id" := JStr (uuid_String E (o_ID order))]>
                           (<["porter_order_id" := JStr (wp_OrderID payload)]>
                           (<["order_status" := JStr (o_OrderStatus order)]>
                           (<["reassignment_triggered" :=
                                JBool (String.eqb (wp_Status payload) "order_cancel"
                                       && negb (String.eqb originalOrderStatus "cancelled"))]>
                              ∅)))))))
                end
            end
        end
  end.

(** [PorterHandler.ReassignPorterDelivery]. *)
Definition ReassignPorterDelivery (orderIDStr : string) : Go Response :=
  if String.eqb orderIDStr ""
  then ret (mkResponse 400 (<["error" := JStr "Order ID is required"]> ∅))
  else
    match uuid_Parse E orderIDStr with
    | None => ret (mkResponse 400 (<["error" := JStr "Invalid order ID format"]> ∅))
    | Some orderID =>
        r <-- orderRepo_GetByID E orderID ;
        match r with
        | Fail _ => ret (mkResponse 404 (<["error" := JStr "Order not found"]> ∅))
        | Ok _ =>
            e <-- porterDeliveryRepo_DeactivateOldDeliveries E orderID ;
            match e with
            | Some _ =>
                ret (mkResponse 500
                       (<["error" := JStr "Failed to deactivate old deliveries"]> ∅))
            | None =>
                a <-- porterDeliveryRepo_GetActiveByOrderID E orderID ;
                (match a with
                 | Ok activeDelivery =>
                     PorterService_CancelOrder (pd_PorterOrderID activeDelivery) ;;;
                     ret tt
                 | Fail _ => ret tt
                 end) ;;;
                e <-- ReassignDeliveryPartner orderID "porter" ;
                match e with
                | Some _ =>
                    ret (mkResponse 500
                           (<["error" := JStr "Failed to reassign Porter delivery"]> ∅))
                | None =>
                    r <-- orderRepo_GetByID E orderID ;
                    match r with
                    | Fail _ =>
                        ret (mkResponse 500
                               (<["error" := JStr "Failed to fetch updated order"]> ∅))
                    | Ok updatedOrder =>
                        ret (mkResponse 200
                               (<["message" := JStr "Porter delivery reassigned successfully"]>
                               (<["order" := JStr (uuid_String E (o_ID updatedOrder))]> ∅)))
                    end
                end
            end
        end
    end.

End WithEnv.
End Porter.

(* ================================================================== *)
(** * Sample data *)
(* ================================================================== *)

Module Samples.
Import Clock.

(** Opening hours with a single overnight entry, 22:00 to 04:00, stored
    under [key]. *)
Definition overnight_hours (key : string) : JSONB :=
  Some (<[key := Hours.day_entry true "22:00" "04:00"]> ∅).

(** An auto-managed restaurant with that schedule. *)
Definition overnight_restaurant (key : string) : Restaurant :=
  mkRestaurant 1%N "Night Diner" "" "active" false true (overnight_hours key) None.

(** A manually managed restaurant, currently open, with an empty schedule. *)
Definition manual_restaurant : Restaurant :=
  mkRestaurant 2%N "Manual Cafe" "" "active" true false (Some ∅) None.

(** An auto-managed restaurant, currently open, whose Monday entry is
    open but carries no times, stored under [key]. *)
Definition untimed_restaurant (key : string) : Restaurant :=
  mkRestaurant 3%N "Untimed Bistro" "" "active" true true
    (Some (<[key := Hours.day_entry true "" ""]> ∅)) None.

Definition monday_at (h m : nat) : Time := mkTime Monday h m 0.

Definition lunch : TimeRangeProductsGroup := mkGroup "Lunch" "11:00" "16:00" true.

End Samples.

(** A stand-in for the UUID library in the examples: identifiers are
    written in decimal. *)
Module SampleEnv.
Import Store Clock.

Definition id_String (id : UUID) : string :=
  NilEmpty.string_of_uint (N.to_uint id).

Definition id_Parse (s : string) : option UUID :=
  if String.eqb s "" then None
  else option_map N.of_uint (NilEmpty.uint_of_string s).

(** An environment with the given fault plan and a carrier that answers
    every request; the clock reads Monday 23:00. *)
Definition env (fault : DbOp -> bool) : Env :=
  mkEnv id_Parse id_String (mkTime Monday 23 0 1700000000) fault
        (fun _ => Ok (mkQuote "5.2 km" "TWO_WHEELER"))
        (fun _ => Ok (mkCreated "CRN2" "https://porter.in/track/CRN2" 1700000900 3500))
        (fun _ => false).

Definition no_fault : DbOp -> bool := fun _ => false.

Definition order_of (id restaurant : UUID) (status : string) : Order :=
  mkOrder id 100%N restaurant 200%N status None 4500 "Asha" "+919876543210" None.

Definition refund_of (id order : UUID) (status : string) : Refund :=
  mkRefund id order 300%N 100%N 4500 "cold food" status None None.

Definition delivery_of (id order : UUID) (porterOrderID : string) (active : bool)
  : PorterDelivery :=
  mkPorterDelivery id order porterOrderID "open" active "" "" "" None None None 0.

Definition empty_world : World := mkWorld ∅ ∅ [] [] [] ∅ [].

Definition restaurant_9 : Restaurant :=
  mkRestaurant 9%N "Spice Route" "" "active" true false None None.

(** One order (id 1, restaurant 9) in the given status, with one refund
    (id 5) in status [refundStatus] and one active delivery row (id 11,
    Porter order CRN1); restaurant 9 delivers through Porter. *)
Definition world_with (orderStatus refundStatus : string) : World :=
  mkWorld (<[1%N := order_of 1%N 9%N orderStatus]> ∅)
          (<[5%N := refund_of 5%N 1%N refundStatus]> ∅)
          [restaurant_9]
          [delivery_of 11%N 1%N "CRN1" true]
          [mkRestaurantDeliveryPartners 31%N 9%N 41%N]
          (<[41%N := mkDeliveryPartnerCompany 41%N "Porter"]> ∅)
          [].

End SampleEnv.

(** Webhook payloads for the examples. *)
Module SamplePayloads.
Import Porter.

Definition cancel_payload : PorterWebhookPayload :=
  mkPayload "order_cancel" "CRN1" (mkOrderDetails 0 None).

Definition accepted_without_driver : PorterWebhookPayload :=
  mkPayload "order_accepted" "CRN1" (mkOrderDetails 0 None).

End SamplePayloads.

(** Vocabulary for statements about the scheduler tick. *)
Module SchedulerSpec.
Import Store Repo Clock.

(** The restaurants the tick manages. *)
Definition auto_managed (r : Restaurant) : bool :=
  r_AutoOpenClose r && String.eqb (r_Status r) "active".

(** The computed status differs from the stored flag. *)
Definition status_differs (r : Restaurant) (checkTime : Time) : bool :=
  negb (Bool.eqb (r_IsOpen r) (Hours.shouldRestaurantBeOpenAtTime r checkTime)).

(** The row as the tick writes it: the flag flipped to the computed
    status and the update stamped. *)
Definition flipped (E : Env) (r : Restaurant) (checkTime : Time) : Restaurant :=
  set_r_LastStatusUpdate (Some (t_unix (time_Now E)))
    (set_r_IsOpen (Hours.shouldRestaurantBeOpenAtTime r checkTime) r).

(** The log line for a failed write of [r]. *)
Definition update_error_logged (r : Restaurant) : Event :=
  EvLogUpdateError (r_Name r) (r_ID r)
    (ErrWrap "failed to update restaurant status" (ErrDb (RestaurantUpdate (r_ID r)))).

(** What one pass over a page leaves behind. *)
Record page_post (E : Env) (page : list Restaurant) (t : Time)
  (u e : nat) (w : World) (u' e' : nat) (w' : World) : Prop := mkPagePost {
  pp_counted : (u' + e' = u + e + length page)%nat;
  pp_errors : (e <= e')%nat;
  pp_others : forall id, ~ In id (map r_ID page) ->
      row_of id (w_restaurants w') = row_of id (w_restaurants w);
  pp_written : forall r, In r page ->
      status_differs r t = true ->
      db_fault E (RestaurantUpdate (r_ID r)) = false ->
      row_of (r_ID r) (w_restaurants w') = Some (flipped E r t);
  pp_failed : forall r, In r page ->
      status_differs r t = true ->
      db_fault E (RestaurantUpdate (r_ID r)) = true ->
      row_of (r_ID r) (w_restaurants w') = row_of (r_ID r) (w_restaurants w) /\
      In (update_error_logged r) (w_trace w');
  pp_same : forall r, In r page ->
      status_differs r t = false ->
      row_of (r_ID r) (w_restaurants w') = row_of (r_ID r) (w_restaurants w);
  pp_trace : forall ev, In ev (w_trace w) -> In ev (w_trace w')
}.

End SchedulerSpec.

(** Three auto-managed restaurants for the tick example: at Monday 23:00
    A (closed, schedule open) and C (open, no schedule entry) have to be
    flipped, and so has B (closed, schedule open), whose write fails. *)
Module SampleTick.
Import Store Clock SampleEnv.

Definition all_day : JSONB :=
  Some (<["monday" := Hours.day_entry true "00:00" "23:59"]> ∅).

Definition restaurant_A : Restaurant :=
  mkRestaurant 21%N "A" "" "active" false true all_day None.
Definition restaurant_B : Restaurant :=
  mkRestaurant 22%N "B" "" "active" false true all_day None.
Definition restaurant_C : Restaurant :=
  mkRestaurant 23%N "C" "" "active" true true (Some ∅) None.

Definition fault_B : DbOp -> bool :=
  fun op => match op with
            | RestaurantUpdate id => (id =? 22)%N
            | _ => false
            end.

Definition world_ABC : World :=
  mkWorld ∅ ∅ [restaurant_A; restaurant_B; restaurant_C] [] [] ∅ [].

End SampleTick.

(** Vocabulary for statements about the reassignment. *)
Module ReassignSpec.
Import Store.

(** The cancel requests sent to the carrier that a trace records. *)
Definition cancels (trace : list Event) : list string :=
  omap (fun ev => match ev with EvPorterCancel id => Some id | _ => None end) trace.

(** The create requests sent to the carrier that a trace records. *)
Definition creates (trace : list Event) : list UUID :=
  omap (fun ev => match ev with EvPorterCreateOrder id => Some id | _ => None end) trace.

End ReassignSpec.

(* ================================================================== *)
(** * Go integers *)
(* ================================================================== *)

Module GoInt.

(** Arithmetic on [int] and [int64] (both 64 bits wide here) wraps. *)
Definition wrap64 (z : Z) : Z := (z + 2 ^ 63) mod 2 ^ 64 - 2 ^ 63.

Definition add64 (a b : Z) : Z := wrap64 (a + b).
Definition sub64 (a b : Z) : Z := wrap64 (a - b).
Definition mul64 (a b : Z) : Z := wrap64 (a * b).

(** Integer division truncates toward zero; a zero divisor panics. *)
Definition div64 (a b : Z) : option Z :=
  if b =? 0 then None else Some (wrap64 (Z.quot a b)).

End GoInt.

(* ================================================================== *)
(** * Reading an order, reading and processing refunds
      (order_service.go, refund_service.go) *)
(* ================================================================== *)

Module Orders.
Import Store Repo.

Section WithEnv.
Context (E : Env).

(** [OrderService.GetOrderByID]. *)
Definition GetOrderByID (orderID userID : string) : Go (result Order) :=
  match uuid_Parse E orderID with
  | None => ret (Fail (ErrNew "invalid order ID"))
  | Some orderUUID =>
      r <-- orderRepo_GetByID E orderUUID ;
      match r with
      | Fail err => ret (Fail err)
      | Ok order =>
          if negb (String.eqb (uuid_String E (o_UserID order)) userID)
          then ret (Fail (ErrNew "order not found"))
          else ret (Ok order)
      end
  end.

End WithEnv.
End Orders.

Module Refunds.
Import Store Repo GoInt.

(** The columns of [models.Payment] that identify a payment. *)
Record Payment : Type := mkPayment {
  pay_ID : UUID;
  pay_OrderID : UUID;
  pay_Status : string
}.

Definition set_rf_ProcessedAt (t : option Z) (r : Refund) : Refund :=
  mkRefund (rf_ID r) (rf_OrderID r) (rf_PaymentID r) (rf_UserID r)
           (rf_Amount r) (rf_Reason r) (rf_Status r) (rf_AdminComment r) t.

(** [services.RefundListResponse]. *)
Record RefundListResponse : Type := mkRefundListResponse {
  rl_Refunds : list Refund;
  rl_Total : Z;
  rl_Page : Z;
  rl_TotalPages : Z
}.

Section WithEnv.
Context (E : Env).

(** The two repository methods of the interfaces [PaymentRepository] and
    [RefundRepository] that the services below call and that are not part
    of [Repo]. *)
Context (paymentRepo_GetByOrderID : UUID -> Go (result Payment)).
Context (refundRepo_GetByUserIDWithFilters :
           UUID -> Z -> Z -> string -> Go (result (list Refund * Z))).

(** [RefundService.GetRefundByID]. *)
Definition GetRefundByID (userID refundID : string) : Go (result Refund) :=
  match uuid_Parse E userID with
  | None => ret (Fail (ErrNew "invalid user ID"))
  | Some userUUID =>
      match uuid_Parse E refundID with
      | None => ret (Fail (ErrNew "invalid refund ID"))
      | Some id =>
          r <-- refundRepo_GetByID E id ;
          match r with
          | Fail err => ret (Fail err)
          | Ok refund =>
              o <-- orderRepo_GetByID E (rf_OrderID refund) ;
              match o with
              | Fail _ => ret (Fail (ErrNew "associated order not found"))
              | Ok order =>
                  if negb (o_UserID order =? userUUID)%N
                  then ret (Fail (ErrNew "refund does not belong to user"))
                  else ret (Ok refund)
              end
          end
      end
  end.

(** [RefundService.ProcessRefund]. *)
Definition ProcessRefund (adminID refundID : string) : Go (result Refund) :=
  match uuid_Parse E refundID with
  | None => ret (Fail (ErrNew "invalid refund ID"))
  | Some id =>
      r <-- refundRepo_GetByID E id ;
      match r with
      | Fail err => ret (Fail err)
      | Ok refund =>
          if negb (String.eqb (rf_Status refund) "approved")
          then ret (Fail (ErrNew "refund must be approved before processing"))
          else
            p <-- paymentRepo_GetByOrderID (rf_OrderID refund) ;
            match p with
            | Fail _ => ret (Fail (ErrNew "original payment not found"))
            | Ok _ =>
                let refund := set_rf_Status "processed" refund in
                let refund :=
                  set_rf_ProcessedAt (Some (Clock.t_unix (time_Now E))) refund in
                e <-- refundRepo_Update E refund ;
                match e with
                | Some err => ret (Fail err)
                | None => ret (Ok refund)
                end
            end
      end
  end.

(** [RefundService.GetRefunds]. *)
Definition GetRefunds (userID : string) (page limit : Z) (status : string)
  : Go (result RefundListResponse) :=
  match uuid_Parse E userID with
  | None => ret (Fail (ErrNew "invalid user ID"))
  | Some userUUID =>
      let offset := mul64 (sub64 page 1) limit in
      r <-- refundRepo_GetByUserIDWithFilters userUUID offset limit status ;
      match r with
      | Fail err => ret (Fail err)
      | Ok (refunds, total) =>
          match div64 (sub64 (add64 total limit) 1) limit with
          | None => panic
          | Some totalPages =>
              ret (Ok (mkRefundListResponse refunds total page totalPages))
          end
      end
  end.

End WithEnv.
End Refunds.

(** Stand-ins for the two repository methods in the examples: a payment
    is on record for the orders listed in [paid], and the refunds of a
    user are those rows of the refunds table that carry the user's id. *)
Module SampleRepos.
Import Store Refunds.

Definition payments_of (paid : list UUID) : UUID -> Go (result Payment) :=
  fun orderID w =>
    if existsb (N.eqb orderID) paid
    then (Done (Ok (mkPayment (orderID + 1000)%N orderID "success")), w)
    else (Done (Fail ErrRecordNotFound), w).

Definition refunds_of_user : UUID -> Z -> Z -> string -> Go (result (list Refund * Z)) :=
  fun userID offset limit status w =>
    let rows :=
      List.filter
        (fun r => (rf_UserID r =? userID)%N
                  && (String.eqb status "" || String.eqb (rf_Status r) status))
        (map snd (map_to_list (w_refunds w))) in
    (Done (Ok (take (Z.to_nat limit) (drop (Z.to_nat offset) rows),
               Z.of_nat (length rows))), w).

End SampleRepos.

(* ================================================================== *)
(** * Starting, stopping and forcing the scheduler
      (enhanced_cron_service.go) *)
(* ================================================================== *)

Module CronControl.
Import Store Repo Clock.

(** The three background loops of the service. *)
Inductive Ticker : Type :=
| StatusUpdateTicker
| MaintenanceTicker
| DailyReportTicker.

(** The lines these operations write to the log. *)
Inductive CronLog : Type :=
| LogStarted
| LogSchedule (t : Ticker)
| LogStopped
| LogForceUpdated (name newStatus : string).

(** The fields of [EnhancedCronService] that starting and stopping read
    or write: the running flag and the stop channel, here with the one
    thing that matters of a channel nobody sends on, whether it has been
    closed.  [goroutines] lists the loops started with [go], [logged] the
    lines written. *)
Record EnhancedCronService : Type := mkEnhancedCronService {
  isRunning : bool;
  stopChan_closed : bool;
  goroutines : list Ticker;
  logged : list CronLog
}.

(** [NewEnhancedCronService]. *)
Definition NewEnhancedCronService : EnhancedCronService :=
  mkEnhancedCronService false false [] [].

(** [EnhancedCronService.StartAutomaticStatusManagement]. *)
Definition StartAutomaticStatusManagement (s : EnhancedCronService)
  : outcome (option error) * EnhancedCronService :=
  if isRunning s then (Done (Some (ErrNew "cron service is already running")), s)
  else
    (Done None,
     mkEnhancedCronService true (stopChan_closed s)
       (goroutines s ++ [StatusUpdateTicker; MaintenanceTicker; DailyReportTicker])
       (logged s ++ [LogStarted; LogSchedule StatusUpdateTicker;
                     LogSchedule MaintenanceTicker; LogSchedule DailyReportTicker])).

(** [EnhancedCronService.StopAutomaticStatusManagement]; closing a closed
    channel panics. *)
Definition StopAutomaticStatusManagement (s : EnhancedCronService)
  : outcome unit * EnhancedCronService :=
  if negb (isRunning s) then (Done tt, s)
  else if stopChan_closed s then (Panic, s)
  else
    (Done tt,
     mkEnhancedCronService false true (goroutines s) (logged s ++ [LogStopped])).

Definition set_r_Status (status : string) (r : Restaurant) : Restaurant :=
  mkRestaurant (r_ID r) (r_Name r) (r_Description r) status (r_IsOpen r)
    (r_AutoOpenClose r) (r_OpeningHours r) (r_LastStatusUpdate r).

Section WithEnv.
Context (E : Env).

(** [EnhancedCronService.determineRestaurantStatus]; [None] is the nil
    pointer. *)
Definition determineRestaurantStatus (restaurant : option Restaurant) : string :=
  match restaurant with
  | None => "closed"
  | Some restaurant =>
      if negb (r_AutoOpenClose restaurant) then
        if r_IsOpen restaurant then "open" else "closed"
      else
        let currentTime := time_Now E in
        if Hours.shouldRestaurantBeOpenAtTime restaurant currentTime then "open"
        else "closed"
  end.

(** [EnhancedCronService.ForceStatusUpdate]; the lines it logs are
    returned beside its error.  The text that the UUID library adds to
    "invalid restaurant ID" is not represented. *)
Definition ForceStatusUpdate (restaurantID : string)
  : Go (option error * list CronLog) :=
  match uuid_Parse E restaurantID with
  | None => ret (Some (ErrNew "invalid restaurant ID"), [])
  | Some restaurantUUID =>
      r <-- restaurantRepo_GetByID E restaurantUUID ;
      match r with
      | Fail _ => ret (Some (ErrNew "restaurant not found"), [])
      | Ok restaurant =>
          let newStatus := determineRestaurantStatus (Some restaurant) in
          if negb (String.eqb (r_Status restaurant) newStatus) then
            let restaurant := set_r_Status newStatus restaurant in
            let now := t_unix (time_Now E) in
            let restaurant := set_r_LastStatusUpdate (Some now) restaurant in
            e <-- restaurantRepo_Update E restaurant ;
            match e with
            | Some err =>
                ret (Some (ErrWrap "failed to update restaurant status" err), [])
            | None =>
                ret (None, [LogForceUpdated (r_Name restaurant) newStatus])
            end
          else ret (None, [])
      end
  end.

End WithEnv.
End CronControl.

(** Vocabulary for statements about sequences of start and stop requests. *)
Module CronControlSpec.
Import Store CronControl.

Inductive Call : Type := CallStart | CallStop.

Definition Call_eqb (a b : Call) : bool :=
  match a, b with
  | CallStart, CallStart | CallStop, CallStop => true
  | _, _ => false
  end.

(** The calls made one after the other; [None] when one of them panics. *)
Fixpoint run (calls : list Call) (s : EnhancedCronService)
  : option EnhancedCronService :=
  match calls with
  | [] => Some s
  | CallStart :: rest =>
      match StartAutomaticStatusManagement s with
      | (Done _, s') => run rest s'
      | (Panic, _) => None
      end
  | CallStop :: rest =>
      match StopAutomaticStatusManagement s with
      | (Done _, s') => run rest s'
      | (Panic, _) => None
      end
  end.

(** [pattern] occurs in [calls] in this order, not necessarily side by
    side. *)
Fixpoint occurs_in_order (pattern calls : list Call) : bool :=
  match pattern, calls with
  | [], _ => true
  | _ :: _, [] => false
  | p :: pattern', c :: calls' =>
      if Call_eqb p c then occurs_in_order pattern' calls'
      else occurs_in_order pattern calls'
  end.

(** What is left of the pattern start, stop, start, stop once the
    service is in state [s]. *)
Definition remaining (s : EnhancedCronService) : list Call :=
  match isRunning s, stopChan_closed s with
  | false, false => [CallStart; CallStop; CallStart; CallStop]
  | true, false => [CallStop; CallStart; CallStop]
  | false, true => [CallStart; CallStop]
  | true, true => [CallStop]
  end.

(** How often a service in state [s] has been started with effect. *)
Definition effective_starts (s : EnhancedCronService) : nat :=
  match isRunning s, stopChan_closed s with
  | false, false => 0
  | true, false => 1
  | false, true => 1
  | true, true => 2
  end.

End CronControlSpec.

(** A table for the paging example: two hundred manually managed
    restaurants (ids 1000 to 1199) followed by restaurant A of the tick
    example, which is auto-managed and due to be opened. *)
Module SampleLongTable.
Import Store SampleEnv SampleTick.

Definition manual_row (i : nat) : Restaurant :=
  mkRestaurant (1000 + N.of_nat i)%N "Manual" "" "active" true false None None.

Definition world_201 : World :=
  mkWorld ∅ ∅ (map manual_row (seq 0 200) ++ [restaurant_A]) [] [] ∅ [].

End SampleLongTable.

(* ================================================================== *)
(** * Pure helpers: the customer's phone number, the availability part
      of a product listing and its pagination
      (porter_service.go, time_based_product_service.go) *)
(* ================================================================== *)

Module PorterRequest.

(** [contact[n:]]. *)
Definition slice_from (n : nat) (contact : string) : string :=
  substring n (String.length contact - n) contact.

(** [PorterService.extractPhoneNumber]. *)
Definition extractPhoneNumber (contact : string) : string :=
  if (10 <? String.length contact)%nat && String.eqb (substring 0 3 contact) "+91"
  then slice_from 3 contact
  else if (10 <? String.length contact)%nat && String.eqb (substring 0 2 contact) "91"
  then slice_from 2 contact
  else contact.

End PorterRequest.

Module Listing.
Import Clock Availability GoInt.

(** The loop of [TimeBasedProductService.findNextAvailableTime]. *)
Fixpoint range_active (timeGroups : list TimeRangeProductsGroup) : option string :=
  match timeGroups with
  | [] => None
  | group :: rest =>
      if g_IsActive group then Some (g_StartTime group) else range_active rest
  end.

(** [TimeBasedProductService.findNextAvailableTime]. *)
Definition findNextAvailableTime (timeGroups : list TimeRangeProductsGroup)
  (currentTime : Time) : option string :=
  if (length timeGroups =? 0)%nat then None else range_active timeGroups.

(** The availability fields of [ProductTimeInfo]. *)
Record AvailabilityInfo : Type := mkAvailabilityInfo {
  ai_IsAvailable : bool;
  ai_NextAvailable : option string;
  ai_Reason : string
}.

(** The part of the loop body of [buildProductTimeInfos] that fills these
    fields for one product, once the product's groups are known. *)
Definition availability_info (product : Product)
  (timeGroups : list TimeRangeProductsGroup) (targetTime : Time)
  (restaurantIsOpen : bool) : AvailabilityInfo :=
  let isAvailable := isProductAvailable product timeGroups targetTime restaurantIsOpen in
  if negb isAvailable then
    mkAvailabilityInfo isAvailable
      (findNextAvailableTime timeGroups targetTime)
      (getUnavailabilityReason product timeGroups targetTime restaurantIsOpen)
  else mkAvailabilityInfo isAvailable None "".

(** The pagination block of [GetProductsByTimeAdvanced]; [None] when the
    slice expression [productInfos[startIdx:endIdx]] panics. *)
Definition paginate {A : Type} (Page Limit : Z) (productInfos : list A)
  : option (list A) :=
  let len := Z.of_nat (length productInfos) in
  let startIdx := mul64 (sub64 Page 1) Limit in
  let endIdx := add64 startIdx Limit in
  let endIdx := if len <? endIdx then len else endIdx in
  let startIdx := if len <? startIdx then len else startIdx in
  if (0 <=? startIdx) && (startIdx <=? endIdx)
  then Some (take (Z.to_nat (endIdx - startIdx)) (drop (Z.to_nat startIdx) productInfos))
  else None.

(** The pages 1 to [n] laid end to end; [None] when one of them panics. *)
Fixpoint first_pages {A : Type} (n : nat) (Limit : Z) (productInfos : list A)
  : option (list A) :=
  match n with
  | O => Some []
  | S n' =>
      match first_pages n' Limit productInfos,
            paginate (Z.of_nat (S n')) Limit productInfos with
      | Some before, Some page => Some (before ++ page)%list
      | _, _ => None
      end
  end.

End Listing.

(** Vocabulary for statements about clock times. *)
Module ClockSpec.
Import Clock.

(** A time of day as the clock shows it. *)
Definition wellformed (t : Time) : Prop := (t_hour t < 24)%nat /\ (t_minute t < 60)%nat.

(** Minutes since midnight. *)
Definition minutes (t : Time) : nat := (60 * t_hour t + t_minute t)%nat.

(** The window rule on minutes since midnight. *)
Definition in_window_minutes (time openTime closeTime : nat) : bool :=
  if (closeTime <? openTime)%nat
  then (openTime <=? time)%nat || (time <=? closeTime)%nat
  else (openTime <=? time)%nat && (time <=? closeTime)%nat.

Definition comparison_eqb (x y : comparison) : bool :=
  match x, y with
  | Eq, Eq | Lt, Lt | Gt, Gt => true
  | _, _ => false
  end.

End ClockSpec.

(* ================================================================== *)
(** * Shop timing and its cache (the ShopTimeService of
      razorpay_service.go, the Redis cache)

    The service holds a connected cache, which is passed explicitly
    beside the world.  An entry holds the restaurant that was marshalled
    into it and the instant at which it expires; the columns modelled here
    come back from the JSON round trip as they went in.  The callers
    ignore the errors of [Set] and [DeleteWithPrefix] and treat an error
    of [Get] as a miss. *)
(* ================================================================== *)

Module ShopTime.
Import Store Repo Clock.

Record CacheEntry : Type := mkCacheEntry {
  ce_value : Restaurant;
  ce_expires : Z
}.

(** [services.DayTiming]. *)
Record DayTiming : Type := mkDayTiming {
  dt_IsOpen : bool;
  dt_OpenTime : string;
  dt_CloseTime : string
}.

(** [services.UpdateShopTimingRequest]. *)
Record UpdateShopTimingRequest : Type := mkUpdateShopTimingRequest {
  ust_OpeningHours : gmap string DayTiming;
  ust_AutoOpenClose : bool
}.

(** [services.ShopStatusRequest]. *)
Record ShopStatusRequest : Type := mkShopStatusRequest {
  ssr_IsOpen : bool
}.

Definition set_r_OpeningHours (h : JSONB) (r : Restaurant) : Restaurant :=
  mkRestaurant (r_ID r) (r_Name r) (r_Description r) (r_Status r) (r_IsOpen r)
    (r_AutoOpenClose r) h (r_LastStatusUpdate r).

Definition set_r_AutoOpenClose (b : bool) (r : Restaurant) : Restaurant :=
  mkRestaurant (r_ID r) (r_Name r) (r_Description r) (r_Status r) (r_IsOpen r)
    b (r_OpeningHours r) (r_LastStatusUpdate r).

(** The loop of [UpdateShopTiming] that turns the request into the JSONB
    column, day by day under the key the request gives. *)
Definition range_days (openingHours : gmap string DayTiming) : gmap string jvalue :=
  (fun timing =>
     Hours.day_entry (dt_IsOpen timing) (dt_OpenTime timing) (dt_CloseTime timing))
  <$> openingHours.

Section WithEnv.
Context (E : Env).

(** Which cache keys the Redis server fails on. *)
Context (cache_fault : string -> bool).

(** [RedisCache.Get] into a restaurant: an error when the call fails,
    the key is absent or the entry has expired. *)
Definition cache_Get (key : string) (cache : gmap string CacheEntry) : option Restaurant :=
  if cache_fault key then None
  else match cache !! key with
       | Some entry =>
           if t_unix (time_Now E) <? ce_expires entry then Some (ce_value entry)
           else None
       | None => None
       end.

(** [RedisCache.Set] with an expiration in seconds. *)
Definition cache_Set (key : string) (value : Restaurant) (expiration : Z)
  (cache : gmap string CacheEntry) : gmap string CacheEntry :=
  if cache_fault key then cache
  else <[key := mkCacheEntry value (t_unix (time_Now E) + expiration)]> cache.

(** [RedisCache.DeleteWithPrefix]. *)
Definition cache_DeleteWithPrefix (prefix key : string) (cache : gmap string CacheEntry) : gmap string CacheEntry :=
  if cache_fault (String.append prefix (String.append ":" key)) then cache
  else delete (String.append prefix (String.append ":" key)) cache.

(** [ShopTimeService.UpdateShopTiming]. *)
Definition UpdateShopTiming (restaurantID : string) (req : UpdateShopTimingRequest)
  (cache : gmap string CacheEntry) : Go (result Restaurant * gmap string CacheEntry) :=
  match uuid_Parse E restaurantID with
  | None => ret (Fail (ErrNew "invalid restaurant ID"), cache)
  | Some restaurantUUID =>
      r <-- restaurantRepo_GetByID E restaurantUUID ;
      match r with
      | Fail err => ret (Fail (ErrWrap "restaurant not found" err), cache)
      | Ok restaurant =>
          let openingHoursJSON := range_days (ust_OpeningHours req) in
          let restaurant := set_r_OpeningHours (Some openingHoursJSON) restaurant in
          let restaurant := set_r_AutoOpenClose (ust_AutoOpenClose req) restaurant in
          e <-- restaurantRepo_Update E restaurant ;
          match e with
          | Some err => ret (Fail (ErrWrap "failed to update restaurant" err), cache)
          | None =>
              ret (Ok restaurant, cache_DeleteWithPrefix "restaurant" restaurantID cache)
          end
      end
  end.

(** [ShopTimeService.GetShopTiming]. *)
Definition GetShopTiming (restaurantID : string) (cache : gmap string CacheEntry)
  : Go (result Restaurant * gmap string CacheEntry) :=
  match uuid_Parse E restaurantID with
  | None => ret (Fail (ErrNew "invalid restaurant ID"), cache)
  | Some restaurantUUID =>
      let cacheKey :=
        String.append "restaurant:" (String.append restaurantID ":timing") in
      match cache_Get cacheKey cache with
      | Some restaurant => ret (Ok restaurant, cache)
      | None =>
          r <-- restaurantRepo_GetByID E restaurantUUID ;
          match r with
          | Fail err => ret (Fail (ErrWrap "restaurant not found" err), cache)
          | Ok restaurantPtr =>
              ret (Ok restaurantPtr, cache_Set cacheKey restaurantPtr 300 cache)
          end
      end
  end.

(** [ShopTimeService.UpdateShopStatus]. *)
Definition UpdateShopStatus (restaurantID : string) (req : ShopStatusRequest)
  (cache : gmap string CacheEntry) : Go (result Restaurant * gmap string CacheEntry) :=
  match uuid_Parse E restaurantID with
  | None => ret (Fail (ErrNew "invalid restaurant ID"), cache)
  | Some restaurantUUID =>
      r <-- restaurantRepo_GetByID E restaurantUUID ;
      match r with
      | Fail err => ret (Fail (ErrWrap "restaurant not found" err), cache)
      | Ok restaurant =>
          let restaurant := set_r_IsOpen (ssr_IsOpen req) restaurant in
          e <-- restaurantRepo_Update E restaurant ;
          match e with
          | Some err =>
              ret (Fail (ErrWrap "failed to update restaurant status" err), cache)
          | None =>
              ret (Ok restaurant, cache_DeleteWithPrefix "restaurant" restaurantID cache)
          end
      end
  end.

End WithEnv.
End ShopTime.

(** Vocabulary for statements about a stored shop timing. *)
Module ShopTimeSpec.
Import ShopTime.

(** The verdict of the same-day comparison on the timing of a day. *)
Definition verdict_same_day (flag : bool) (timing : option DayTiming) (time : string)
  : bool :=
  match timing with
  | None => false
  | Some timing =>
      if negb (dt_IsOpen timing) then false
      else if String.eqb (dt_OpenTime timing) "" || String.eqb (dt_CloseTime timing) ""
      then flag
      else GoString.ge time (dt_OpenTime timing) && GoString.le time (dt_CloseTime timing)
  end.

(** The verdict of the window rule on the timing of a day. *)
Definition verdict_window (timing : option DayTiming) (time : string) : bool :=
  match timing with
  | None => false
  | Some timing =>
      if negb (dt_IsOpen timing) then false
      else if String.eqb (dt_OpenTime timing) "" || String.eqb (dt_CloseTime timing) ""
      then false
      else Hours.in_window time (dt_OpenTime timing) (dt_CloseTime timing)
  end.

End ShopTimeSpec.

(** An environment like that of the examples, with the clock reading the
    given instant. *)
Module SampleClock.
Import Store Clock SampleEnv.

Definition env_at (unix : Z) : Env :=
  mkEnv id_Parse id_String (mkTime Monday 23 0 unix) no_fault
        (fun _ => Ok (mkQuote "5.2 km" "TWO_WHEELER"))
        (fun _ => Ok (mkCreated "CRN2" "https://porter.in/track/CRN2" 1700000900 3500))
        (fun _ => false).

Definition cache_up : string -> bool := fun _ => false.

End SampleClock.

(* ================================================================== *)
(** * Properties *)
(* ================================================================== *)

(** ** Transition tables *)

Module TransitionFacts.
Import Transitions.

Lemma range_allowed_In (allowedStatuses : list string) (newStatus : string) :
  range_allowed allowedStatuses newStatus = true <-> In newStatus allowedStatuses.
Proof.
  induction allowedStatuses as [|a rest IH]; simpl.
  - split; [discriminate | tauto].
  - destruct (String.eqb_spec newStatus a) as [->|Hne].
    + split; auto.
    + rewrite IH. split; [auto | intros [Heq|Hin]; [congruence | exact Hin]].
Qed.

Lemma order_lookup_unknown (current : string) :
  current <> "pending" -> current <> "confirmed" -> current <> "preparing" ->
  current <> "dispatched" -> current <> "delivered" -> current <> "cancelled" ->
  order_validTransitions !! current = None.
Proof.
  intros. unfold order_validTransitions.
  rewrite !lookup_insert_ne by congruence. apply lookup_empty.
Qed.

Lemma refund_lookup_unknown (current : string) :
  current <> "pending" -> current <> "approved" -> current <> "rejected" ->
  current <> "processed" -> current <> "failed" ->
  refund_validTransitions !! current = None.
Proof.
  intros. unfold refund_validTransitions.
  rewrite !lookup_insert_ne by congruence. apply lookup_empty.
Qed.

(** The order check agrees with membership in the map entry. *)
Lemma order_check_unfold (current requested : string) (allowed : list string) :
  order_validTransitions !! current = Some allowed ->
  (order_isValidStatusTransition current requested = true <-> In requested allowed).
Proof.
  intros H. unfold order_isValidStatusTransition. rewrite H. apply range_allowed_In.
Qed.

Lemma refund_check_unfold (current requested : string) (allowed : list string) :
  refund_validTransitions !! current = Some allowed ->
  (isValidStatusTransition current requested = true <-> In requested allowed).
Proof.
  intros H. unfold isValidStatusTransition. rewrite H. apply range_allowed_In.
Qed.

Ltac table_case Hunfold tbl c :=
  let v := eval vm_compute in (tbl !! c) in
  let Hl := fresh "Hl" in
  assert (Hl : tbl !! c = v) by (vm_compute; reflexivity);
  rewrite (Hunfold c _ _ Hl); clear Hl; simpl;
  split;
  [ intros H; repeat (destruct H as [H|H]; [subst; tauto|]); contradiction
  | intros H; repeat (destruct H as [H|H]; [inversion H; subst; tauto|]); contradiction ].

Lemma order_check_table (current requested : string) :
  order_isValidStatusTransition current requested = true
  <-> In (current, requested) order_table.
Proof.
  destruct (String.eqb_spec current "pending") as [->|H1]; [table_case order_check_unfold order_validTransitions "pending"|].
  destruct (String.eqb_spec current "confirmed") as [->|H2]; [table_case order_check_unfold order_validTransitions "confirmed"|].
  destruct (String.eqb_spec current "preparing") as [->|H3]; [table_case order_check_unfold order_validTransitions "preparing"|].
  destruct (String.eqb_spec current "dispatched") as [->|H4]; [table_case order_check_unfold order_validTransitions "dispatched"|].
  destruct (String.eqb_spec current "delivered") as [->|H5]; [table_case order_check_unfold order_validTransitions "delivered"|].
  destruct (String.eqb_spec current "cancelled") as [->|H6]; [table_case order_check_unfold order_validTransitions "cancelled"|].
  unfold order_isValidStatusTransition.
  rewrite order_lookup_unknown by assumption.
  split; [discriminate|].
  simpl. intros H.
  repeat (destruct H as [H|H]; [inversion H; subst; congruence|]). contradiction.
Qed.

Lemma refund_check_table (current requested : string) :
  isValidStatusTransition current requested = true
  <-> In (current, requested) refund_table.
Proof.
  destruct (String.eqb_spec current "pending") as [->|H1]; [table_case refund_check_unfold refund_validTransitions "pending"|].
  destruct (String.eqb_spec current "approved") as [->|H2]; [table_case refund_check_unfold refund_validTransitions "approved"|].
  destruct (String.eqb_spec current "rejected") as [->|H3]; [table_case refund_check_unfold refund_validTransitions "rejected"|].
  destruct (String.eqb_spec current "processed") as [->|H4]; [table_case refund_check_unfold refund_validTransitions "processed"|].
  destruct (String.eqb_spec current "failed") as [->|H5]; [table_case refund_check_unfold refund_validTransitions "failed"|].
  unfold isValidStatusTransition.
  rewrite refund_lookup_unknown by assumption.
  split; [discriminate|].
  simpl. intros H.
  repeat (destruct H as [H|H]; [inversion H; subst; congruence|]). contradiction.
Qed.

Lemma not_true_false (b : bool) : ~ (b = true) -> b = false.
Proof. destruct b; [intros H; exfalso; apply H; reflexivity | reflexivity]. Qed.

(** C1. For every pair of status strings the order check is true exactly
    on the pairs of the order table and the refund check exactly on the
    pairs of the refund table; hence every unlisted pair, unknown strings
    included, gives false, and [delivered], [cancelled] (orders) and
    [rejected], [processed] (refunds) have no outgoing transition. *)
Theorem transition_checks_match_tables :
  (forall current requested : string,
     order_isValidStatusTransition current requested = true
     <-> In (current, requested) order_table) /\
  (forall current requested : string,
     isValidStatusTransition current requested = true
     <-> In (current, requested) refund_table) /\
  (forall current requested : string,
     ~ In (current, requested) order_table ->
     order_isValidStatusTransition current requested = false) /\
  (forall current requested : string,
     ~ In (current, requested) refund_table ->
     isValidStatusTransition current requested = false) /\
  (forall requested : string,
     order_isValidStatusTransition "delivered" requested = false /\
     order_isValidStatusTransition "cancelled" requested = false /\
     isValidStatusTransition "rejected" requested = false /\
     isValidStatusTransition "processed" requested = false).
Proof.
  split; [exact order_check_table|].
  split; [exact refund_check_table|].
  split; [intros c r H; apply not_true_false; rewrite order_check_table; exact H|].
  split; [intros c r H; apply not_true_false; rewrite refund_check_table; exact H|].
  intros requested. repeat split; reflexivity.
Qed.

Lemma transition_checks_witness :
  order_isValidStatusTransition "delivered" "pending" = false /\
  order_isValidStatusTransition "shipped" "delivered" = false /\
  isValidStatusTransition "failed" "processed" = false /\
  order_isValidStatusTransition "preparing" "dispatched" = true /\
  isValidStatusTransition "failed" "approved" = true.
Proof.
  destruct transition_checks_match_tables as (Ho & Hr & Hno & Hnr & _).
  assert (Hnot : forall (p : string * string) (l : list (string * string)),
             forallb (fun q => negb (String.eqb (fst p) (fst q) && String.eqb (snd p) (snd q))) l
             = true -> ~ In p l).
  { intros p l. induction l as [|q rest IH]; simpl; [tauto|].
    intros Hall [Heq|Hin].
    - subst q. rewrite !String.eqb_refl in Hall. discriminate Hall.
    - apply andb_true_iff in Hall. destruct Hall as [_ Hall]. exact (IH Hall Hin). }
  split; [apply Hno; apply Hnot; reflexivity|].
  split; [apply Hno; apply Hnot; reflexivity|].
  split; [apply Hnr; apply Hnot; reflexivity|].
  split; [apply Ho; simpl; tauto | apply Hr; simpl; tauto].
Defined.

End TransitionFacts.

(** ** String order *)

Module GoStringFacts.

(** No string lies between [o] and [c] when [c] is below [o]. *)
Lemma no_time_in_reversed_window (t o c : string) :
  GoString.lt c o = true ->
  GoString.ge t o && GoString.le t c = false.
Proof.
  unfold GoString.lt, GoString.ge, GoString.le. intros Hco.
  destruct (String.compare c o) eqn:Hc; try discriminate Hco. clear Hco.
  apply String_as_OT.cmp_lt in Hc.
  pose proof (String_as_OT.cmp_antisym o t) as Hot.
  pose proof (String_as_OT.cmp_antisym t c) as Htc.
  unfold String_as_OT.cmp in Hot, Htc.
  destruct (String.compare t o) eqn:Hto; [| reflexivity |].
  - apply String_as_OT.cmp_eq in Hto. subst t.
    apply String_as_OT.cmp_lt in Hc. unfold String_as_OT.cmp in Hc.
    rewrite Htc, Hc. reflexivity.
  - assert (Hct : String_as_OT.lt c t).
    { eapply String_as_OT.lt_trans; [exact Hc|].
      apply String_as_OT.cmp_lt. unfold String_as_OT.cmp. rewrite Hot. reflexivity. }
    apply String_as_OT.cmp_lt in Hct. unfold String_as_OT.cmp in Hct.
    rewrite Htc, Hct. reflexivity.
Qed.

End GoStringFacts.

(** ** Opening hours *)

Module HoursFacts.
Import Clock Hours Samples.

(** The scheduler's evaluator on an auto-managed restaurant whose entry
    for the day is open and carries both times: the window rule. *)
Lemma shouldRestaurantBeOpenAtTime_window
  (restaurant : Restaurant) (checkTime : Time)
  (openingHours dayTimingMap : gmap string jvalue) :
  r_AutoOpenClose restaurant = true ->
  r_OpeningHours restaurant = Some openingHours ->
  openingHours !! lower_key checkTime = Some (JObj dayTimingMap) ->
  Json.as_bool (dayTimingMap !! "is_open") = true ->
  Json.as_string (dayTimingMap !! "open_time") <> "" ->
  Json.as_string (dayTimingMap !! "close_time") <> "" ->
  shouldRestaurantBeOpenAtTime restaurant checkTime
  = in_window (Format1504 checkTime)
      (Json.as_string (dayTimingMap !! "open_time"))
      (Json.as_string (dayTimingMap !! "close_time")).
Proof.
  intros Hauto Hoh Hday Hopen Ho Hc.
  unfold shouldRestaurantBeOpenAtTime, in_window, lower_key in *.
  rewrite Hauto, Hoh. simpl. rewrite Hday. simpl. rewrite Hopen. simpl.
  destruct (String.eqb_spec (Json.as_string (dayTimingMap !! "open_time")) "") as [e|_];
    [contradiction|].
  destruct (String.eqb_spec (Json.as_string (dayTimingMap !! "close_time")) "") as [e|_];
    [contradiction|].
  reflexivity.
Qed.

(** The sibling [CronService.shouldRestaurantBeOpen] applies the same
    window rule, under the capitalised weekday name. *)
Lemma shouldRestaurantBeOpen_window
  (restaurant : Restaurant) (checkTime : Time)
  (openingHours dayTimingMap : gmap string jvalue) :
  r_AutoOpenClose restaurant = true ->
  r_OpeningHours restaurant = Some openingHours ->
  openingHours !! title_key checkTime = Some (JObj dayTimingMap) ->
  Json.as_bool (dayTimingMap !! "is_open") = true ->
  Json.as_string (dayTimingMap !! "open_time") <> "" ->
  Json.as_string (dayTimingMap !! "close_time") <> "" ->
  shouldRestaurantBeOpen restaurant checkTime
  = in_window (Format1504 checkTime)
      (Json.as_string (dayTimingMap !! "open_time"))
      (Json.as_string (dayTimingMap !! "close_time")).
Proof.
  intros Hauto Hoh Hday Hopen Ho Hc.
  unfold shouldRestaurantBeOpen, in_window, title_key in *.
  rewrite Hauto, Hoh. simpl. rewrite Hday. simpl. rewrite Hopen. simpl.
  destruct (String.eqb_spec (Json.as_string (dayTimingMap !! "open_time")) "") as [e|_];
    [contradiction|].
  destruct (String.eqb_spec (Json.as_string (dayTimingMap !! "close_time")) "") as [e|_];
    [contradiction|].
  reflexivity.
Qed.

(** [ShopTimeService.isRestaurantOpenAtTime] in the same situation: only
    the same-day comparison, whatever the order of the two times. *)
Lemma isRestaurantOpenAtTime_same_day_only
  (restaurant : Restaurant) (checkTime : Time)
  (openingHours dayTimingMap : gmap string jvalue) :
  r_AutoOpenClose restaurant = true ->
  r_OpeningHours restaurant = Some openingHours ->
  openingHours !! title_key checkTime = Some (JObj dayTimingMap) ->
  Json.as_bool (dayTimingMap !! "is_open") = true ->
  Json.as_string (dayTimingMap !! "open_time") <> "" ->
  Json.as_string (dayTimingMap !! "close_time") <> "" ->
  isRestaurantOpenAtTime restaurant checkTime
  = GoString.ge (Format1504 checkTime) (Json.as_string (dayTimingMap !! "open_time"))
    && GoString.le (Format1504 checkTime) (Json.as_string (dayTimingMap !! "close_time")).
Proof.
  intros Hauto Hoh Hday Hopen Ho Hc.
  unfold isRestaurantOpenAtTime, title_key in *.
  rewrite Hauto, Hoh. simpl. rewrite Hday. simpl. rewrite Hopen. simpl.
  destruct (String.eqb_spec (Json.as_string (dayTimingMap !! "open_time")) "") as [e|_];
    [contradiction|].
  destruct (String.eqb_spec (Json.as_string (dayTimingMap !! "close_time")) "") as [e|_];
    [contradiction|].
  reflexivity.
Qed.

(** Hence [ShopTimeService.isRestaurantOpenAtTime] never reports an
    overnight window open, at any time of the day. *)
Lemma isRestaurantOpenAtTime_overnight_never_open
  (restaurant : Restaurant) (checkTime : Time)
  (openingHours dayTimingMap : gmap string jvalue) :
  r_AutoOpenClose restaurant = true ->
  r_OpeningHours restaurant = Some openingHours ->
  openingHours !! title_key checkTime = Some (JObj dayTimingMap) ->
  Json.as_bool (dayTimingMap !! "is_open") = true ->
  Json.as_string (dayTimingMap !! "open_time") <> "" ->
  Json.as_string (dayTimingMap !! "close_time") <> "" ->
  GoString.lt (Json.as_string (dayTimingMap !! "close_time"))
              (Json.as_string (dayTimingMap !! "open_time")) = true ->
  isRestaurantOpenAtTime restaurant checkTime = false.
Proof.
  intros Hauto Hoh Hday Hopen Ho Hc Hnight.
  rewrite (isRestaurantOpenAtTime_same_day_only restaurant checkTime
             openingHours dayTimingMap Hauto Hoh Hday Hopen Ho Hc).
  apply GoStringFacts.no_time_in_reversed_window. exact Hnight.
Qed.

(** The example of the specification on the scheduler's evaluator. *)
Example scheduler_overnight_example :
  shouldRestaurantBeOpenAtTime (overnight_restaurant "monday") (monday_at 23 0) = true /\
  shouldRestaurantBeOpenAtTime (overnight_restaurant "monday") (monday_at 5 0) = false /\
  shouldRestaurantBeOpenAtTime (overnight_restaurant "monday") (monday_at 21 59) = false.
Proof. repeat split; vm_compute; reflexivity. Qed.

(** C3. [ShopTimeService.isRestaurantOpenAtTime] on Monday 22:00 to 04:00
    at Monday 23:00: it reports closed, under the capitalised key it
    looks up as well as under the lower-case key, while the scheduler's
    evaluator and [CronService.shouldRestaurantBeOpen] report open. *)
Theorem isRestaurantOpenAtTime_overnight_closed :
  isRestaurantOpenAtTime (overnight_restaurant "Monday") (monday_at 23 0) = false /\
  isRestaurantOpenAtTime (overnight_restaurant "monday") (monday_at 23 0) = false /\
  shouldRestaurantBeOpen (overnight_restaurant "Monday") (monday_at 23 0) = true /\
  shouldRestaurantBeOpenAtTime (overnight_restaurant "monday") (monday_at 23 0) = true.
Proof. repeat split; vm_compute; reflexivity. Qed.

(** A restaurant that is not auto-managed is reported as its manual flag
    says, by both evaluators, whatever the schedule. *)
Lemma manual_restaurant_reports_flag (restaurant : Restaurant) (checkTime : Time) :
  r_AutoOpenClose restaurant = false ->
  shouldRestaurantBeOpenAtTime restaurant checkTime = r_IsOpen restaurant /\
  isRestaurantOpenAtTime restaurant checkTime = r_IsOpen restaurant.
Proof.
  intros H. unfold shouldRestaurantBeOpenAtTime, isRestaurantOpenAtTime.
  rewrite H. simpl. split; reflexivity.
Qed.

Lemma shouldRestaurantBeOpenAtTime_closed_day
  (restaurant : Restaurant) (checkTime : Time) (openingHours : gmap string jvalue) :
  r_AutoOpenClose restaurant = true ->
  r_OpeningHours restaurant = Some openingHours ->
  day_is_open openingHours (lower_key checkTime) = false ->
  shouldRestaurantBeOpenAtTime restaurant checkTime = false.
Proof.
  intros Hauto Hoh Hday.
  unfold shouldRestaurantBeOpenAtTime, day_is_open, lower_key in *.
  rewrite Hauto, Hoh. simpl.
  destruct (openingHours !! _) as [v|]; [|reflexivity].
  destruct v; simpl; try reflexivity.
  rewrite Hday. reflexivity.
Qed.

Lemma isRestaurantOpenAtTime_closed_day
  (restaurant : Restaurant) (checkTime : Time) (openingHours : gmap string jvalue) :
  r_AutoOpenClose restaurant = true ->
  r_OpeningHours restaurant = Some openingHours ->
  day_is_open openingHours (title_key checkTime) = false ->
  isRestaurantOpenAtTime restaurant checkTime = false.
Proof.
  intros Hauto Hoh Hday.
  unfold isRestaurantOpenAtTime, day_is_open, title_key in *.
  rewrite Hauto, Hoh. simpl.
  destruct (openingHours !! _) as [v|]; [|reflexivity].
  destruct v; simpl; try reflexivity.
  rewrite Hday. reflexivity.
Qed.

(** C4, as the claim states it, fails: a manually managed restaurant
    whose flag says open is reported open by both evaluators although its
    schedule has no entry for the day. *)
Lemma absent_day_open_when_manual :
  ~ (forall (restaurant : Restaurant) (checkTime : Time)
            (openingHours : gmap string jvalue),
       r_OpeningHours restaurant = Some openingHours ->
       openingHours !! lower_key checkTime = None ->
       openingHours !! title_key checkTime = None ->
       shouldRestaurantBeOpenAtTime restaurant checkTime = false /\
       isRestaurantOpenAtTime restaurant checkTime = false).
Proof.
  intros H.
  destruct (H manual_restaurant (monday_at 12 0) ∅ eq_refl eq_refl eq_refl) as [H1 _].
  vm_compute in H1. discriminate H1.
Qed.

(** C4, amended. For an auto-managed restaurant with a schedule, a day
    without an entry, or whose entry does not have [is_open] true, is
    reported closed by both evaluators (each under the key it looks up),
    whatever times the entry carries; the scheduler's evaluator reports
    closed without a schedule too. *)
Theorem closed_day_reported_closed_when_auto_managed
  (restaurant : Restaurant) (checkTime : Time) :
  r_AutoOpenClose restaurant = true ->
  (r_OpeningHours restaurant = None ->
   shouldRestaurantBeOpenAtTime restaurant checkTime = false) /\
  (forall openingHours : gmap string jvalue,
     r_OpeningHours restaurant = Some openingHours ->
     (day_is_open openingHours (lower_key checkTime) = false ->
      shouldRestaurantBeOpenAtTime restaurant checkTime = false) /\
     (day_is_open openingHours (title_key checkTime) = false ->
      isRestaurantOpenAtTime restaurant checkTime = false)).
Proof.
  intros Hauto. split.
  - intros Hnil. unfold shouldRestaurantBeOpenAtTime. rewrite Hauto, Hnil. reflexivity.
  - intros openingHours Hoh. split; intros Hday.
    + eapply shouldRestaurantBeOpenAtTime_closed_day; eassumption.
    + eapply isRestaurantOpenAtTime_closed_day; eassumption.
Qed.

Lemma closed_day_reported_closed_witness :
  shouldRestaurantBeOpenAtTime (overnight_restaurant "monday") (mkTime Tuesday 23 0 0) = false /\
  isRestaurantOpenAtTime (overnight_restaurant "Monday") (mkTime Tuesday 23 0 0) = false.
Proof.
  split.
  - destruct (closed_day_reported_closed_when_auto_managed
                (overnight_restaurant "monday") (mkTime Tuesday 23 0 0) eq_refl)
      as [_ H].
    destruct (H _ eq_refl) as [H1 _]. apply H1. vm_compute. reflexivity.
  - destruct (closed_day_reported_closed_when_auto_managed
                (overnight_restaurant "Monday") (mkTime Tuesday 23 0 0) eq_refl)
      as [_ H].
    destruct (H _ eq_refl) as [_ H2]. apply H2. vm_compute. reflexivity.
Defined.

(** C5, as the claim states it, fails for the scheduler's evaluator: the
    Monday entry is open and has no times, the manual flag says open, and
    the evaluator reports closed. *)
Lemma scheduler_untimed_day_closed :
  ~ (forall (restaurant : Restaurant) (checkTime : Time)
            (openingHours dayTimingMap : gmap string jvalue),
       r_OpeningHours restaurant = Some openingHours ->
       openingHours !! lower_key checkTime = Some (JObj dayTimingMap) ->
       Json.as_bool (dayTimingMap !! "is_open") = true ->
       Json.as_string (dayTimingMap !! "open_time") = "" ->
       shouldRestaurantBeOpenAtTime restaurant checkTime = r_IsOpen restaurant).
Proof.
  intros H.
  assert (H1 : shouldRestaurantBeOpenAtTime (untimed_restaurant "monday") (monday_at 12 0)
               = r_IsOpen (untimed_restaurant "monday")).
  { apply (H _ _ (<["monday" := day_entry true "" ""]> ∅) (day_fields true "" ""));
      vm_compute; reflexivity. }
  vm_compute in H1. discriminate H1.
Qed.

(** C5, amended. When the day's entry is open and its [open_time] or
    [close_time] is missing or empty, [ShopTimeService.isRestaurantOpenAtTime]
    returns the restaurant's [is_open] flag, and the scheduler's evaluator
    reports an auto-managed restaurant closed. *)
Theorem untimed_day_fallback
  (restaurant : Restaurant) (checkTime : Time)
  (openingHours dayTimingMap : gmap string jvalue) :
  r_OpeningHours restaurant = Some openingHours ->
  Json.as_bool (dayTimingMap !! "is_open") = true ->
  Json.as_string (dayTimingMap !! "open_time") = ""
  \/ Json.as_string (dayTimingMap !! "close_time") = "" ->
  (openingHours !! title_key checkTime = Some (JObj dayTimingMap) ->
   isRestaurantOpenAtTime restaurant checkTime = r_IsOpen restaurant) /\
  (openingHours !! lower_key checkTime = Some (JObj dayTimingMap) ->
   r_AutoOpenClose restaurant = true ->
   shouldRestaurantBeOpenAtTime restaurant checkTime = false).
Proof.
  intros Hoh Hopen Htimes.
  assert (Hempty : String.eqb (Json.as_string (dayTimingMap !! "open_time")) ""
                   || String.eqb (Json.as_string (dayTimingMap !! "close_time")) "" = true).
  { destruct Htimes as [-> | ->]; simpl; [reflexivity | apply orb_true_r]. }
  split.
  - intros Hday. unfold isRestaurantOpenAtTime, title_key in *.
    destruct (r_AutoOpenClose restaurant); simpl; [|reflexivity].
    rewrite Hoh, Hday. simpl. rewrite Hopen. simpl. rewrite Hempty. reflexivity.
  - intros Hday Hauto. unfold shouldRestaurantBeOpenAtTime, lower_key in *.
    rewrite Hauto, Hoh. simpl. rewrite Hday. simpl. rewrite Hopen. simpl.
    rewrite Hempty. reflexivity.
Qed.

Lemma untimed_day_fallback_witness :
  isRestaurantOpenAtTime (untimed_restaurant "Monday") (monday_at 12 0) = true /\
  shouldRestaurantBeOpenAtTime (untimed_restaurant "monday") (monday_at 12 0) = false.
Proof.
  split.
  - assert (H : r_OpeningHours (untimed_restaurant "Monday")
                = Some (<["Monday" := day_entry true "" ""]> ∅)) by reflexivity.
    destruct (untimed_day_fallback (untimed_restaurant "Monday") (monday_at 12 0)
                _ (day_fields true "" "") H) as [H1 _];
      [vm_compute; reflexivity | left; vm_compute; reflexivity |].
    apply H1. vm_compute. reflexivity.
  - assert (H : r_OpeningHours (untimed_restaurant "monday")
                = Some (<["monday" := day_entry true "" ""]> ∅)) by reflexivity.
    destruct (untimed_day_fallback (untimed_restaurant "monday") (monday_at 12 0)
                _ (day_fields true "" "") H) as [_ H2];
      [vm_compute; reflexivity | left; vm_compute; reflexivity |].
    apply H2; vm_compute; reflexivity.
Defined.

End HoursFacts.

(** ** Product availability *)

Module AvailabilityFacts.
Import Clock Availability Samples.

Lemma range_groups_spec (timeGroups : list TimeRangeProductsGroup) (targetTimeStr : string) :
  range_groups timeGroups targetTimeStr = true <->
  exists group, In group timeGroups /\ g_IsActive group = true /\
    isTimeInRange targetTimeStr (g_StartTime group) (g_EndTime group) = true.
Proof.
  induction timeGroups as [|g rest IH]; simpl.
  - split; [discriminate | intros (g & [] & _)].
  - destruct (g_IsActive g && isTimeInRange targetTimeStr (g_StartTime g) (g_EndTime g))
      eqn:Hg.
    + apply andb_true_iff in Hg as [Ha Hr].
      split; [intros _; exists g; auto | reflexivity].
    + rewrite IH. split.
      * intros (g' & Hin & Ha & Hr). exists g'. auto.
      * intros (g' & [Heq|Hin] & Ha & Hr).
        -- subst g'. rewrite Ha, Hr in Hg. discriminate Hg.
        -- exists g'. auto.
Qed.

(** C6, as the claim states it, fails: a product whose own availability
    flag is off, in no time group, is unavailable although the restaurant
    is open. *)
Lemma flagged_off_product_unavailable :
  ~ (forall (product : Product) (targetTime : Time),
       isProductAvailable product [] targetTime true = true).
Proof.
  intros H. specialize (H (mkProduct 7 false) (monday_at 12 30)).
  vm_compute in H. discriminate H.
Qed.

(** C6, amended. With the restaurant closed the product is unavailable
    and the reason is "Restaurant is closed", whatever its groups.  With
    the restaurant open and the product's own flag on, a product in no
    group is available, and a product in one or more groups is available
    exactly when the time lies in the window of an active group, windows
    following the overnight rule of the opening hours.  With the
    restaurant open and the flag off the product is unavailable and the
    reason is "Product is currently unavailable". *)
Theorem product_availability_cases
  (product : Product) (timeGroups : list TimeRangeProductsGroup) (targetTime : Time) :
  (isProductAvailable product timeGroups targetTime false = false /\
   getUnavailabilityReason product timeGroups targetTime false = "Restaurant is closed") /\
  (p_IsAvailable product = true ->
   isProductAvailable product [] targetTime true = true) /\
  (p_IsAvailable product = true -> timeGroups <> [] ->
   (isProductAvailable product timeGroups targetTime true = true
    <-> in_some_active_window timeGroups targetTime)) /\
  (p_IsAvailable product = false ->
   isProductAvailable product timeGroups targetTime true = false /\
   getUnavailabilityReason product timeGroups targetTime true
   = "Product is currently unavailable") /\
  (forall time startTime endTime : string,
     isTimeInRange time startTime endTime = Hours.in_window time startTime endTime).
Proof.
  split; [split; reflexivity|].
  split; [intros Hp; unfold isProductAvailable; simpl; rewrite Hp; reflexivity|].
  split.
  - intros Hp Hne. unfold isProductAvailable, in_some_active_window. simpl.
    rewrite Hp. simpl.
    destruct timeGroups as [|g rest]; [contradiction|].
    change (length (g :: rest) =? 0)%nat with false. cbv iota.
    apply range_groups_spec.
  - split; [|reflexivity].
    intros Hp. unfold isProductAvailable, getUnavailabilityReason. simpl.
    rewrite Hp. split; reflexivity.
Qed.

Lemma product_availability_witness :
  isProductAvailable (mkProduct 7 true) [] (monday_at 12 30) true = true /\
  isProductAvailable (mkProduct 7 true) [lunch] (monday_at 12 30) true = true /\
  isProductAvailable (mkProduct 7 false) [lunch] (monday_at 12 30) true = false.
Proof.
  destruct (product_availability_cases (mkProduct 7 true) [lunch] (monday_at 12 30))
    as (_ & H0 & H1 & _).
  destruct (product_availability_cases (mkProduct 7 false) [lunch] (monday_at 12 30))
    as (_ & _ & _ & H2 & _).
  split; [apply H0; reflexivity|].
  split.
  - apply H1; [reflexivity | discriminate |].
    exists lunch. split; [left; reflexivity|]. split; vm_compute; reflexivity.
  - apply H2. reflexivity.
Defined.

End AvailabilityFacts.

(** ** Status updates *)

Module UpdateFacts.
Import Store Repo Services Transitions SampleEnv.

(** Whenever [UpdateOrderStatus] returns an error, no table has changed
    and nothing has been sent. *)
Lemma UpdateOrderStatus_error_no_mutation
  (E : Env) (orderID newStatus restaurantID : string) (w w' : World) (err : error) :
  UpdateOrderStatus E orderID newStatus restaurantID w = (Done (Some err), w') ->
  w' = w.
Proof.
  unfold UpdateOrderStatus.
  destruct (uuid_Parse E orderID) as [orderUUID|]; [|intros H; inversion H; reflexivity].
  unfold bind at 1. unfold orderRepo_GetByID.
  destruct (db_fault E (OrderGetByID orderUUID)); [intros H; inversion H; reflexivity|].
  destruct (w_orders w !! orderUUID) as [order|]; [|intros H; inversion H; reflexivity].
  destruct (negb (String.eqb (uuid_String E (o_RestaurantID order)) restaurantID));
    [intros H; inversion H; reflexivity|].
  destruct (negb (order_isValidStatusTransition (o_OrderStatus order) newStatus));
    [intros H; inversion H; reflexivity|].
  unfold bind at 1. unfold orderRepo_Update. cbn [o_ID set_o_OrderLogs set_o_OrderStatus].
  destruct (db_fault E (OrderUpdate (o_ID order))); [intros H; inversion H; reflexivity|].
  unfold bind, emit, ret. intros H. inversion H.
Qed.

Lemma UpdateRefundStatus_error_no_mutation
  (E : Env) (adminID refundID : string) (req : UpdateRefundStatusRequest)
  (w w' : World) (err : error) :
  UpdateRefundStatus E adminID refundID req w = (Done (Fail err), w') ->
  w' = w.
Proof.
  unfold UpdateRefundStatus.
  destruct (uuid_Parse E refundID) as [id|]; [|intros H; inversion H; reflexivity].
  unfold bind at 1. unfold refundRepo_GetByID.
  destruct (db_fault E (RefundGetByID id)); [intros H; inversion H; reflexivity|].
  destruct (w_refunds w !! id) as [refund|]; [|intros H; inversion H; reflexivity].
  destruct (negb (isValidStatusTransition (rf_Status refund) (req_Status req)));
    [intros H; inversion H; reflexivity|].
  unfold bind at 1. unfold refundRepo_Update.
  match goal with |- context [db_fault E ?op] => destruct (db_fault E op) end;
    intros H; inversion H; reflexivity.
Qed.

(** C2. For every stored order (resp. refund) and requested status such
    that the pair (current, requested) is not in the table, the status
    update of that record, which for an order is called with the id of
    the order's restaurant, returns the error "invalid status transition"
    and leaves the world as it was: every table, hence the status, the
    logs and every other field of the record, and the messages sent.
    More generally, whenever either operation returns an error the world
    is as it was. *)
Theorem invalid_transition_rejected_without_mutation (E : Env) (w : World) :
  (forall (orderID newStatus : string) (orderUUID : UUID) (order : Order),
     uuid_Parse E orderID = Some orderUUID ->
     orderRepo_GetByID E orderUUID w = (Done (Ok order), w) ->
     ~ In (o_OrderStatus order, newStatus) order_table ->
     UpdateOrderStatus E orderID newStatus (uuid_String E (o_RestaurantID order)) w
     = (Done (Some (ErrNew "invalid status transition")), w)) /\
  (forall (adminID refundID : string) (req : UpdateRefundStatusRequest)
          (id : UUID) (refund : Refund),
     uuid_Parse E refundID = Some id ->
     refundRepo_GetByID E id w = (Done (Ok refund), w) ->
     ~ In (rf_Status refund, req_Status req) refund_table ->
     UpdateRefundStatus E adminID refundID req w
     = (Done (Fail (ErrNew "invalid status transition")), w)) /\
  (forall (orderID newStatus restaurantID : string) (err : error) (w' : World),
     UpdateOrderStatus E orderID newStatus restaurantID w = (Done (Some err), w') ->
     w' = w) /\
  (forall (adminID refundID : string) (req : UpdateRefundStatusRequest)
          (err : error) (w' : World),
     UpdateRefundStatus E adminID refundID req w = (Done (Fail err), w') ->
     w' = w).
Proof.
  split; [|split; [|split]].
  3: { intros orderID newStatus restaurantID err w' H.
       eapply UpdateOrderStatus_error_no_mutation; exact H. }
  3: { intros adminID refundID req err w' H.
       eapply UpdateRefundStatus_error_no_mutation; exact H. }
  - intros orderID newStatus orderUUID order Hparse Hread Hbad.
    assert (Hf : order_isValidStatusTransition (o_OrderStatus order) newStatus = false)
      by (apply TransitionFacts.not_true_false;
          rewrite TransitionFacts.order_check_table; exact Hbad).
    unfold UpdateOrderStatus. rewrite Hparse.
    unfold bind. rewrite Hread.
    rewrite String.eqb_refl. simpl. rewrite Hf. reflexivity.
  - intros adminID refundID req id refund Hparse Hread Hbad.
    assert (Hf : isValidStatusTransition (rf_Status refund) (req_Status req) = false)
      by (apply TransitionFacts.not_true_false;
          rewrite TransitionFacts.refund_check_table; exact Hbad).
    unfold UpdateRefundStatus. rewrite Hparse.
    unfold bind. rewrite Hread. rewrite Hf. reflexivity.
Qed.

(** A call with the id of another restaurant is turned away by the
    ownership check, before the transition is looked at. *)
Lemma UpdateOrderStatus_foreign_restaurant
  (E : Env) (w : World) (orderID newStatus restaurantID : string)
  (orderUUID : UUID) (order : Order) :
  uuid_Parse E orderID = Some orderUUID ->
  orderRepo_GetByID E orderUUID w = (Done (Ok order), w) ->
  uuid_String E (o_RestaurantID order) <> restaurantID ->
  UpdateOrderStatus E orderID newStatus restaurantID w
  = (Done (Some (ErrNew "order does not belong to this restaurant")), w).
Proof.
  intros Hparse Hread Hne.
  unfold UpdateOrderStatus. rewrite Hparse. unfold bind. rewrite Hread.
  destruct (String.eqb_spec (uuid_String E (o_RestaurantID order)) restaurantID) as [e|_];
    [contradiction|]. reflexivity.
Qed.

Lemma invalid_transition_rejected_witness :
  UpdateOrderStatus (env no_fault) "1" "delivered" "9" (world_with "pending" "pending")
  = (Done (Some (ErrNew "invalid status transition")), world_with "pending" "pending") /\
  UpdateRefundStatus (env no_fault) "admin" "5"
    (mkUpdateRefundStatusRequest "processed" "") (world_with "pending" "pending")
  = (Done (Fail (ErrNew "invalid status transition")), world_with "pending" "pending").
Proof.
  destruct (invalid_transition_rejected_without_mutation
              (env no_fault) (world_with "pending" "pending")) as (Ho & Hr & _ & _).
  split.
  - apply (Ho "1" "delivered" 1%N (order_of 1%N 9%N "pending"));
      try (vm_compute; reflexivity).
    simpl. intros H.
    repeat (destruct H as [H|H]; [discriminate H|]). exact H.
  - apply (Hr "admin" "5" (mkUpdateRefundStatusRequest "processed" "") 5%N
              (refund_of 5%N 1%N "pending"));
      try (vm_compute; reflexivity).
    simpl. intros H.
    repeat (destruct H as [H|H]; [discriminate H|]). exact H.
Defined.

(** A listed transition goes through: the status changes, one log entry
    is appended and two messages are sent. *)
Example UpdateOrderStatus_confirm :
  exists w',
    UpdateOrderStatus (env no_fault) "1" "confirmed" "9" (world_with "pending" "pending")
    = (Done None, w') /\
    o_OrderStatus <$> (w_orders w' !! 1%N) = Some "confirmed" /\
    length (w_trace w') = 2%nat.
Proof. eexists. split; [vm_compute; reflexivity|]. split; vm_compute; reflexivity. Qed.

End UpdateFacts.

(** ** The Porter webhook *)

Module WebhookFacts.
Import Store Repo Porter Clock SampleEnv SamplePayloads.

(** The first switch either panics or returns the row with the same
    primary key and order, and never touches the world. *)
Lemma apply_status_cases (E : Env) (payload : PorterWebhookPayload)
  (d : PorterDelivery) (w : World) :
  apply_status E payload d w = (Panic, w) \/
  exists d', apply_status E payload d w = (Done d', w) /\
             pd_OrderID d' = pd_OrderID d /\ pd_ID d' = pd_ID d.
Proof.
  unfold apply_status.
  destruct (String.eqb (wp_Status payload) "order_accepted").
  { destruct (od_DriverDetails (wp_OrderDetails payload)) as [driver|]; [|left; reflexivity].
    right. destruct (0 <? od_EventTs (wp_OrderDetails payload))%Z;
      eexists; (split; [reflexivity|split; reflexivity]). }
  repeat match goal with
         | |- context [if String.eqb ?a ?b then _ else _] => destruct (String.eqb a b)
         end;
    right; eexists; (split; [reflexivity|split; reflexivity]).
Qed.

(** The mapping of carrier statuses to order statuses. *)
Lemma newOrderStatus_of_table :
  newOrderStatus_of "order_cancel" = "cancelled" /\
  newOrderStatus_of "order_end_job" = "delivered" /\
  newOrderStatus_of "order_accepted" = "dispatched" /\
  newOrderStatus_of "order_start_trip" = "dispatched" /\
  newOrderStatus_of "order_reopen" = "dispatched".
Proof. repeat split; reflexivity. Qed.

(** What a successful [HandleWebhook] has done. *)
Lemma HandleWebhook_success (E : Env) (payload : PorterWebhookPayload) (w w' : World) :
  HandleWebhook E payload w = (Done None, w') ->
  exists (porterDelivery : PorterDelivery) (order : Order),
    first_by_pk (fun d => String.eqb (pd_PorterOrderID d) (wp_OrderID payload))
                (w_deliveries w) = Some porterDelivery /\
    w_orders w !! pd_OrderID porterDelivery = Some order /\
    w_trace w' = w_trace w /\
    w_orders w' =
      (if negb (String.eqb (newOrderStatus_of (wp_Status payload)) "")
          && negb (String.eqb (o_OrderStatus order) (newOrderStatus_of (wp_Status payload)))
       then <[o_ID order :=
                set_o_OrderStatus (newOrderStatus_of (wp_Status payload)) order]>
              (w_orders w)
       else w_orders w).
Proof.
  unfold HandleWebhook. unfold bind at 1. unfold porterDeliveryRepo_GetByPorterOrderID.
  destruct (db_fault E (DeliveryGetByPorterOrderID (wp_OrderID payload)));
    [intros H; inversion H|].
  destruct (first_by_pk _ (w_deliveries w)) as [d|] eqn:Hfound; [|intros H; inversion H].
  unfold bind at 1.
  destruct (apply_status_cases E payload
              (set_pd_UpdatedAt (t_unix (time_Now E)) (set_pd_Status (wp_Status payload) d)) w)
    as [Hp | (d' & Hd & Hoid & _)].
  { rewrite Hp. intros H; inversion H. }
  rewrite Hd. unfold bind at 1. unfold porterDeliveryRepo_Update.
  destruct (db_fault E (DeliveryUpdate (pd_ID d'))); [intros H; inversion H|].
  unfold bind at 1. unfold orderRepo_GetByID. rewrite Hoid. cbn [pd_OrderID set_pd_UpdatedAt set_pd_Status].
  destruct (db_fault E (OrderGetByID (pd_OrderID d))); [intros H; inversion H|].
  cbn [w_orders set_w_deliveries].
  destruct (w_orders w !! pd_OrderID d) as [order|] eqn:Horder; [|intros H; inversion H].
  intros H. exists d, order. split; [reflexivity|]. split; [exact Horder|].
  destruct (negb (String.eqb (newOrderStatus_of (wp_Status payload)) "")
            && negb (String.eqb (o_OrderStatus order) (newOrderStatus_of (wp_Status payload)))).
  - unfold bind, orderRepo_Update in H. cbn [o_ID set_o_OrderStatus] in H.
    destruct (db_fault E (OrderUpdate (o_ID order))); inversion H. split; reflexivity.
  - inversion H. split; reflexivity.
Qed.

(** C10. Whenever [HandleWebhook] has processed a webhook, the order of
    the delivery row found by the Porter order id has its status set to
    the image of the carrier status under the fixed mapping
    (order_cancel to cancelled, order_end_job to delivered, order_accepted,
    order_start_trip and order_reopen to dispatched) if that image differs
    from the current status, whatever the current status is; the stored
    order differs from the old one in its status only, so no log entry is
    appended, and nothing is sent.  Otherwise the orders are unchanged. *)
Theorem HandleWebhook_sets_mapped_status
  (E : Env) (payload : PorterWebhookPayload) (w w' : World) :
  HandleWebhook E payload w = (Done None, w') ->
  exists (porterDelivery : PorterDelivery) (order : Order),
    first_by_pk (fun d => String.eqb (pd_PorterOrderID d) (wp_OrderID payload))
                (w_deliveries w) = Some porterDelivery /\
    w_orders w !! pd_OrderID porterDelivery = Some order /\
    (newOrderStatus_of (wp_Status payload) <> "" ->
     o_OrderStatus order <> newOrderStatus_of (wp_Status payload) ->
     w_orders w' = <[o_ID order :=
                       set_o_OrderStatus (newOrderStatus_of (wp_Status payload)) order]>
                     (w_orders w) /\
     o_OrderLogs (set_o_OrderStatus (newOrderStatus_of (wp_Status payload)) order)
     = o_OrderLogs order) /\
    (newOrderStatus_of (wp_Status payload) = ""
     \/ o_OrderStatus order = newOrderStatus_of (wp_Status payload) ->
     w_orders w' = w_orders w) /\
    w_trace w' = w_trace w /\
    (newOrderStatus_of "order_cancel" = "cancelled" /\
     newOrderStatus_of "order_end_job" = "delivered" /\
     newOrderStatus_of "order_accepted" = "dispatched" /\
     newOrderStatus_of "order_start_trip" = "dispatched" /\
     newOrderStatus_of "order_reopen" = "dispatched").
Proof.
  intros H. apply HandleWebhook_success in H.
  destruct H as (d & order & Hd & Ho & Htrace & Horders).
  exists d, order. split; [exact Hd|]. split; [exact Ho|].
  split; [|split; [|split; [exact Htrace | exact newOrderStatus_of_table]]].
  - intros Hne1 Hne2. split; [|reflexivity].
    rewrite Horders.
    destruct (String.eqb_spec (newOrderStatus_of (wp_Status payload)) "") as [e|_];
      [contradiction|].
    destruct (String.eqb_spec (o_OrderStatus order) (newOrderStatus_of (wp_Status payload)))
      as [e|_]; [contradiction|].
    reflexivity.
  - intros Hsame. rewrite Horders.
    destruct Hsame as [Hsame|Hsame]; rewrite Hsame.
    + reflexivity.
    + rewrite String.eqb_refl, andb_false_r. reflexivity.
Qed.

(** A delivered order is moved to cancelled by an [order_cancel] webhook,
    a pair that the order transition table does not list; its logs stay
    as they were. *)
Lemma HandleWebhook_delivered_to_cancelled :
  exists w',
    HandleWebhook (env no_fault) cancel_payload (world_with "delivered" "pending")
    = (Done None, w') /\
    w_orders w' !! 1%N = Some (order_of 1%N 9%N "cancelled") /\
    o_OrderLogs (order_of 1%N 9%N "cancelled") = o_OrderLogs (order_of 1%N 9%N "delivered") /\
    w_trace w' = [] /\
    Transitions.order_isValidStatusTransition "delivered" "cancelled" = false.
Proof.
  pose (r := HandleWebhook (env no_fault) cancel_payload (world_with "delivered" "pending")).
  assert (Hr : HandleWebhook (env no_fault) cancel_payload (world_with "delivered" "pending")
               = (Done None, snd r)) by (vm_compute; reflexivity).
  exists (snd r). split; [exact Hr|].
  destruct (HandleWebhook_sets_mapped_status _ _ _ _ Hr)
    as (d & order & Hd & Ho & Hset & _ & Htrace & _).
  assert (Hd' : d = delivery_of 11%N 1%N "CRN1" true)
    by (vm_compute in Hd; inversion Hd; reflexivity).
  subst d.
  assert (Ho' : order = order_of 1%N 9%N "delivered")
    by (vm_compute in Ho; inversion Ho; reflexivity).
  subst order.
  destruct Hset as [Hset _]; [discriminate | discriminate |].
  split; [rewrite Hset; vm_compute; reflexivity|].
  split; [reflexivity|].
  split; [rewrite Htrace; reflexivity | reflexivity].
Defined.

(** An [order_accepted] webhook without driver details makes
    [HandleWebhook] panic before anything is written. *)
Example HandleWebhook_accepted_without_driver_panics :
  HandleWebhook (env no_fault) accepted_without_driver (world_with "preparing" "pending")
  = (Panic, world_with "preparing" "pending").
Proof. vm_compute. reflexivity. Qed.

(** The handler once its lookups and its status-sync step have succeeded. *)
Lemma Webhook_after_sync (E : Env) (payload : PorterWebhookPayload)
  (w w1 : World) (porterDelivery : PorterDelivery) (order : Order) :
  wp_OrderID payload <> "" ->
  wp_Status payload <> "" ->
  porterDeliveryRepo_GetByPorterOrderID E (wp_OrderID payload) w
  = (Done (Ok porterDelivery), w) ->
  orderRepo_GetByID E (pd_OrderID porterDelivery) w = (Done (Ok order), w) ->
  HandleWebhook E payload w = (Done None, w1) ->
  exists resp w2,
    Webhook E (Some payload) w = (Done resp, w2) /\
    resp_code resp = 200 /\
    w_trace w2 =
      (w_trace w1 ++
       (if String.eqb (wp_Status payload) "order_cancel"
           && negb (String.eqb (o_OrderStatus order) "cancelled")
        then [EvGo (TaskReassign (o_ID order) "porter")] else []))%list.
Proof.
  intros Hid Hst Hfind Hget Hsync.
  unfold Webhook.
  destruct (String.eqb_spec (wp_OrderID payload) "") as [e|_]; [contradiction|].
  destruct (String.eqb_spec (wp_Status payload) "") as [e|_]; [contradiction|].
  cbn [orb]. unfold bind at 1. rewrite Hfind.
  unfold bind at 1. rewrite Hget.
  unfold bind at 1. rewrite Hsync.
  destruct (String.eqb (wp_Status payload) "order_cancel");
    destruct (String.eqb (o_OrderStatus order) "cancelled"); cbn [negb andb];
    unfold bind, emit, ret; cbn;
    eexists; eexists; (split; [reflexivity|]); (split; [reflexivity|]);
    cbn; rewrite ?app_nil_r; reflexivity.
Qed.

(** [HandleWebhook] writes no message and no log line. *)
Lemma HandleWebhook_trace (E : Env) (payload : PorterWebhookPayload) (w w' : World)
  (out : outcome (option error)) :
  HandleWebhook E payload w = (out, w') -> w_trace w' = w_trace w.
Proof.
  unfold HandleWebhook. unfold bind at 1. unfold porterDeliveryRepo_GetByPorterOrderID.
  destruct (db_fault E (DeliveryGetByPorterOrderID (wp_OrderID payload)));
    [intros H; inversion H; reflexivity|].
  destruct (first_by_pk _ (w_deliveries w)) as [d|]; [|intros H; inversion H; reflexivity].
  unfold bind at 1.
  destruct (apply_status_cases E payload
              (set_pd_UpdatedAt (t_unix (time_Now E)) (set_pd_Status (wp_Status payload) d)) w)
    as [Hp | (d' & Hd & _ & _)].
  { rewrite Hp. intros H; inversion H; reflexivity. }
  rewrite Hd. unfold bind at 1. unfold porterDeliveryRepo_Update.
  destruct (db_fault E (DeliveryUpdate (pd_ID d'))); [intros H; inversion H; reflexivity|].
  unfold bind at 1. unfold orderRepo_GetByID.
  destruct (db_fault E (OrderGetByID (pd_OrderID d'))); [intros H; inversion H; reflexivity|].
  cbn [w_orders set_w_deliveries].
  destruct (w_orders w !! pd_OrderID d') as [order|]; [|intros H; inversion H; reflexivity].
  destruct (negb (String.eqb (newOrderStatus_of (wp_Status payload)) "")
            && negb (String.eqb (o_OrderStatus order) (newOrderStatus_of (wp_Status payload)))).
  - unfold bind, orderRepo_Update. cbn [o_ID set_o_OrderStatus].
    destruct (db_fault E (OrderUpdate (o_ID order))); intros H; inversion H; reflexivity.
  - intros H; inversion H; reflexivity.
Qed.

(** The handler once its lookups have succeeded and its status-sync step
    has returned. *)
Lemma Webhook_after_lookups (E : Env) (payload : PorterWebhookPayload)
  (w w1 : World) (porterDelivery : PorterDelivery) (order : Order) (e : option error) :
  wp_Status payload = "order_cancel" ->
  wp_OrderID payload <> "" ->
  porterDeliveryRepo_GetByPorterOrderID E (wp_OrderID payload) w
  = (Done (Ok porterDelivery), w) ->
  orderRepo_GetByID E (pd_OrderID porterDelivery) w = (Done (Ok order), w) ->
  HandleWebhook E payload w = (Done e, w1) ->
  exists resp,
    Webhook E (Some payload) w
    = match e with
      | Some _ => (Done resp, w1)
      | None =>
          if negb (String.eqb (o_OrderStatus order) "cancelled")
          then (emit (EvGo (TaskReassign (o_ID order) "porter")) ;;; ret resp) w1
          else (Done resp, w1)
      end /\
    resp_code resp = match e with Some _ => 500 | None => 200 end.
Proof.
  intros Hst Hid Hfind Hget Hsync.
  unfold Webhook.
  destruct (String.eqb_spec (wp_OrderID payload) "") as [e0|_]; [contradiction|].
  rewrite Hst. cbn [String.eqb Ascii.eqb orb].
  unfold bind at 1. rewrite Hfind.
  unfold bind at 1. rewrite Hget.
  unfold bind at 1. rewrite Hsync.
  destruct e as [err|].
  - eexists. split; reflexivity.
  - destruct (String.eqb (o_OrderStatus order) "cancelled"); cbn [negb];
      eexists; (split; [reflexivity|reflexivity]).
Qed.

(** C7. For an [order_cancel] webhook whose delivery record and order the
    handler finds and whose status-sync step ([HandleWebhook]) returns:
    if the sync returns an error, the handler answers 500 and starts no
    goroutine, whatever the order's status; if it succeeds and the
    status read before the sync was already [cancelled], the handler
    answers 200 and starts no goroutine; in both cases the request
    served to its end leaves the world the sync has left, so
    [ReassignDeliveryPartner] is not run.  If the sync succeeds and the
    status read before it was any other, the handler answers 200 having
    started exactly one goroutine, and the request served to its end is
    the handler followed by exactly one run of
    [ReassignDeliveryPartner] for that order with partner porter. *)
Theorem Webhook_order_cancel_reassignment
  (E : Env) (payload : PorterWebhookPayload) (w w1 : World)
  (porterDelivery : PorterDelivery) (order : Order) (e : option error) :
  wp_Status payload = "order_cancel" ->
  wp_OrderID payload <> "" ->
  porterDeliveryRepo_GetByPorterOrderID E (wp_OrderID payload) w
  = (Done (Ok porterDelivery), w) ->
  orderRepo_GetByID E (pd_OrderID porterDelivery) w = (Done (Ok order), w) ->
  HandleWebhook E payload w = (Done e, w1) ->
  exists (resp : Response) (w2 : World),
    Webhook E (Some payload) w = (Done resp, w2) /\
    (is_Some e \/ o_OrderStatus order = "cancelled" ->
     resp_code resp = match e with Some _ => 500 | None => 200 end /\
     w2 = w1 /\
     started_tasks (drop (length (w_trace w)) (w_trace w2)) = [] /\
     serve E (Webhook E (Some payload)) w = (Done resp, w1)) /\
    (e = None -> o_OrderStatus order <> "cancelled" ->
     resp_code resp = 200 /\
     emit (EvGo (TaskReassign (o_ID order) "porter")) w1 = (Done tt, w2) /\
     started_tasks (drop (length (w_trace w)) (w_trace w2))
     = [TaskReassign (o_ID order) "porter"] /\
     serve E (Webhook E (Some payload)) w
     = (ReassignDeliveryPartner E (o_ID order) "porter" ;;; ret resp) w2).
Proof.
  intros Hst Hid Hfind Hget Hsync.
  pose proof (HandleWebhook_trace E payload w w1 (Done e) Hsync) as Htr.
  destruct (Webhook_after_lookups E payload w w1 porterDelivery order e
              Hst Hid Hfind Hget Hsync) as (resp & Hw & Hcode).
  destruct e as [err|].
  - exists resp, w1. split; [exact Hw|]. split.
    + intros _. split; [exact Hcode|]. split; [reflexivity|].
      assert (Hnone : started_tasks (drop (length (w_trace w)) (w_trace w1)) = [])
        by (rewrite Htr, drop_all; reflexivity).
      split; [exact Hnone|].
      unfold serve. rewrite Hw, Hnone. reflexivity.
    + intros Hn. discriminate Hn.
  - destruct (String.eqb_spec (o_OrderStatus order) "cancelled") as [Hc|Hc];
      cbn [negb] in Hw.
    + exists resp, w1. split; [exact Hw|]. split.
      * intros _. split; [exact Hcode|]. split; [reflexivity|].
        assert (Hnone : started_tasks (drop (length (w_trace w)) (w_trace w1)) = [])
          by (rewrite Htr, drop_all; reflexivity).
        split; [exact Hnone|].
        unfold serve. rewrite Hw, Hnone. reflexivity.
      * intros _ Hn. contradiction.
    + exists resp, (snd (emit (EvGo (TaskReassign (o_ID order) "porter")) w1)).
      split; [exact Hw|]. split.
      * intros [[x Hx]|Hx]; [discriminate Hx | contradiction].
      * intros _ _. split; [exact Hcode|]. split; [reflexivity|].
        assert (Hone : started_tasks
                         (drop (length (w_trace w))
                            (w_trace (snd (emit (EvGo (TaskReassign (o_ID order) "porter")) w1))))
                       = [TaskReassign (o_ID order) "porter"]).
        { cbn [emit snd w_trace]. rewrite Htr, drop_app_length. reflexivity. }
        split; [exact Hone|].
        unfold serve. rewrite Hw. unfold bind at 1.
        cbn [emit ret]. cbn [emit snd] in Hone. rewrite Hone.
        cbn [run_tasks run_task]. unfold bind, ret.
        destruct (ReassignDeliveryPartner E (o_ID order) "porter" _) as [[r|] w3];
          reflexivity.
Qed.

Lemma Webhook_order_cancel_witness :
  (exists (resp : Response) (w2 w3 : World),
     Webhook (env no_fault) (Some cancel_payload) (world_with "dispatched" "pending")
     = (Done resp, w2) /\
     resp_code resp = 200 /\
     w_trace w2 = [EvGo (TaskReassign 1%N "porter")] /\
     ReassignDeliveryPartner (env no_fault) 1%N "porter" w2 = (Done None, w3) /\
     serve (env no_fault) (Webhook (env no_fault) (Some cancel_payload))
       (world_with "dispatched" "pending")
     = (Done resp, w3) /\
     w_trace w3 = [EvGo (TaskReassign 1%N "porter"); EvPorterGetQuote 1%N;
                   EvPorterCreateOrder 1%N; EvLogPorterOrderCreated 1%N "CRN2"]) /\
  (exists (resp : Response) (w1 : World),
     serve (env no_fault) (Webhook (env no_fault) (Some cancel_payload))
       (world_with "cancelled" "pending")
     = (Done resp, w1) /\
     resp_code resp = 200 /\ w_trace w1 = [] /\
     w_deliveries w1 = [set_pd_UpdatedAt 1700000000
                          (set_pd_IsActive false
                             (set_pd_Status "order_cancel" (delivery_of 11%N 1%N "CRN1" true)))]).
Proof.
  split.
  - pose (w := world_with "dispatched" "pending").
    pose (r := HandleWebhook (env no_fault) cancel_payload w).
    destruct (Webhook_order_cancel_reassignment (env no_fault) cancel_payload
                w (snd r) (delivery_of 11%N 1%N "CRN1" true) (order_of 1%N 9%N "dispatched")
                None)
      as (resp & w2 & Hw & _ & Hgo);
      [reflexivity | discriminate | vm_compute; reflexivity | vm_compute; reflexivity
      | vm_compute; reflexivity |].
    destruct (Hgo eq_refl) as (Hcode & Hemit & _ & Hserve); [discriminate|].
    pose (r3 := ReassignDeliveryPartner (env no_fault) 1%N "porter" w2).
    assert (Hw2 : w2 = snd (emit (EvGo (TaskReassign 1%N "porter")) (snd r)))
      by (change (o_ID (order_of 1%N 9%N "dispatched")) with 1%N in Hemit;
          rewrite Hemit; reflexivity).
    assert (Hr3 : ReassignDeliveryPartner (env no_fault) 1%N "porter" w2
                  = (Done None, snd r3))
      by (subst r3; rewrite Hw2; vm_compute; reflexivity).
    exists resp, w2, (snd r3).
    split; [exact Hw|]. split; [exact Hcode|].
    split; [rewrite Hw2; vm_compute; reflexivity|].
    split; [exact Hr3|].
    split.
    + etrans; [exact Hserve|].
      change (o_ID (order_of 1%N 9%N "dispatched")) with 1%N.
      unfold bind. rewrite Hr3. reflexivity.
    + subst r3. rewrite Hw2. vm_compute. reflexivity.
  - pose (w := world_with "cancelled" "pending").
    pose (r := HandleWebhook (env no_fault) cancel_payload w).
    destruct (Webhook_order_cancel_reassignment (env no_fault) cancel_payload
                w (snd r) (delivery_of 11%N 1%N "CRN1" true) (order_of 1%N 9%N "cancelled")
                None)
      as (resp & w2 & Hw & Hno & _);
      [reflexivity | discriminate | vm_compute; reflexivity | vm_compute; reflexivity
      | vm_compute; reflexivity |].
    destruct (Hno (or_intror eq_refl)) as (Hcode & _ & _ & Hserve).
    exists resp, (snd r).
    split; [exact Hserve|]. split; [exact Hcode|].
    split; vm_compute; reflexivity.
Defined.

(** C7, as the claim states it, fails: the delivery record and the order
    are found and the order is [dispatched], but the write of the order
    in the status-sync step fails; the handler answers 500 and has
    started no reassignment. *)
Lemma order_cancel_sync_failure_no_reassignment :
  ~ (forall (E : Env) (payload : PorterWebhookPayload) (w w2 : World)
            (porterDelivery : PorterDelivery) (order : Order) (out : outcome Response),
       wp_Status payload = "order_cancel" ->
       porterDeliveryRepo_GetByPorterOrderID E (wp_OrderID payload) w
       = (Done (Ok porterDelivery), w) ->
       orderRepo_GetByID E (pd_OrderID porterDelivery) w = (Done (Ok order), w) ->
       Webhook E (Some payload) w = (out, w2) ->
       started_tasks (drop (length (w_trace w)) (w_trace w2))
       = if String.eqb (o_OrderStatus order) "cancelled"
         then [] else [TaskReassign (o_ID order) "porter"]).
Proof.
  intros H.
  pose (E := env (fun op => match op with OrderUpdate _ => true | _ => false end)).
  pose (r := Webhook E (Some cancel_payload) (world_with "dispatched" "pending")).
  assert (Hr : Webhook E (Some cancel_payload) (world_with "dispatched" "pending")
               = (fst r, snd r)) by (symmetry; apply surjective_pairing).
  specialize (H E cancel_payload (world_with "dispatched" "pending") (snd r)
                (delivery_of 11%N 1%N "CRN1" true) (order_of 1%N 9%N "dispatched") (fst r)
                eq_refl).
  assert (Hfind : porterDeliveryRepo_GetByPorterOrderID E (wp_OrderID cancel_payload)
                    (world_with "dispatched" "pending")
                  = (Done (Ok (delivery_of 11%N 1%N "CRN1" true)),
                     world_with "dispatched" "pending")) by (vm_compute; reflexivity).
  assert (Hget : orderRepo_GetByID E (pd_OrderID (delivery_of 11%N 1%N "CRN1" true))
                   (world_with "dispatched" "pending")
                 = (Done (Ok (order_of 1%N 9%N "dispatched")),
                    world_with "dispatched" "pending")) by (vm_compute; reflexivity).
  specialize (H Hfind Hget Hr).
  vm_compute in H. discriminate H.
Qed.

(** When the status-sync step fails, the handler answers 500 and starts
    no reassignment, whatever the order's status was. *)
Example Webhook_sync_failure_no_reassignment :
  let fault := fun op => match op with OrderUpdate _ => true | _ => false end in
  exists resp w2,
    Webhook (env fault) (Some cancel_payload) (world_with "dispatched" "pending")
    = (Done resp, w2) /\
    resp_code resp = 500 /\ w_trace w2 = [].
Proof. eexists. eexists. split; [vm_compute; reflexivity|]. split; reflexivity. Qed.

End WebhookFacts.

(** ** Reassignment *)

Module ReassignFacts.
Import Store Repo Porter Clock ReassignSpec SampleEnv.

Lemma first_by_pk_none (P : PorterDelivery -> bool) (rows : list PorterDelivery) :
  (forall d, In d rows -> P d = false) -> first_by_pk P rows = None.
Proof.
  induction rows as [|d rest IH]; intros H; simpl; [reflexivity|].
  rewrite (H d (or_introl eq_refl)). apply IH. intros d' Hin. apply H. right. exact Hin.
Qed.

(** After the deactivation no row of the order is active. *)
Lemma deactivate_rows_none_active (orderID : UUID) (now : Z) (rows : list PorterDelivery) :
  forall d, In d (deactivate_rows orderID now rows) ->
            (pd_OrderID d =? orderID)%N && pd_IsActive d = false.
Proof.
  intros d Hin. unfold deactivate_rows in Hin. apply in_map_iff in Hin.
  destruct Hin as (x & Hx & _).
  destruct ((pd_OrderID x =? orderID)%N && pd_IsActive x) eqn:Hact; subst d.
  - cbn [set_pd_IsActive set_pd_UpdatedAt pd_OrderID pd_IsActive]. apply andb_false_r.
  - exact Hact.
Qed.

(** Hence the lookup of the active row that follows the deactivation
    finds nothing. *)
Lemma GetActive_after_Deactivate (E : Env) (orderID : UUID) (w w1 : World) :
  porterDeliveryRepo_DeactivateOldDeliveries E orderID w = (Done None, w1) ->
  w_trace w1 = w_trace w /\
  exists err, porterDeliveryRepo_GetActiveByOrderID E orderID w1 = (Done (Fail err), w1).
Proof.
  unfold porterDeliveryRepo_DeactivateOldDeliveries, porterDeliveryRepo_GetActiveByOrderID.
  destruct (db_fault E (DeliveryDeactivateOld orderID)); intros H; inversion H; subst w1.
  split; [reflexivity|].
  destruct (db_fault E (DeliveryGetActiveByOrderID orderID)); [eexists; reflexivity|].
  cbn [w_deliveries set_w_deliveries].
  rewrite first_by_pk_none; [eexists; reflexivity|].
  apply deactivate_rows_none_active.
Qed.

Lemma cancels_snoc_other (trace : list Event) (ev : Event) :
  (forall id, ev <> EvPorterCancel id) ->
  cancels (trace ++ [ev]) = cancels trace.
Proof.
  intros Hne. unfold cancels. rewrite omap_app. simpl.
  destruct ev; try (rewrite app_nil_r; reflexivity).
  exfalso. eapply Hne. reflexivity.
Qed.

Ltac no_cancel :=
  repeat (rewrite cancels_snoc_other by (intros ?; discriminate)); try reflexivity.

(** The dispatch path sends no cancel request. *)
Lemma PorterService_CreateDeliveryOrder_cancels
  (E : Env) (order : Order) (restaurant : Restaurant) (w w' : World)
  (out : outcome (Order * result PorterCreateOrderResponse)) :
  PorterService_CreateDeliveryOrder E order restaurant w = (out, w') ->
  cancels (w_trace w') = cancels (w_trace w).
Proof.
  unfold PorterService_CreateDeliveryOrder, PorterService_GetQuote, PorterService_CreateOrder,
    orderRepo_Update, bind, emit, ret.
  cbn [o_ID set_o_OrderLogs].
  destruct (porter_GetQuote E (o_ID order));
    [|intros H; inversion H; cbn; no_cancel].
  destruct (porter_CreateOrder E (o_ID order));
    [|intros H; inversion H; cbn; no_cancel].
  destruct (db_fault E (OrderUpdate (o_ID order)));
    intros H; inversion H; cbn; no_cancel.
Qed.

Lemma CreateDeliveryOrder_cancels
  (E : Env) (order : Order) (w w' : World) (out : outcome (Order * option error)) :
  CreateDeliveryOrder E order w = (out, w') ->
  cancels (w_trace w') = cancels (w_trace w).
Proof.
  unfold CreateDeliveryOrder. unfold bind at 1. unfold restaurantRepo_GetByID.
  destruct (db_fault E (RestaurantGetByID (o_RestaurantID order)));
    [intros H; inversion H; reflexivity|].
  destruct (row_of (o_RestaurantID order) (w_restaurants w)) as [restaurant|];
    [|intros H; inversion H; reflexivity].
  unfold bind at 1. unfold restaurantDeliveryPartnerRepo_GetByRestaurantID.
  destruct (db_fault E (PartnerLinksGetByRestaurantID (o_RestaurantID order)));
    [intros H; inversion H; reflexivity|].
  destruct (List.filter _ (w_partner_links w)) as [|deliveryPartner rest];
    [intros H; inversion H; reflexivity|].
  unfold bind at 1. unfold deliveryPartnerRepo_GetByID.
  destruct (db_fault E (PartnerCompanyGetByID (rdp_DeliveryPartnerCompanyID deliveryPartner)));
    [intros H; inversion H; reflexivity|].
  destruct (w_partner_companies w !! rdp_DeliveryPartnerCompanyID deliveryPartner)
    as [partnerCompany|]; [|intros H; inversion H; reflexivity].
  destruct (String.eqb (dpc_Name partnerCompany) "Porter").
  - unfold bind at 1.
    destruct (PorterService_CreateDeliveryOrder E order restaurant w) as [o1 w1] eqn:Hp.
    apply PorterService_CreateDeliveryOrder_cancels in Hp.
    destruct o1 as [[order1 [porterOrder|err]]|].
    + unfold bind, emit, ret. intros H; inversion H. cbn. no_cancel. exact Hp.
    + intros H; inversion H; subst. exact Hp.
    + intros H; inversion H; subst. exact Hp.
  - unfold createLegacyDeliveryOrder, bind, emit, ret.
    intros H; inversion H. cbn. no_cancel.
Qed.

(** [ReassignDeliveryPartner] sends no cancel request to the carrier,
    whatever rows the order has. *)
Lemma ReassignDeliveryPartner_cancels
  (E : Env) (orderID : UUID) (preferredPartner : string)
  (w w' : World) (out : outcome (option error)) :
  ReassignDeliveryPartner E orderID preferredPartner w = (out, w') ->
  cancels (w_trace w') = cancels (w_trace w).
Proof.
  unfold ReassignDeliveryPartner. unfold bind at 1. unfold orderRepo_GetByID.
  destruct (db_fault E (OrderGetByID orderID)); [intros H; inversion H; reflexivity|].
  destruct (w_orders w !! orderID) as [order|]; [|intros H; inversion H; reflexivity].
  destruct (String.eqb preferredPartner "porter"); [|intros H; inversion H; reflexivity].
  unfold bind at 1.
  destruct (porterDeliveryRepo_DeactivateOldDeliveries E orderID w) as [o1 w1] eqn:Hde.
  destruct o1 as [[err|]|].
  - unfold porterDeliveryRepo_DeactivateOldDeliveries in Hde.
    destruct (db_fault E (DeliveryDeactivateOld orderID)); inversion Hde; subst.
    intros H; inversion H; reflexivity.
  - destruct (GetActive_after_Deactivate E orderID w w1 Hde) as [Htr [err Hga]].
    unfold bind at 1. unfold bind at 1. rewrite Hga.
    unfold ret at 1. unfold bind at 1.
    destruct (CreateDeliveryOrder E order w1) as [o2 w2] eqn:Hcd.
    apply CreateDeliveryOrder_cancels in Hcd. rewrite Htr in Hcd.
    destruct o2 as [d|]; intros H; inversion H; subst; exact Hcd.
  - unfold porterDeliveryRepo_DeactivateOldDeliveries in Hde.
    destruct (db_fault E (DeliveryDeactivateOld orderID)); inversion Hde.
Qed.

(** C8. An order with an active delivery row (Porter order CRN1): the
    reassignment deactivates the row and runs the dispatch path, which
    asks the carrier for a new order, and the carrier's cancel is not
    called for CRN1, neither by [ReassignDeliveryPartner] nor by the
    handler [ReassignPorterDelivery]. *)
Theorem reassignment_skips_carrier_cancel :
  (exists w',
     ReassignDeliveryPartner (env no_fault) 1%N "porter" (world_with "dispatched" "pending")
     = (Done None, w') /\
     pd_IsActive <$> w_deliveries w' = [false] /\
     creates (w_trace w') = [1%N] /\
     cancels (w_trace w') = [] /\
     ~ In (EvPorterCancel "CRN1") (w_trace w')) /\
  (exists resp w',
     ReassignPorterDelivery (env no_fault) "1" (world_with "dispatched" "pending")
     = (Done resp, w') /\
     resp_code resp = 200 /\
     creates (w_trace w') = [1%N] /\
     cancels (w_trace w') = [] /\
     ~ In (EvPorterCancel "CRN1") (w_trace w')).
Proof.
  split.
  - eexists. split; [vm_compute; reflexivity|].
    split; [reflexivity|]. split; [reflexivity|]. split; [reflexivity|].
    cbn. intros H. repeat (destruct H as [H|H]; [discriminate H|]). exact H.
  - eexists. eexists. split; [vm_compute; reflexivity|].
    split; [reflexivity|]. split; [reflexivity|]. split; [reflexivity|].
    cbn. intros H. repeat (destruct H as [H|H]; [discriminate H|]). exact H.
Qed.

End ReassignFacts.

(** ** The scheduler tick *)

Module SchedulerFacts.
Import Store Repo Scheduler SchedulerSpec Clock SampleEnv SampleTick.

Lemma row_of_save (id : UUID) (r : Restaurant) (rows : list Restaurant) :
  row_of id (save_restaurant r rows)
  = if (r_ID r =? id)%N then Some r else row_of id rows.
Proof.
  unfold row_of. induction rows as [|x rest IH]; simpl.
  - destruct (r_ID r =? id)%N; reflexivity.
  - destruct (r_ID x =? r_ID r)%N eqn:Hx; simpl.
    + apply N.eqb_eq in Hx. rewrite Hx.
      destruct (r_ID r =? id)%N; reflexivity.
    + destruct (r_ID x =? id)%N eqn:Hxi.
      * apply N.eqb_eq in Hxi. subst id. rewrite N.eqb_sym, Hx. reflexivity.
      * exact IH.
Qed.

(** The three ways a single restaurant is handled. *)
Lemma updateRestaurantStatus_same (E : Env) (r : Restaurant) (t : Time) (w : World) :
  status_differs r t = false ->
  updateRestaurantStatus E r t w = (Done None, w).
Proof.
  unfold updateRestaurantStatus, status_differs. intros H. rewrite H. reflexivity.
Qed.

Lemma updateRestaurantStatus_written (E : Env) (r : Restaurant) (t : Time) (w : World) :
  status_differs r t = true ->
  db_fault E (RestaurantUpdate (r_ID r)) = false ->
  updateRestaurantStatus E r t w
  = (Done None,
     mkWorld (w_orders w) (w_refunds w)
             (save_restaurant (flipped E r t) (w_restaurants w))
             (w_deliveries w) (w_partner_links w) (w_partner_companies w)
             (w_trace w ++ [EvLogStatusChanged (r_Name r) (r_ID r)
                              (Hours.shouldRestaurantBeOpenAtTime r t)])).
Proof.
  unfold updateRestaurantStatus, status_differs. intros H Hf. rewrite H.
  unfold bind, restaurantRepo_Update. cbn [r_ID set_r_LastStatusUpdate set_r_IsOpen].
  rewrite Hf. reflexivity.
Qed.

Lemma updateRestaurantStatus_failed (E : Env) (r : Restaurant) (t : Time) (w : World) :
  status_differs r t = true ->
  db_fault E (RestaurantUpdate (r_ID r)) = true ->
  updateRestaurantStatus E r t w
  = (Done (Some (ErrWrap "failed to update restaurant status"
                         (ErrDb (RestaurantUpdate (r_ID r))))), w).
Proof.
  unfold updateRestaurantStatus, status_differs. intros H Hf. rewrite H.
  unfold bind, restaurantRepo_Update. cbn [r_ID set_r_LastStatusUpdate set_r_IsOpen].
  rewrite Hf. reflexivity.
Qed.

Lemma range_restaurants_post (E : Env) (t : Time) (page : list Restaurant) :
  NoDup (map r_ID page) ->
  forall (u e : nat) (w : World),
  exists (u' e' : nat) (w' : World),
    range_restaurants E page t u e w = (Done (u', e'), w') /\
    page_post E page t u e w u' e' w'.
Proof.
  induction page as [|r rest IH]; intros Hnd u e w.
  - exists u, e, w. split; [reflexivity|].
    constructor; simpl; try lia; try tauto; try (intros ? []).
  - simpl in Hnd. apply NoDup_cons in Hnd as [Hnotin Hrest].
    specialize (IH Hrest).
    assert (Hother : forall r', In r' rest -> (r_ID r =? r_ID r')%N = false).
    { intros r' Hin. apply N.eqb_neq. intros Heq. apply Hnotin.
      apply list_elem_of_In. rewrite Heq. apply in_map. exact Hin. }
    assert (Hself : ~ In (r_ID r) (map r_ID rest)).
    { intros Hin. apply Hnotin. apply list_elem_of_In. exact Hin. }
    cbn [range_restaurants]. unfold bind at 1.
    destruct (status_differs r t) eqn:Hdiff.
    + destruct (db_fault E (RestaurantUpdate (r_ID r))) eqn:Hf.
      * (* the write fails: logged, counted as an error, the loop goes on *)
        rewrite (updateRestaurantStatus_failed E r t w Hdiff Hf).
        unfold bind at 1. unfold emit at 1.
        match goal with
        | |- context [range_restaurants E rest t u (S e) ?w1] =>
            destruct (IH u (S e) w1) as (u' & e' & w' & Hrun & Hp)
        end.
        exists u', e', w'. split; [exact Hrun|].
        destruct Hp as [Hc He Ho Hw Hfl Hs Ht]. cbn [w_restaurants w_trace] in *.
        constructor; cbn [length map].
        -- lia.
        -- lia.
        -- intros id Hid. apply Ho. intros Hin. apply Hid. right. exact Hin.
        -- intros r' [<-|Hin] Hd' Hf'; [congruence|]. apply Hw; assumption.
        -- intros r' [<-|Hin] Hd' Hf'.
           ++ split; [apply Ho; exact Hself|].
              apply Ht. apply in_or_app. right. left. reflexivity.
           ++ apply Hfl; assumption.
        -- intros r' [<-|Hin] Hd'; [congruence|]. apply Hs; assumption.
        -- intros ev Hev. apply Ht. apply in_or_app. left. exact Hev.
      * (* the write succeeds *)
        rewrite (updateRestaurantStatus_written E r t w Hdiff Hf).
        match goal with
        | |- context [range_restaurants E rest t (S u) e ?w1] =>
            destruct (IH (S u) e w1) as (u' & e' & w' & Hrun & Hp)
        end.
        exists u', e', w'. split; [exact Hrun|].
        destruct Hp as [Hc He Ho Hw Hfl Hs Ht]. cbn [w_restaurants w_trace] in *.
        assert (Hkeep : forall id, (r_ID r =? id)%N = false ->
                  row_of id (save_restaurant (flipped E r t) (w_restaurants w))
                  = row_of id (w_restaurants w)).
        { intros id Hid. rewrite row_of_save. cbn [flipped r_ID set_r_LastStatusUpdate set_r_IsOpen].
          rewrite Hid. reflexivity. }
        constructor; cbn [length map].
        -- lia.
        -- lia.
        -- intros id Hid. rewrite Ho; [|intros Hin; apply Hid; right; exact Hin].
           apply Hkeep. apply N.eqb_neq. intros Heq. apply Hid. left. exact Heq.
        -- intros r' [<-|Hin] Hd' Hf'.
           ++ rewrite Ho by exact Hself. rewrite row_of_save.
              cbn [flipped r_ID set_r_LastStatusUpdate set_r_IsOpen].
              rewrite N.eqb_refl. reflexivity.
           ++ apply Hw; assumption.
        -- intros r' [<-|Hin] Hd' Hf'; [congruence|].
           destruct (Hfl r' Hin Hd' Hf') as [Hrow Hlog]. split; [|exact Hlog].
           rewrite Hrow. apply Hkeep. apply Hother. exact Hin.
        -- intros r' [<-|Hin] Hd'; [congruence|].
           rewrite (Hs r' Hin Hd'). apply Hkeep. apply Hother. exact Hin.
        -- intros ev Hev. apply Ht. apply in_or_app. left. exact Hev.
    + (* nothing to change *)
      rewrite (updateRestaurantStatus_same E r t w Hdiff).
      destruct (IH (S u) e w) as (u' & e' & w' & Hrun & Hp).
      exists u', e', w'. split; [exact Hrun|].
      destruct Hp as [Hc He Ho Hw Hfl Hs Ht].
      constructor; cbn [length map].
      * lia.
      * lia.
      * intros id Hid. apply Ho. intros Hin. apply Hid. right. exact Hin.
      * intros r' [<-|Hin] Hd' Hf'; [congruence|]. apply Hw; assumption.
      * intros r' [<-|Hin] Hd' Hf'; [congruence|]. apply Hfl; assumption.
      * intros r' [<-|Hin] Hd'; [apply Ho; exact Hself|]. apply Hs; assumption.
      * exact Ht.
Qed.

Lemma ilike_empty_query (r : Restaurant) : ilike_query "" r = true.
Proof.
  unfold ilike_query. cbn [GoString.ToLower].
  destruct (GoString.ToLower (r_Name r)); reflexivity.
Qed.

Lemma filter_all_true {A : Type} (P : A -> bool) (l : list A) :
  (forall x, P x = true) -> List.filter P l = l.
Proof.
  intros H. induction l as [|x rest IH]; simpl; [reflexivity|].
  rewrite H, IH. reflexivity.
Qed.

Lemma range_filter_short (allRestaurants : list Restaurant) :
  forall (acc : list Restaurant) (limit : nat),
    (length acc + length allRestaurants < limit)%nat ->
    range_filter allRestaurants limit acc
    = (acc ++ List.filter auto_managed allRestaurants)%list.
Proof.
  induction allRestaurants as [|r rest IH]; intros acc limit Hlen; simpl.
  - rewrite app_nil_r. reflexivity.
  - unfold auto_managed at 1.
    destruct (r_AutoOpenClose r && String.eqb (r_Status r) "active").
    + assert (Hlt : (limit <=? length (acc ++ [r]))%nat = false).
      { apply Nat.leb_gt. rewrite length_app. simpl in *. lia. }
      rewrite Hlt. rewrite IH.
      * rewrite <- app_assoc. reflexivity.
      * rewrite length_app. simpl in *. lia.
    + apply IH. simpl in Hlen. lia.
Qed.

Lemma NoDup_ids_filter (P : Restaurant -> bool) (rows : list Restaurant) :
  NoDup (map r_ID rows) -> NoDup (map r_ID (List.filter P rows)).
Proof.
  induction rows as [|x rest IH]; simpl; intros Hnd; [constructor|].
  apply NoDup_cons in Hnd as [Hnotin Hrest].
  destruct (P x); simpl; [|apply IH; exact Hrest].
  apply NoDup_cons. split; [|apply IH; exact Hrest].
  intros Hin. apply Hnotin. apply list_elem_of_In. apply list_elem_of_In in Hin.
  apply in_map_iff in Hin. destruct Hin as (y & Hy & Hyin).
  apply filter_In in Hyin. destruct Hyin as [Hyin _].
  rewrite <- Hy. apply in_map. exact Hyin.
Qed.

Lemma row_of_In (rows : list Restaurant) (r : Restaurant) :
  NoDup (map r_ID rows) -> In r rows -> row_of (r_ID r) rows = Some r.
Proof.
  unfold row_of. induction rows as [|x rest IH]; simpl; intros Hnd Hin; [contradiction|].
  apply NoDup_cons in Hnd as [Hnotin Hrest].
  destruct Hin as [->|Hin].
  - rewrite N.eqb_refl. reflexivity.
  - destruct (r_ID x =? r_ID r)%N eqn:Hx.
    + exfalso. apply Hnotin. apply N.eqb_eq in Hx. rewrite Hx.
      apply list_elem_of_In. apply in_map. exact Hin.
    + apply IH; assumption.
Qed.

(** With fewer rows than the page size the tick reads one page: all the
    rows that are auto-managed and active. *)
Lemma getRestaurantsWithAutoOpenClose_single_page (E : Env) (w : World) :
  db_fault E (RestaurantSearch 200 0) = false ->
  (length (w_restaurants w) < 100)%nat ->
  getRestaurantsWithAutoOpenClose E 100 0 w
  = (Done (Ok (List.filter auto_managed (w_restaurants w))), w).
Proof.
  intros Hf Hlen. unfold getRestaurantsWithAutoOpenClose, bind, restaurantRepo_Search.
  change (100 * 2)%nat with 200%nat. rewrite Hf.
  rewrite filter_all_true by apply ilike_empty_query.
  rewrite drop_0, take_ge by lia.
  unfold ret. rewrite range_filter_short by (simpl; lia). reflexivity.
Qed.

(** A tick over a table of fewer than 100 restaurants reads one page and
    handles every auto-managed active restaurant of the table. *)
Lemma single_page_tick (E : Env) (w : World) :
  NoDup (map r_ID (w_restaurants w)) ->
  (length (w_restaurants w) < 100)%nat ->
  db_fault E (RestaurantSearch 200 0) = false ->
  exists w',
    updateAllRestaurantStatuses E w = (Done true, w') /\
    (forall r, In r (w_restaurants w) -> auto_managed r = true ->
       (status_differs r (time_Now E) = true ->
        db_fault E (RestaurantUpdate (r_ID r)) = false ->
        row_of (r_ID r) (w_restaurants w') = Some (flipped E r (time_Now E))) /\
       (status_differs r (time_Now E) = true ->
        db_fault E (RestaurantUpdate (r_ID r)) = true ->
        row_of (r_ID r) (w_restaurants w') = Some r /\
        In (update_error_logged r) (w_trace w')) /\
       (status_differs r (time_Now E) = false ->
        row_of (r_ID r) (w_restaurants w') = Some r)) /\
    (exists totalUpdated totalErrors,
       In (EvLogTickDone totalUpdated totalErrors) (w_trace w') /\
       (totalUpdated + totalErrors
        = length (List.filter auto_managed (w_restaurants w)))%nat).
Proof.
  intros Hnd Hlen Hsearch.
  set (w0 := mkWorld (w_orders w) (w_refunds w) (w_restaurants w) (w_deliveries w)
                     (w_partner_links w) (w_partner_companies w)
                     (w_trace w ++ [EvLogTickStart])).
  set (page := List.filter auto_managed (w_restaurants w)).
  assert (Hget : getRestaurantsWithAutoOpenClose E 100 0 w0 = (Done (Ok page), w0))
    by (apply (getRestaurantsWithAutoOpenClose_single_page E w0 Hsearch Hlen)).
  assert (Hpage_len : (length page < 100)%nat).
  { unfold page.
    assert (length (List.filter auto_managed (w_restaurants w))
            <= length (w_restaurants w))%nat; [|lia].
    clear. induction (w_restaurants w) as [|x l IH]; simpl; [lia|].
    destruct (auto_managed x); simpl; lia. }
  unfold updateAllRestaurantStatuses.
  unfold bind at 1. unfold emit at 1. fold w0.
  unfold bind at 1. cbn [page_loop]. unfold bind at 1. rewrite Hget.
  destruct page as [|r0 rest] eqn:Hpage.
  - (* no restaurant to manage *)
    cbn. eexists. split; [reflexivity|]. split.
    + intros r Hin Hauto. exfalso.
      assert (Hr : In r (List.filter auto_managed (w_restaurants w)))
        by (apply filter_In; split; assumption).
      fold page in Hr. rewrite Hpage in Hr. exact Hr.
    + exists 0%nat, 0%nat. split; [|reflexivity].
      cbn. apply in_or_app. right. left. reflexivity.
  - rewrite <- Hpage in *.
    assert (Hnz : (length page =? 0)%nat = false)
      by (rewrite Hpage; reflexivity).
    rewrite Hnz.
    destruct (range_restaurants_post E (time_Now E) page
                (NoDup_ids_filter auto_managed _ Hnd) 0%nat 0%nat w0)
      as (u' & e' & w1 & Hrun & Hp).
    unfold bind at 1. rewrite Hrun.
    assert (Hlt : (length page <? 100)%nat = true) by (apply Nat.ltb_lt; exact Hpage_len).
    rewrite Hlt. unfold ret at 1. cbn [fst snd].
    unfold bind, emit, ret.
    eexists. split; [reflexivity|].
    destruct Hp as [Hc He Ho Hw Hfl Hs Ht]. cbn [w_restaurants w_trace] in *.
    split.
    + intros r Hin Hauto.
      assert (Hr : In r page) by (apply filter_In; split; assumption).
      pose proof (row_of_In _ _ Hnd Hin) as Hrow.
      split; [|split].
      * intros Hd Hf. apply Hw; assumption.
      * intros Hd Hf. destruct (Hfl r Hr Hd Hf) as [Hkeep Hlog].
        split; [rewrite Hkeep; exact Hrow|].
        apply in_or_app. left. exact Hlog.
      * intros Hd. rewrite (Hs r Hr Hd). exact Hrow.
    + exists u', e'. split; [apply in_or_app; right; left; reflexivity|].
      simpl in Hc. exact Hc.
Qed.

(** *** The tick always runs to its end *)

Lemma save_restaurant_ids (r : Restaurant) (rows : list Restaurant) :
  In (r_ID r) (map r_ID rows) ->
  map r_ID (save_restaurant r rows) = map r_ID rows.
Proof.
  induction rows as [|x rest IH]; simpl; intros Hin; [contradiction|].
  destruct (r_ID x =? r_ID r)%N eqn:Hx; simpl.
  - apply N.eqb_eq in Hx. rewrite Hx. reflexivity.
  - destruct Hin as [Heq|Hin]; [apply N.eqb_neq in Hx; contradiction|].
    rewrite IH by exact Hin. reflexivity.
Qed.

Lemma updateRestaurantStatus_ids (E : Env) (r : Restaurant) (t : Time) (w : World) :
  In (r_ID r) (map r_ID (w_restaurants w)) ->
  exists (e : option error) (w' : World),
    updateRestaurantStatus E r t w = (Done e, w') /\
    map r_ID (w_restaurants w') = map r_ID (w_restaurants w).
Proof.
  intros Hin.
  destruct (status_differs r t) eqn:Hd.
  - destruct (db_fault E (RestaurantUpdate (r_ID r))) eqn:Hf.
    + rewrite (updateRestaurantStatus_failed E r t w Hd Hf). eauto.
    + rewrite (updateRestaurantStatus_written E r t w Hd Hf).
      eexists. eexists. split; [reflexivity|].
      cbn [w_restaurants]. apply save_restaurant_ids. exact Hin.
  - rewrite (updateRestaurantStatus_same E r t w Hd). eauto.
Qed.

Lemma range_restaurants_ids (E : Env) (t : Time) (page : list Restaurant) :
  forall (u e : nat) (w : World),
    (forall r, In r page -> In (r_ID r) (map r_ID (w_restaurants w))) ->
    exists (c : nat * nat) (w' : World),
      range_restaurants E page t u e w = (Done c, w') /\
      map r_ID (w_restaurants w') = map r_ID (w_restaurants w).
Proof.
  induction page as [|r rest IH]; intros u e w Hin.
  - exists (u, e), w. split; reflexivity.
  - cbn [range_restaurants]. unfold bind at 1.
    destruct (updateRestaurantStatus_ids E r t w (Hin r (or_introl eq_refl)))
      as (o & w1 & Hrun & Hids).
    rewrite Hrun.
    assert (Hin1 : forall r', In r' rest -> In (r_ID r') (map r_ID (w_restaurants w1))).
    { intros r' Hr'. rewrite Hids. apply Hin. right. exact Hr'. }
    destruct o as [err|].
    + unfold bind at 1. unfold emit at 1.
      match goal with
      | |- context [range_restaurants E rest t u (S e) ?w2] =>
          destruct (IH u (S e) w2 Hin1) as (c & w' & Hr & Hi)
      end.
      exists c, w'. split; [exact Hr|]. rewrite Hi. exact Hids.
    + destruct (IH (S u) e w1 Hin1) as (c & w' & Hr & Hi).
      exists c, w'. split; [exact Hr|]. rewrite Hi. exact Hids.
Qed.

Lemma range_filter_incl (allRestaurants : list Restaurant) :
  forall (limit : nat) (acc : list Restaurant) (r : Restaurant),
    In r (range_filter allRestaurants limit acc) -> In r acc \/ In r allRestaurants.
Proof.
  induction allRestaurants as [|x rest IH]; intros limit acc r; simpl; [auto|].
  destruct (r_AutoOpenClose x && String.eqb (r_Status x) "active").
  - destruct (limit <=? length (acc ++ [x]))%nat.
    + intros Hin. apply in_app_or in Hin. destruct Hin as [Hin|[<-|[]]]; auto.
    + intros Hin. apply IH in Hin. destruct Hin as [Hin|Hin]; [|auto].
      apply in_app_or in Hin. destruct Hin as [Hin|[<-|[]]]; auto.
  - intros Hin. apply IH in Hin. destruct Hin; auto.
Qed.

Lemma range_filter_length (allRestaurants : list Restaurant) :
  forall (limit : nat) (acc : list Restaurant),
    (length (range_filter allRestaurants limit acc)
     <= length acc + length allRestaurants)%nat.
Proof.
  induction allRestaurants as [|x rest IH]; intros limit acc; simpl; [lia|].
  destruct (r_AutoOpenClose x && String.eqb (r_Status x) "active").
  - destruct (limit <=? length (acc ++ [x]))%nat.
    + rewrite length_app. simpl. lia.
    + specialize (IH limit (acc ++ [x])%list). rewrite length_app in IH. simpl in IH. lia.
  - specialize (IH limit acc). lia.
Qed.

Lemma filter_incl_length {A : Type} (P : A -> bool) (l : list A) :
  (length (List.filter P l) <= length l)%nat.
Proof.
  induction l as [|x rest IH]; simpl; [lia|]. destruct (P x); simpl; lia.
Qed.

(** A page read at [offset]: its rows are rows of the table, and it has
    at most as many rows as the table has beyond [offset]. *)
Lemma getRestaurantsWithAutoOpenClose_cases (E : Env) (limit offset : nat) (w : World) :
  (exists err, getRestaurantsWithAutoOpenClose E limit offset w = (Done (Fail err), w)) \/
  (exists page,
     getRestaurantsWithAutoOpenClose E limit offset w = (Done (Ok page), w) /\
     (forall r, In r page -> In r (w_restaurants w)) /\
     (length page + offset <= length (w_restaurants w) \/ page = [])%nat).
Proof.
  unfold getRestaurantsWithAutoOpenClose, bind, restaurantRepo_Search.
  destruct (db_fault E (RestaurantSearch (limit * 2) offset)); [left; eauto|].
  right. eexists. split; [reflexivity|].
  set (found := List.filter (ilike_query "") (w_restaurants w)).
  split.
  - intros r Hin. apply range_filter_incl in Hin. destruct Hin as [[]|Hin].
    apply list_elem_of_In in Hin. apply elem_of_take in Hin as (i & Hi & _).
    rewrite lookup_drop in Hi.
    apply list_elem_of_lookup_2 in Hi. apply list_elem_of_In in Hi.
    unfold found in Hi. apply filter_In in Hi. tauto.
  - pose proof (range_filter_length (take (limit * 2) (drop offset found)) limit []) as Hl.
    rewrite length_take, length_drop in Hl. simpl in Hl.
    pose proof (filter_incl_length (ilike_query "") (w_restaurants w)) as Hf.
    fold found in Hf.
    destruct (range_filter (take (limit * 2) (drop offset found)) limit []) as [|x l] eqn:Hp;
      [right; reflexivity|].
    left. simpl in *. lia.
Qed.

Lemma page_loop_returns (E : Env) (t : Time) (limit : nat) :
  (0 < limit)%nat ->
  forall (fuel offset u e : nat) (w : World),
    (length (w_restaurants w) < offset + S fuel * limit)%nat ->
    exists (c : nat * nat) (w' : World),
      page_loop E (S fuel) t limit offset u e w = (Done (Some c), w').
Proof.
  intros Hlimit. induction fuel as [|fuel IH]; intros offset u e w Hlen.
  - cbn [page_loop]. unfold bind at 1.
    destruct (getRestaurantsWithAutoOpenClose_cases E limit offset w)
      as [[err Hget] | (page & Hget & Hrows & Hsize)]; rewrite Hget.
    + unfold bind, emit, ret. eauto.
    + destruct (length page =? 0)%nat eqn:Hz; [unfold ret; eauto|].
      destruct (range_restaurants_ids E t page u e w) as (c & w1 & Hrun & _).
      { intros r Hr. apply in_map. apply Hrows. exact Hr. }
      unfold bind at 1. rewrite Hrun.
      destruct (length page <? limit)%nat eqn:Hshort; [unfold ret; eauto|].
      exfalso. apply Nat.ltb_ge in Hshort. apply Nat.eqb_neq in Hz.
      destruct Hsize as [Hsize | ->]; [lia | simpl in Hz; lia].
  - remember (S fuel) as fuel1. cbn [page_loop]. unfold bind at 1.
    destruct (getRestaurantsWithAutoOpenClose_cases E limit offset w)
      as [[err Hget] | (page & Hget & Hrows & Hsize)]; rewrite Hget.
    + unfold bind, emit, ret. eauto.
    + destruct (length page =? 0)%nat eqn:Hz; [unfold ret; eauto|].
      destruct (range_restaurants_ids E t page u e w) as (c & w1 & Hrun & Hids).
      { intros r Hr. apply in_map. apply Hrows. exact Hr. }
      unfold bind at 1. rewrite Hrun.
      destruct (length page <? limit)%nat eqn:Hshort; [unfold ret; eauto|].
      subst fuel1. apply IH.
      assert (Hsame : length (w_restaurants w1) = length (w_restaurants w)).
      { rewrite <- (length_map r_ID (w_restaurants w1)), Hids. apply length_map. }
      rewrite Hsame. lia.
Qed.

(** For every world and every fault plan the tick ends normally: the
    paging loop reaches a [break] within the fuel it is given, and no
    failure of a read or a write leaves the tick. *)
Lemma updateAllRestaurantStatuses_returns (E : Env) (w : World) :
  exists w', updateAllRestaurantStatuses E w = (Done true, w').
Proof.
  unfold updateAllRestaurantStatuses.
  unfold bind at 1. unfold emit at 1.
  set (w0 := mkWorld (w_orders w) (w_refunds w) (w_restaurants w) (w_deliveries w)
                     (w_partner_links w) (w_partner_companies w)
                     (w_trace w ++ [EvLogTickStart])).
  destruct (page_loop_returns E (time_Now E) 100 ltac:(lia)
              (length (w_restaurants w)) 0%nat 0%nat 0%nat w0)
    as ([u' e'] & w1 & Hrun).
  { cbn [w_restaurants w0]. lia. }
  unfold bind at 1. rewrite Hrun. unfold bind, emit, ret. eauto.
Qed.

(** C9. The loop over a page of restaurants with distinct ids, from any
    world and under any fault plan, comes to its end with every
    restaurant of the page counted as updated or failed: a restaurant
    whose computed status differs from its flag and whose write succeeds
    is stored flipped and stamped; one whose write fails keeps its row
    and the failure is logged, without stopping the restaurants after
    it; one whose status agrees is left alone.  The tick itself ends
    normally for every table, so no failure leaves it.  In a tick over a
    table of fewer than 100 restaurants, read without fault, this holds
    of every auto-managed active restaurant of the table, and the closing
    log line counts them all. *)
Theorem tick_isolates_write_failures (E : Env) (w : World) :
  (forall (page : list Restaurant) (t : Time) (u e : nat),
     NoDup (map r_ID page) ->
     exists (u' e' : nat) (w' : World),
       range_restaurants E page t u e w = (Done (u', e'), w') /\
       page_post E page t u e w u' e' w') /\
  (exists w', updateAllRestaurantStatuses E w = (Done true, w')) /\
  (NoDup (map r_ID (w_restaurants w)) ->
   (length (w_restaurants w) < 100)%nat ->
   db_fault E (RestaurantSearch 200 0) = false ->
   exists w',
     updateAllRestaurantStatuses E w = (Done true, w') /\
     (forall r, In r (w_restaurants w) -> auto_managed r = true ->
        (status_differs r (time_Now E) = true ->
         db_fault E (RestaurantUpdate (r_ID r)) = false ->
         row_of (r_ID r) (w_restaurants w') = Some (flipped E r (time_Now E))) /\
        (status_differs r (time_Now E) = true ->
         db_fault E (RestaurantUpdate (r_ID r)) = true ->
         row_of (r_ID r) (w_restaurants w') = Some r /\
         In (update_error_logged r) (w_trace w')) /\
        (status_differs r (time_Now E) = false ->
         row_of (r_ID r) (w_restaurants w') = Some r)) /\
     (exists totalUpdated totalErrors,
        In (EvLogTickDone totalUpdated totalErrors) (w_trace w') /\
        (totalUpdated + totalErrors
         = length (List.filter auto_managed (w_restaurants w)))%nat)).
Proof.
  split; [|split].
  - intros page t u e Hnd. apply range_restaurants_post. exact Hnd.
  - apply updateAllRestaurantStatuses_returns.
  - apply single_page_tick.
Qed.

(** The example of the specification: A, B and C all have to be
    flipped and B's write fails.  The tick ends normally, A and C are
    stored flipped, B keeps its row and its failure is logged. *)
Lemma tick_ABC_witness :
  exists w',
    updateAllRestaurantStatuses (env fault_B) world_ABC = (Done true, w') /\
    row_of 21%N (w_restaurants w')
    = Some (mkRestaurant 21%N "A" "" "active" true true all_day (Some 1700000000)) /\
    row_of 22%N (w_restaurants w') = Some restaurant_B /\
    In (update_error_logged restaurant_B) (w_trace w') /\
    row_of 23%N (w_restaurants w')
    = Some (mkRestaurant 23%N "C" "" "active" false true (Some ∅) (Some 1700000000)).
Proof.
  destruct (tick_isolates_write_failures (env fault_B) world_ABC)
    as (_ & _ & Htick).
  destruct Htick as (w' & Hrun & Hrows & _).
  - repeat (constructor;
            [simpl; intros H; apply list_elem_of_In in H; simpl in H;
             repeat (destruct H as [H|H]; [discriminate H|]); exact H|]).
    constructor.
  - simpl. lia.
  - reflexivity.
  - exists w'. split; [exact Hrun|].
    destruct (Hrows restaurant_A) as (HA & _ & _);
      [left; reflexivity | reflexivity |].
    destruct (Hrows restaurant_B) as (_ & HB & _);
      [right; left; reflexivity | reflexivity |].
    destruct (Hrows restaurant_C) as (HC & _ & _);
      [right; right; left; reflexivity | reflexivity |].
    split; [apply HA; vm_compute; reflexivity|].
    destruct HB as [HB1 HB2]; [vm_compute; reflexivity | vm_compute; reflexivity |].
    split; [exact HB1|]. split; [exact HB2|].
    apply HC; vm_compute; reflexivity.
Defined.

End SchedulerFacts.

(** ** Auxiliary facts on strings, integers and tables *)

Module StringFacts.

Lemma length_append (p s : string) :
  String.length (p ++ s) = (String.length p + String.length s)%nat.
Proof.
  induction p as [|c p IH]; simpl; [reflexivity|]. rewrite IH. reflexivity.
Qed.

Lemma substring_append_prefix (p s : string) :
  substring 0 (String.length p) (p ++ s) = p.
Proof.
  induction p as [|c p IH]; simpl.
  - destruct s; reflexivity.
  - rewrite IH. reflexivity.
Qed.

Lemma substring_all (s : string) : substring 0 (String.length s) s = s.
Proof.
  induction s as [|c s IH]; simpl; [reflexivity|]. rewrite IH. reflexivity.
Qed.

End StringFacts.

(** ** Go integers *)

Module GoIntFacts.
Import GoInt.

Lemma wrap64_small (z : Z) : - 2 ^ 63 <= z < 2 ^ 63 -> wrap64 z = z.
Proof.
  intros Hz. unfold wrap64. rewrite Z.mod_small by lia. lia.
Qed.

End GoIntFacts.

Module TableFacts.
Import Repo.

Lemma row_of_Some (id : UUID) (rows : list Restaurant) (r : Restaurant) :
  row_of id rows = Some r -> In r rows /\ r_ID r = id.
Proof.
  unfold row_of. intros H. apply find_some in H. destruct H as [Hin Hid].
  split; [exact Hin | apply N.eqb_eq; exact Hid].
Qed.

Lemma same_id_same_row (rows : list Restaurant) (x y : Restaurant) :
  NoDup (map r_ID rows) -> In x rows -> In y rows -> r_ID x = r_ID y -> x = y.
Proof.
  induction rows as [|z rest IH]; simpl; intros Hnd Hx Hy Hid; [contradiction|].
  apply NoDup_cons in Hnd as [Hnotin Hrest].
  destruct Hx as [->|Hx], Hy as [->|Hy].
  - reflexivity.
  - exfalso. apply Hnotin. apply list_elem_of_In. rewrite Hid. apply in_map. exact Hy.
  - exfalso. apply Hnotin. apply list_elem_of_In. rewrite <- Hid. apply in_map. exact Hx.
  - apply IH; assumption.
Qed.

End TableFacts.

(** ** Accepted status updates and reads of orders and refunds *)

Module OrderFacts.
Import Store Repo Services Transitions Orders SampleEnv.

(** The loop over the stored log list keeps exactly the entries that are
    objects, in their order. *)
Lemma range_logs_objects (logSlice : list jvalue) :
  Forall (fun v => exists m, v = JObj m) (range_logs logSlice) /\
  (Forall (fun v => exists m, v = JObj m) logSlice -> range_logs logSlice = logSlice).
Proof.
  induction logSlice as [|v rest [IH1 IH2]]; simpl.
  - split; [constructor | reflexivity].
  - split.
    + destruct v; try exact IH1. constructor; [eexists; reflexivity | exact IH1].
    + intros Hall. inversion Hall as [|? ? [m ->] Hrest]; subst.
      rewrite IH2 by exact Hrest. reflexivity.
Qed.

(** X1. A listed transition requested with the id of the order's own
    restaurant, with the write succeeding, stores the order with the new
    status and with one entry appended to the object entries of its log
    list (entries that are not objects are dropped, every other key of the
    log column is kept and no other column changes), leaves the other
    orders and tables alone, and sends exactly two messages, first on
    order_events and then on notification_events. *)
Theorem UpdateOrderStatus_accepted_effects
  (E : Env) (w : World) (orderID newStatus : string)
  (orderUUID : UUID) (order : Order) :
  uuid_Parse E orderID = Some orderUUID ->
  orderRepo_GetByID E orderUUID w = (Done (Ok order), w) ->
  In (o_OrderStatus order, newStatus) order_table ->
  db_fault E (OrderUpdate (o_ID order)) = false ->
  exists (stored : Order) (entry orderEvent notificationEvent : gmap string jvalue),
    UpdateOrderStatus E orderID newStatus (uuid_String E (o_RestaurantID order)) w
    = (Done None,
       mkWorld (<[o_ID order := stored]> (w_orders w)) (w_refunds w) (w_restaurants w)
               (w_deliveries w) (w_partner_links w) (w_partner_companies w)
               (w_trace w ++
                [EvKafka "order_events" (uuid_String E (o_ID order)) orderEvent;
                 EvKafka "notification_events" (uuid_String E (o_UserID order))
                         notificationEvent])) /\
    stored
    = set_o_OrderLogs (o_OrderLogs stored) (set_o_OrderStatus newStatus order) /\
    Porter.logs_of (default ∅ (o_OrderLogs stored))
    = (range_logs (Porter.logs_of (default ∅ (o_OrderLogs order))) ++ [JObj entry])%list /\
    entry !! "status" = Some (JStr newStatus) /\
    entry !! "timestamp" = Some (JNum (Clock.t_unix (time_Now E))) /\
    (forall k, k <> "logs" ->
       default ∅ (o_OrderLogs stored) !! k = default ∅ (o_OrderLogs order) !! k) /\
    (Forall (fun v => exists m, v = JObj m)
            (Porter.logs_of (default ∅ (o_OrderLogs order))) ->
     Porter.logs_of (default ∅ (o_OrderLogs stored))
     = (Porter.logs_of (default ∅ (o_OrderLogs order)) ++ [JObj entry])%list).
Proof.
  intros Hparse Hread Hlisted Hok.
  assert (Hvalid : order_isValidStatusTransition (o_OrderStatus order) newStatus = true)
    by (apply TransitionFacts.order_check_table; exact Hlisted).
  unfold UpdateOrderStatus. rewrite Hparse. unfold bind at 1. rewrite Hread.
  rewrite String.eqb_refl. cbn [negb]. rewrite Hvalid. cbn [negb].
  unfold bind at 1. unfold orderRepo_Update. cbn [o_ID set_o_OrderLogs set_o_OrderStatus].
  rewrite Hok. unfold bind, emit, ret.
  cbn [o_ID o_UserID o_OrderStatus set_o_OrderLogs set_o_OrderStatus set_w_orders
       w_orders w_refunds w_restaurants w_deliveries w_partner_links
       w_partner_companies w_trace].
  eexists. eexists. eexists. eexists.
  split.
  { rewrite <- app_assoc. cbn [app]. reflexivity. }
  cbn [o_OrderLogs set_o_OrderLogs set_o_OrderStatus o_ID o_UserID o_RestaurantID o_CartID
       o_OrderStatus o_DeliveryPartnerID o_TotalAmount o_CustomerName o_CustomerContact].
  unfold default, from_option, id.
  split; [reflexivity|].
  assert (Hlogs : forall m : gmap string jvalue,
            match m !! "logs" with
            | Some (JArr logSlice) => range_logs logSlice
            | _ => []
            end = range_logs (Porter.logs_of m)).
  { intros m. unfold Porter.logs_of.
    destruct (m !! "logs") as [[]|]; reflexivity. }
  split.
  { unfold Porter.logs_of at 1. rewrite lookup_insert_eq.
    destruct (o_OrderLogs order) as [m|]; rewrite Hlogs; reflexivity. }
  split; [rewrite lookup_insert_ne by discriminate; rewrite lookup_insert_eq; reflexivity|].
  split; [rewrite lookup_insert_eq; reflexivity|].
  split.
  { intros k Hk. rewrite lookup_insert_ne by (intros Heq; apply Hk; symmetry; exact Heq).
    destruct (o_OrderLogs order); reflexivity. }
  intros Hall.
  unfold Porter.logs_of at 1. rewrite lookup_insert_eq.
  destruct (o_OrderLogs order) as [m|]; rewrite Hlogs;
    rewrite (proj2 (range_logs_objects _) Hall); reflexivity.
Qed.

Lemma UpdateOrderStatus_accepted_witness :
  exists w',
    UpdateOrderStatus (env no_fault) "1" "confirmed" "9" (world_with "pending" "pending")
    = (Done None, w') /\
    o_OrderStatus <$> (w_orders w' !! 1%N) = Some "confirmed" /\
    length (w_trace w') = 2%nat.
Proof.
  destruct (UpdateOrderStatus_accepted_effects (env no_fault)
              (world_with "pending" "pending") "1" "confirmed" 1%N
              (order_of 1%N 9%N "pending"))
    as (stored & entry & ev1 & ev2 & Hrun & Hstored & _);
    try (vm_compute; reflexivity).
  { left. reflexivity. }
  eexists. split; [exact Hrun|].
  cbn [w_orders w_trace]. split.
  - change (o_ID (order_of 1%N 9%N "pending")) with 1%N.
    rewrite lookup_insert_eq. cbn. rewrite Hstored. reflexivity.
  - reflexivity.
Defined.

(** X2. Whenever [UpdateOrderStatus] returns without error, the message
    it has sent on order_events carries the requested status both as
    [new_status] and as [old_status]: the old status is read from the
    order after the assignment. *)
Theorem UpdateOrderStatus_event_old_status
  (E : Env) (w w' : World) (orderID newStatus restaurantID : string) :
  UpdateOrderStatus E orderID newStatus restaurantID w = (Done None, w') ->
  exists (key1 key2 : string) (orderEvent notificationEvent data : gmap string jvalue),
    w_trace w' = (w_trace w ++ [EvKafka "order_events" key1 orderEvent;
                                EvKafka "notification_events" key2 notificationEvent])%list /\
    orderEvent !! "data" = Some (JObj data) /\
    data !! "new_status" = Some (JStr newStatus) /\
    data !! "old_status" = Some (JStr newStatus).
Proof.
  unfold UpdateOrderStatus.
  destruct (uuid_Parse E orderID) as [orderUUID|]; [|intros H; inversion H].
  unfold bind at 1. unfold orderRepo_GetByID.
  destruct (db_fault E (OrderGetByID orderUUID)); [intros H; inversion H|].
  destruct (w_orders w !! orderUUID) as [order|]; [|intros H; inversion H].
  destruct (negb (String.eqb (uuid_String E (o_RestaurantID order)) restaurantID));
    [intros H; inversion H|].
  destruct (negb (order_isValidStatusTransition (o_OrderStatus order) newStatus));
    [intros H; inversion H|].
  unfold bind at 1. unfold orderRepo_Update. cbn [o_ID set_o_OrderLogs set_o_OrderStatus].
  destruct (db_fault E (OrderUpdate (o_ID order))); [intros H; inversion H|].
  unfold bind, emit, ret.
  cbn [o_ID o_UserID o_OrderStatus set_o_OrderLogs set_o_OrderStatus set_w_orders
       w_orders w_refunds w_restaurants w_deliveries w_partner_links
       w_partner_companies w_trace].
  intros H. inversion H. cbn [w_trace].
  eexists. eexists. eexists. eexists. eexists.
  split; [rewrite <- app_assoc; cbn [app]; reflexivity|].
  split.
  { rewrite lookup_insert_ne by discriminate. rewrite lookup_insert_ne by discriminate.
    rewrite lookup_insert_ne by discriminate. rewrite lookup_insert_eq. reflexivity. }
  split.
  - rewrite lookup_insert_ne by discriminate. rewrite lookup_insert_eq. reflexivity.
  - rewrite lookup_insert_ne by discriminate. rewrite lookup_insert_ne by discriminate.
    rewrite lookup_insert_eq. reflexivity.
Qed.

Lemma UpdateOrderStatus_event_witness :
  exists (w' : World) (key1 key2 : string)
         (orderEvent notificationEvent data : gmap string jvalue),
    w_trace w' = [EvKafka "order_events" key1 orderEvent;
                  EvKafka "notification_events" key2 notificationEvent] /\
    orderEvent !! "data" = Some (JObj data) /\
    data !! "old_status" = Some (JStr "confirmed").
Proof.
  pose (r := UpdateOrderStatus (env no_fault) "1" "confirmed" "9"
               (world_with "pending" "pending")).
  assert (Hr : UpdateOrderStatus (env no_fault) "1" "confirmed" "9"
                 (world_with "pending" "pending") = (Done None, snd r))
    by (vm_compute; reflexivity).
  destruct (UpdateOrderStatus_event_old_status _ _ _ _ _ _ Hr)
    as (k1 & k2 & ev1 & ev2 & data & Htrace & Hdata & _ & Hold).
  exists (snd r), k1, k2, ev1, ev2, data.
  split; [exact Htrace|]. split; [exact Hdata | exact Hold].
Defined.

(** X3. [GetOrderByID] never changes the world, and an order it returns
    is the stored order under the parsed id and belongs to the asking
    user; the stored order of another user is answered with the error
    "order not found". *)
Theorem GetOrderByID_owner_only
  (E : Env) (w w' : World) (orderID userID : string) (out : outcome (result Order)) :
  GetOrderByID E orderID userID w = (out, w') ->
  w' = w /\
  (forall order, out = Done (Ok order) ->
     uuid_String E (o_UserID order) = userID /\
     exists orderUUID,
       uuid_Parse E orderID = Some orderUUID /\ w_orders w !! orderUUID = Some order) /\
  (forall orderUUID order,
     uuid_Parse E orderID = Some orderUUID ->
     orderRepo_GetByID E orderUUID w = (Done (Ok order), w) ->
     uuid_String E (o_UserID order) <> userID ->
     out = Done (Fail (ErrNew "order not found"))).
Proof.
  unfold GetOrderByID.
  destruct (uuid_Parse E orderID) as [orderUUID|].
  2: { intros H; inversion H; subst. split; [reflexivity|].
       split; [intros order Ho; inversion Ho | intros ? ? Hp; inversion Hp]. }
  unfold bind at 1. unfold orderRepo_GetByID.
  destruct (db_fault E (OrderGetByID orderUUID)) eqn:Hf.
  { intros H; inversion H; subst. split; [reflexivity|].
    split; [intros order Ho; inversion Ho|].
    intros id order Hp Hr. inversion Hp; subst id. rewrite Hf in Hr. inversion Hr. }
  destruct (w_orders w !! orderUUID) as [order|] eqn:Hrow.
  2: { intros H; inversion H; subst. split; [reflexivity|].
       split; [intros order Ho; inversion Ho|].
       intros id order Hp Hr. inversion Hp; subst id. rewrite Hf, Hrow in Hr. inversion Hr. }
  destruct (String.eqb_spec (uuid_String E (o_UserID order)) userID) as [Heq|Hne];
    cbn [negb]; intros H; inversion H; subst; (split; [reflexivity|]).
  - split.
    + intros order' Ho. inversion Ho; subst order'. split; [reflexivity|].
      exists orderUUID. split; [reflexivity | exact Hrow].
    + intros id order' Hp Hr Hne. inversion Hp; subst id.
      rewrite Hf, Hrow in Hr. inversion Hr; subst order'. contradiction.
  - split; [intros order' Ho; inversion Ho|].
    intros; reflexivity.
Qed.

Lemma GetOrderByID_owner_witness :
  GetOrderByID (env no_fault) "1" "100" (world_with "pending" "pending")
  = (Done (Ok (order_of 1%N 9%N "pending")), world_with "pending" "pending") /\
  GetOrderByID (env no_fault) "1" "101" (world_with "pending" "pending")
  = (Done (Fail (ErrNew "order not found")), world_with "pending" "pending").
Proof.
  split.
  - vm_compute. reflexivity.
  - pose (r := GetOrderByID (env no_fault) "1" "101" (world_with "pending" "pending")).
    destruct (GetOrderByID_owner_only (env no_fault) (world_with "pending" "pending")
                (snd r) "1" "101" (fst r)) as (Hw & _ & Hother);
      [vm_compute; reflexivity|].
    rewrite (surjective_pairing (GetOrderByID _ _ _ _)). fold r.
    rewrite Hw.
    rewrite (Hother 1%N (order_of 1%N 9%N "pending"));
      [reflexivity | vm_compute; reflexivity | vm_compute; reflexivity | discriminate].
Defined.

End OrderFacts.

(** ** Refunds *)

Module RefundFacts.
Import Store Repo Services Transitions Refunds SampleEnv SampleRepos.

(** X4. A listed refund transition whose write succeeds stores the refund
    with the requested status and returns it; a non-empty admin comment
    replaces the stored one and an empty one leaves it, so a comment once
    set is never cleared; no other column, refund, table or message
    changes. *)
Theorem UpdateRefundStatus_accepted_effects
  (E : Env) (w : World) (adminID refundID : string) (req : UpdateRefundStatusRequest)
  (id : UUID) (refund : Refund) :
  uuid_Parse E refundID = Some id ->
  refundRepo_GetByID E id w = (Done (Ok refund), w) ->
  In (rf_Status refund, req_Status req) refund_table ->
  db_fault E (RefundUpdate (rf_ID refund)) = false ->
  exists stored : Refund,
    UpdateRefundStatus E adminID refundID req w
    = (Done (Ok stored), set_w_refunds (<[rf_ID refund := stored]> (w_refunds w)) w) /\
    stored = set_rf_AdminComment (rf_AdminComment stored)
               (set_rf_Status (req_Status req) refund) /\
    (req_AdminComment req <> "" -> rf_AdminComment stored = Some (req_AdminComment req)) /\
    (req_AdminComment req = "" -> rf_AdminComment stored = rf_AdminComment refund) /\
    (is_Some (rf_AdminComment refund) -> is_Some (rf_AdminComment stored)).
Proof.
  intros Hparse Hread Hlisted Hok.
  assert (Hvalid : isValidStatusTransition (rf_Status refund) (req_Status req) = true)
    by (apply TransitionFacts.refund_check_table; exact Hlisted).
  unfold UpdateRefundStatus. rewrite Hparse. unfold bind at 1. rewrite Hread.
  rewrite Hvalid. cbn [negb]. unfold bind, refundRepo_Update, ret.
  destruct (String.eqb_spec (req_AdminComment req) "") as [Hempty|Hfull]; cbn [negb];
    cbn [rf_ID set_rf_AdminComment set_rf_Status]; rewrite Hok;
    eexists; (split; [reflexivity|]);
    cbn [rf_AdminComment set_rf_AdminComment set_rf_Status];
    (split; [reflexivity|]).
  - split; [intros Hne; contradiction|]. split; [reflexivity | tauto].
  - split; [reflexivity|]. split; [intros He; contradiction|].
    intros _. eexists. reflexivity.
Qed.

Lemma UpdateRefundStatus_accepted_witness :
  exists stored,
    UpdateRefundStatus (env no_fault) "admin" "5"
      (mkUpdateRefundStatusRequest "approved" "looks right") (world_with "delivered" "pending")
    = (Done (Ok stored),
       set_w_refunds (<[5%N := stored]> (w_refunds (world_with "delivered" "pending")))
                     (world_with "delivered" "pending")) /\
    rf_AdminComment stored = Some "looks right".
Proof.
  destruct (UpdateRefundStatus_accepted_effects (env no_fault)
              (world_with "delivered" "pending") "admin" "5"
              (mkUpdateRefundStatusRequest "approved" "looks right")
              5%N (refund_of 5%N 1%N "pending"))
    as (stored & Hrun & _ & Hset & _);
    try (vm_compute; reflexivity).
  { left. reflexivity. }
  exists stored. split; [exact Hrun|]. apply Hset. discriminate.
Defined.

Section WithRepos.
Context (E : Env).
Context (paymentRepo_GetByOrderID : UUID -> Go (result Payment)).

(** X5. A refund whose stored status is not [approved] is not processed:
    the call returns the error "refund must be approved before
    processing", the payment is not looked up, and the world is as it
    was. *)
Theorem ProcessRefund_only_from_approved
  (w : World) (adminID refundID : string) (id : UUID) (refund : Refund) :
  uuid_Parse E refundID = Some id ->
  refundRepo_GetByID E id w = (Done (Ok refund), w) ->
  rf_Status refund <> "approved" ->
  ProcessRefund E paymentRepo_GetByOrderID adminID refundID w
  = (Done (Fail (ErrNew "refund must be approved before processing")), w).
Proof.
  intros Hparse Hread Hstatus.
  unfold ProcessRefund. rewrite Hparse. unfold bind at 1. rewrite Hread.
  destruct (String.eqb_spec (rf_Status refund) "approved") as [e|_]; [contradiction|].
  reflexivity.
Qed.

(** What a run of [ProcessRefund] that returns a refund has done. *)
Lemma ProcessRefund_success
  (w w' : World) (adminID refundID : string) (stored : Refund) :
  ProcessRefund E paymentRepo_GetByOrderID adminID refundID w = (Done (Ok stored), w') ->
  exists (id : UUID) (refund : Refund) (payment : Payment) (w1 : World),
    uuid_Parse E refundID = Some id /\
    db_fault E (RefundGetByID id) = false /\
    w_refunds w !! id = Some refund /\
    rf_Status refund = "approved" /\
    paymentRepo_GetByOrderID (rf_OrderID refund) w = (Done (Ok payment), w1) /\
    stored = set_rf_ProcessedAt (Some (Clock.t_unix (time_Now E)))
               (set_rf_Status "processed" refund) /\
    w' = set_w_refunds (<[rf_ID refund := stored]> (w_refunds w1)) w1.
Proof.
  unfold ProcessRefund.
  destruct (uuid_Parse E refundID) as [id|]; [|intros H; inversion H].
  unfold bind at 1. unfold refundRepo_GetByID.
  destruct (db_fault E (RefundGetByID id)) eqn:Hf; [intros H; inversion H|].
  destruct (w_refunds w !! id) as [refund|] eqn:Hrow; [|intros H; inversion H].
  destruct (String.eqb_spec (rf_Status refund) "approved") as [Hst|_]; cbn [negb];
    [|intros H; inversion H].
  unfold bind at 1.
  destruct (paymentRepo_GetByOrderID (rf_OrderID refund) w) as [[[payment|err]|] w1] eqn:Hpay;
    [|intros H; inversion H|intros H; inversion H].
  unfold bind, refundRepo_Update, ret. cbn [rf_ID set_rf_ProcessedAt set_rf_Status].
  destruct (db_fault E (RefundUpdate (rf_ID refund))); intros H; inversion H.
  exists id, refund, payment, w1. repeat split; try assumption; reflexivity.
Qed.

(** X6. Whenever [ProcessRefund] returns a refund, the stored refund was
    [approved], a payment of its order was found, and the refund is
    stored and returned with status [processed] and the processing time
    set to the clock, every other column as it was; the step from the
    old status to the new one is a transition of the refund table. *)
Theorem ProcessRefund_success_effects
  (w w' : World) (adminID refundID : string) (stored : Refund) :
  ProcessRefund E paymentRepo_GetByOrderID adminID refundID w = (Done (Ok stored), w') ->
  exists (id : UUID) (refund : Refund) (payment : Payment) (w1 : World),
    uuid_Parse E refundID = Some id /\
    w_refunds w !! id = Some refund /\
    paymentRepo_GetByOrderID (rf_OrderID refund) w = (Done (Ok payment), w1) /\
    In (rf_Status refund, rf_Status stored) refund_table /\
    rf_Status stored = "processed" /\
    rf_ProcessedAt stored = Some (Clock.t_unix (time_Now E)) /\
    stored = set_rf_ProcessedAt (rf_ProcessedAt stored)
               (set_rf_Status (rf_Status stored) refund) /\
    w_refunds w' = <[rf_ID refund := stored]> (w_refunds w1) /\
    w_trace w' = w_trace w1.
Proof.
  intros H. apply ProcessRefund_success in H.
  destruct H as (id & refund & payment & w1 & Hp & _ & Hrow & Hst & Hpay & Hstored & Hw).
  exists id, refund, payment, w1.
  split; [exact Hp|]. split; [exact Hrow|]. split; [exact Hpay|].
  subst stored w'. cbn [rf_Status rf_ProcessedAt set_rf_ProcessedAt set_rf_Status
                        w_refunds w_trace set_w_refunds].
  rewrite Hst. split; [simpl; tauto|]. repeat split.
Qed.

(** X7. A processed refund is final.  In a refunds table keyed by the
    primary key, after [ProcessRefund] has returned a refund every later
    [UpdateRefundStatus] of that refund is rejected with "invalid status
    transition" and a second [ProcessRefund] with "refund must be approved
    before processing", both without changing the world. *)
Theorem processed_refund_is_final
  (w w' : World) (adminID refundID : string) (stored : Refund) :
  (forall id r, w_refunds w !! id = Some r -> rf_ID r = id) ->
  ProcessRefund E paymentRepo_GetByOrderID adminID refundID w = (Done (Ok stored), w') ->
  (forall (admin : string) (req : UpdateRefundStatusRequest),
     UpdateRefundStatus E admin refundID req w'
     = (Done (Fail (ErrNew "invalid status transition")), w')) /\
  (forall admin : string,
     ProcessRefund E paymentRepo_GetByOrderID admin refundID w'
     = (Done (Fail (ErrNew "refund must be approved before processing")), w')).
Proof.
  intros Hkeyed H. apply ProcessRefund_success in H.
  destruct H as (id & refund & payment & w1 & Hp & Hf & Hrow & Hst & Hpay & Hstored & Hw).
  pose proof (Hkeyed id refund Hrow) as Hid.
  assert (Hread : refundRepo_GetByID E id w' = (Done (Ok stored), w')).
  { unfold refundRepo_GetByID. rewrite Hf. subst w'. cbn [w_refunds set_w_refunds].
    rewrite Hid, lookup_insert_eq. reflexivity. }
  assert (Hstatus : rf_Status stored = "processed") by (subst stored; reflexivity).
  split.
  - intros admin req. unfold UpdateRefundStatus. rewrite Hp.
    unfold bind at 1. rewrite Hread. rewrite Hstatus.
    assert (Hno : isValidStatusTransition "processed" (req_Status req) = false).
    { apply TransitionFacts.not_true_false.
      rewrite TransitionFacts.refund_check_table. simpl. intros Hin.
      repeat (destruct Hin as [Hin|Hin]; [inversion Hin|]). exact Hin. }
    rewrite Hno. reflexivity.
  - intros admin. unfold ProcessRefund. rewrite Hp.
    unfold bind at 1. rewrite Hread. rewrite Hstatus. reflexivity.
Qed.

End WithRepos.

Lemma ProcessRefund_only_from_approved_witness :
  ProcessRefund (env no_fault) (payments_of [1%N]) "admin" "5"
    (world_with "delivered" "pending")
  = (Done (Fail (ErrNew "refund must be approved before processing")),
     world_with "delivered" "pending").
Proof.
  apply (ProcessRefund_only_from_approved (env no_fault) (payments_of [1%N])
           (world_with "delivered" "pending") "admin" "5" 5%N (refund_of 5%N 1%N "pending"));
    [vm_compute; reflexivity | vm_compute; reflexivity | discriminate].
Defined.

Lemma ProcessRefund_success_witness :
  exists stored w',
    ProcessRefund (env no_fault) (payments_of [1%N]) "admin" "5"
      (world_with "delivered" "approved") = (Done (Ok stored), w') /\
    rf_Status stored = "processed" /\
    rf_ProcessedAt stored = Some 1700000000.
Proof.
  pose (r := ProcessRefund (env no_fault) (payments_of [1%N]) "admin" "5"
               (world_with "delivered" "approved")).
  assert (Hr : ProcessRefund (env no_fault) (payments_of [1%N]) "admin" "5"
                 (world_with "delivered" "approved")
               = (Done (Ok (set_rf_ProcessedAt (Some 1700000000)
                              (set_rf_Status "processed" (refund_of 5%N 1%N "approved")))),
                  snd r))
    by (vm_compute; reflexivity).
  destruct (ProcessRefund_success_effects _ _ _ _ _ _ _ Hr)
    as (id & refund & payment & w1 & _ & _ & _ & _ & Hst & Hat & _).
  eexists. eexists. split; [exact Hr|]. split; [exact Hst | exact Hat].
Defined.

Lemma processed_refund_is_final_witness :
  exists w',
    (forall req,
       UpdateRefundStatus (env no_fault) "admin" "5" req w'
       = (Done (Fail (ErrNew "invalid status transition")), w')) /\
    ProcessRefund (env no_fault) (payments_of [1%N]) "admin" "5" w'
    = (Done (Fail (ErrNew "refund must be approved before processing")), w').
Proof.
  pose (r := ProcessRefund (env no_fault) (payments_of [1%N]) "admin" "5"
               (world_with "delivered" "approved")).
  assert (Hr : ProcessRefund (env no_fault) (payments_of [1%N]) "admin" "5"
                 (world_with "delivered" "approved")
               = (Done (Ok (set_rf_ProcessedAt (Some 1700000000)
                              (set_rf_Status "processed" (refund_of 5%N 1%N "approved")))),
                  snd r))
    by (vm_compute; reflexivity).
  assert (Hkeyed : forall id rf,
            w_refunds (world_with "delivered" "approved") !! id = Some rf -> rf_ID rf = id).
  { intros id rf Hrow. cbn [w_refunds world_with] in Hrow.
    destruct (decide (id = 5%N)) as [->|Hne].
    - rewrite lookup_insert_eq in Hrow. inversion Hrow. reflexivity.
    - rewrite lookup_insert_ne in Hrow by (intros Heq; apply Hne; symmetry; exact Heq).
      rewrite lookup_empty in Hrow. inversion Hrow. }
  destruct (processed_refund_is_final (env no_fault) (payments_of [1%N])
              (world_with "delivered" "approved") (snd r) "admin" "5" _ Hkeyed Hr)
    as [Hupd Hproc].
  exists (snd r). split; [intros req; apply Hupd | apply Hproc].
Defined.

End RefundFacts.

(** ** Reading refunds *)

Module RefundQueryFacts.
Import Store Repo GoInt GoIntFacts Refunds SampleEnv SampleRepos.

(** X8. [GetRefundByID] never changes the world, and a refund it returns
    is the stored refund under the parsed id whose order is stored and
    belongs to the asking user; the refund's own user column is not
    consulted. *)
Theorem GetRefundByID_owner_only
  (E : Env) (w w' : World) (userID refundID : string) (out : outcome (result Refund)) :
  GetRefundByID E userID refundID w = (out, w') ->
  w' = w /\
  (forall refund, out = Done (Ok refund) ->
     exists (userUUID id : UUID) (order : Order),
       uuid_Parse E userID = Some userUUID /\
       uuid_Parse E refundID = Some id /\
       w_refunds w !! id = Some refund /\
       w_orders w !! rf_OrderID refund = Some order /\
       o_UserID order = userUUID) /\
  (forall (userUUID id : UUID) (refund : Refund) (order : Order),
     uuid_Parse E userID = Some userUUID ->
     uuid_Parse E refundID = Some id ->
     refundRepo_GetByID E id w = (Done (Ok refund), w) ->
     orderRepo_GetByID E (rf_OrderID refund) w = (Done (Ok order), w) ->
     o_UserID order <> userUUID ->
     out = Done (Fail (ErrNew "refund does not belong to user"))).
Proof.
  unfold GetRefundByID.
  destruct (uuid_Parse E userID) as [userUUID|].
  2: { intros H; inversion H; subst. split; [reflexivity|].
       split; [intros ? Ho; inversion Ho | intros ? ? ? ? Hp; inversion Hp]. }
  destruct (uuid_Parse E refundID) as [id|].
  2: { intros H; inversion H; subst. split; [reflexivity|].
       split; [intros ? Ho; inversion Ho | intros ? ? ? ? _ Hp; inversion Hp]. }
  unfold bind at 1.
  destruct (refundRepo_GetByID E id w) as [o1 w1] eqn:Hread.
  assert (Hw1 : w1 = w /\
                forall refund, o1 = Done (Ok refund) -> w_refunds w !! id = Some refund).
  { unfold refundRepo_GetByID in Hread.
    destruct (db_fault E (RefundGetByID id)); [inversion Hread; split; [reflexivity|];
                                               intros ? Ho; inversion Ho|].
    destruct (w_refunds w !! id) as [refund|]; inversion Hread; subst;
      (split; [reflexivity|]); intros ? Ho; inversion Ho; reflexivity. }
  destruct Hw1 as [-> Hrow].
  destruct o1 as [[refund|err]|].
  2: { intros H; inversion H; subst. split; [reflexivity|].
       split; [intros ? Ho; inversion Ho|].
       intros ? ? ? ? Hu Hp Hr. inversion Hp; subst. rewrite Hread in Hr. inversion Hr. }
  2: { intros H; inversion H; subst. split; [reflexivity|].
       split; [intros ? Ho; inversion Ho|].
       intros ? ? ? ? Hu Hp Hr. inversion Hp; subst. rewrite Hread in Hr. inversion Hr. }
  unfold bind at 1.
  destruct (orderRepo_GetByID E (rf_OrderID refund) w) as [o2 w2] eqn:Horder.
  assert (Hw2 : w2 = w /\
                forall order, o2 = Done (Ok order) ->
                              w_orders w !! rf_OrderID refund = Some order).
  { unfold orderRepo_GetByID in Horder.
    destruct (db_fault E (OrderGetByID (rf_OrderID refund)));
      [inversion Horder; split; [reflexivity|]; intros ? Ho; inversion Ho|].
    destruct (w_orders w !! rf_OrderID refund) as [order|]; inversion Horder; subst;
      (split; [reflexivity|]); intros ? Ho; inversion Ho; reflexivity. }
  destruct Hw2 as [-> Horow].
  destruct o2 as [[order|err]|].
  2: { intros H; inversion H; subst. split; [reflexivity|].
       split; [intros ? Ho; inversion Ho|].
       intros ? ? r' ? Hu Hp Hr Hor. inversion Hp; subst. rewrite Hread in Hr.
       inversion Hr; subst r'. rewrite Horder in Hor. inversion Hor. }
  2: { intros H; inversion H; subst. split; [reflexivity|].
       split; [intros ? Ho; inversion Ho|].
       intros ? ? r' ? Hu Hp Hr Hor. inversion Hp; subst. rewrite Hread in Hr.
       inversion Hr; subst r'. rewrite Horder in Hor. inversion Hor. }
  destruct (N.eqb_spec (o_UserID order) userUUID) as [Heq|Hne]; cbn [negb];
    intros H; inversion H; subst; (split; [reflexivity|]).
  - split.
    + intros refund' Ho. inversion Ho; subst refund'.
      exists (o_UserID order), id, order.
      repeat split; try reflexivity; [apply Hrow | apply Horow]; reflexivity.
    + intros u i r' o' Hu Hp Hr Hor Hne. inversion Hu; subst u. inversion Hp; subst i.
      rewrite Hread in Hr. inversion Hr; subst r'. rewrite Horder in Hor.
      inversion Hor; subst o'. contradiction.
  - split; [intros ? Ho; inversion Ho|]. intros; reflexivity.
Qed.

Lemma GetRefundByID_owner_witness :
  GetRefundByID (env no_fault) "101" "5" (world_with "delivered" "pending")
  = (Done (Fail (ErrNew "refund does not belong to user")), world_with "delivered" "pending").
Proof.
  pose (r := GetRefundByID (env no_fault) "101" "5" (world_with "delivered" "pending")).
  destruct (GetRefundByID_owner_only (env no_fault) (world_with "delivered" "pending")
              (snd r) "101" "5" (fst r)) as (Hw & _ & Hother);
    [vm_compute; reflexivity|].
  rewrite (surjective_pairing (GetRefundByID _ _ _ _)). fold r. rewrite Hw.
  rewrite (Hother 101%N 5%N (refund_of 5%N 1%N "pending") (order_of 1%N 9%N "delivered"));
    [reflexivity | vm_compute; reflexivity | vm_compute; reflexivity
     | vm_compute; reflexivity | vm_compute; reflexivity | discriminate].
Defined.

Section WithRepos.
Context (E : Env).
Context (refundRepo_GetByUserIDWithFilters :
           UUID -> Z -> Z -> string -> Go (result (list Refund * Z))).

(** X9. With a positive page size, a total that the repository reports
    as non-negative and no overflow, [GetRefunds] answers with the rows
    and the total of the repository and with the least number of pages
    of that size that hold the total; for a page number from 1 on, the
    offset it asks the repository for is (page - 1) * limit. *)
Theorem GetRefunds_total_pages
  (w w1 : World) (userID status : string) (userUUID : UUID) (page limit total : Z)
  (refunds : list Refund) :
  uuid_Parse E userID = Some userUUID ->
  refundRepo_GetByUserIDWithFilters userUUID (mul64 (sub64 page 1) limit) limit status w
  = (Done (Ok (refunds, total)), w1) ->
  0 < limit -> 0 <= total -> total + limit < 2 ^ 63 ->
  exists totalPages : Z,
    GetRefunds E refundRepo_GetByUserIDWithFilters userID page limit status w
    = (Done (Ok (mkRefundListResponse refunds total page totalPages)), w1) /\
    (totalPages - 1) * limit < total <= totalPages * limit /\
    (1 <= page -> (page - 1) * limit < 2 ^ 63 ->
     mul64 (sub64 page 1) limit = (page - 1) * limit).
Proof.
  intros Hparse Hrepo Hlimit Htotal Hsum.
  unfold GetRefunds. rewrite Hparse. unfold bind. rewrite Hrepo.
  unfold div64, sub64, add64.
  assert (Hl0 : (limit =? 0) = false) by (apply Z.eqb_neq; lia).
  rewrite Hl0.
  rewrite (wrap64_small (total + limit)) by lia.
  rewrite (wrap64_small (total + limit - 1)) by lia.
  assert (Hq : Z.quot (total + limit - 1) limit = (total + limit - 1) / limit)
    by (apply Z.quot_div_nonneg; lia).
  rewrite Hq.
  pose proof (Z.div_mod (total + limit - 1) limit ltac:(lia)) as Hdm.
  pose proof (Z.mod_pos_bound (total + limit - 1) limit Hlimit) as Hmod.
  assert (Hlo : 0 <= (total + limit - 1) / limit) by (apply Z.div_pos; lia).
  assert (Hhi : (total + limit - 1) / limit <= total + limit - 1)
    by (apply Z.div_le_upper_bound; nia).
  rewrite (wrap64_small ((total + limit - 1) / limit)) by lia.
  eexists. split; [reflexivity|]. split; [nia|].
  intros Hpage Hoff. unfold mul64.
  assert (Hp : page - 1 <= (page - 1) * limit) by nia.
  assert (Hn : 0 <= (page - 1) * limit) by nia.
  rewrite (wrap64_small (page - 1)) by lia.
  apply wrap64_small. lia.
Qed.

(** X10. With page size 0 the computation of the page count divides by
    zero: once the repository has answered, [GetRefunds] panics. *)
Theorem GetRefunds_zero_limit_panics
  (w w1 : World) (userID status : string) (userUUID : UUID) (page total : Z)
  (refunds : list Refund) :
  uuid_Parse E userID = Some userUUID ->
  refundRepo_GetByUserIDWithFilters userUUID 0 0 status w
  = (Done (Ok (refunds, total)), w1) ->
  GetRefunds E refundRepo_GetByUserIDWithFilters userID page 0 status w = (Panic, w1).
Proof.
  intros Hparse Hrepo.
  unfold GetRefunds. rewrite Hparse. unfold bind.
  assert (Hoff : mul64 (sub64 page 1) 0 = 0)
    by (unfold mul64; rewrite Z.mul_0_r; reflexivity).
  rewrite Hoff, Hrepo. reflexivity.
Qed.

End WithRepos.

Lemma GetRefunds_total_pages_witness :
  exists refunds,
    GetRefunds (env no_fault) refunds_of_user "100" 1 10 "" (world_with "delivered" "pending")
    = (Done (Ok (mkRefundListResponse refunds 1 1 1)), world_with "delivered" "pending").
Proof.
  destruct (GetRefunds_total_pages (env no_fault) refunds_of_user
              (world_with "delivered" "pending") (world_with "delivered" "pending")
              "100" "" 100%N 1 10 1 [refund_of 5%N 1%N "pending"])
    as (totalPages & Hrun & Hbounds & _);
    [vm_compute; reflexivity | vm_compute; reflexivity | lia | lia | lia |].
  assert (HtotalPages : totalPages = 1) by lia. subst totalPages.
  eexists. exact Hrun.
Defined.

Lemma GetRefunds_zero_limit_witness :
  GetRefunds (env no_fault) refunds_of_user "100" 1 0 "" (world_with "delivered" "pending")
  = (Panic, world_with "delivered" "pending").
Proof.
  apply (GetRefunds_zero_limit_panics (env no_fault) refunds_of_user
           (world_with "delivered" "pending") (world_with "delivered" "pending")
           "100" "" 100%N 1 1 []);
    vm_compute; reflexivity.
Defined.

End RefundQueryFacts.

(** ** Starting, stopping and forcing the scheduler *)

Module CronControlFacts.
Import Store Repo Clock CronControl CronControlSpec SchedulerSpec SampleEnv.

Lemma run_panics_iff (calls : list Call) :
  forall s, run calls s = None <-> occurs_in_order (remaining s) calls = true.
Proof.
  induction calls as [|c rest IH]; intros s.
  - simpl. unfold remaining.
    destruct (isRunning s), (stopChan_closed s); simpl; split; discriminate.
  - destruct c; cbn [run].
    + unfold StartAutomaticStatusManagement.
      destruct (isRunning s) eqn:Hr.
      * rewrite IH. unfold remaining. rewrite Hr.
        destruct (stopChan_closed s); reflexivity.
      * rewrite IH. unfold remaining. cbn [isRunning stopChan_closed]. rewrite Hr.
        destruct (stopChan_closed s); reflexivity.
    + unfold StopAutomaticStatusManagement.
      destruct (isRunning s) eqn:Hr; cbn [negb].
      * destruct (stopChan_closed s) eqn:Hc.
        -- unfold remaining. rewrite Hr, Hc. simpl.
           split; [intros _; destruct rest; reflexivity | reflexivity].
        -- rewrite IH. unfold remaining. cbn [isRunning stopChan_closed]. rewrite Hr, Hc.
           reflexivity.
      * rewrite IH. unfold remaining. rewrite Hr.
        destruct (stopChan_closed s); reflexivity.
Qed.

(** X11. Start and stop requests made one after the other to a fresh
    service: one of them panics exactly when the sequence contains, in
    this order, a start, a stop, a start and a stop.  The service survives
    one stop; the stop after a restart closes the closed channel. *)
Theorem cron_panics_on_second_stop (calls : list Call) :
  run calls NewEnhancedCronService = None
  <-> occurs_in_order [CallStart; CallStop; CallStart; CallStop] calls = true.
Proof. apply (run_panics_iff calls NewEnhancedCronService). Qed.

Lemma cron_panics_witness :
  run [CallStart; CallStop; CallStart; CallStop] NewEnhancedCronService = None /\
  run [CallStart; CallStop; CallStop; CallStart] NewEnhancedCronService <> None.
Proof.
  split.
  - apply cron_panics_on_second_stop. reflexivity.
  - intros H. apply cron_panics_on_second_stop in H. discriminate H.
Defined.

Lemma Start_step (s : EnhancedCronService) :
  exists o s',
    StartAutomaticStatusManagement s = (Done o, s') /\
    (length (goroutines s') + 3 * effective_starts s
     = length (goroutines s) + 3 * effective_starts s')%nat.
Proof.
  unfold StartAutomaticStatusManagement, effective_starts.
  destruct (isRunning s) eqn:Hr.
  - eexists. eexists. split; [reflexivity|]. rewrite Hr. lia.
  - eexists. eexists. split; [reflexivity|].
    cbn [isRunning stopChan_closed goroutines]. rewrite length_app.
    destruct (stopChan_closed s); simpl; lia.
Qed.

Lemma Stop_step (s s' : EnhancedCronService) (o : unit) :
  StopAutomaticStatusManagement s = (Done o, s') ->
  (length (goroutines s') + 3 * effective_starts s
   = length (goroutines s) + 3 * effective_starts s')%nat.
Proof.
  unfold StopAutomaticStatusManagement, effective_starts.
  destruct (isRunning s) eqn:Hr; cbn [negb].
  - destruct (stopChan_closed s) eqn:Hc; intros H; inversion H; subst.
    cbn [isRunning stopChan_closed goroutines]. lia.
  - intros H; inversion H; subst. rewrite Hr. lia.
Qed.

Lemma run_states (calls : list Call) :
  forall s s',
    run calls s = Some s' ->
    (length (goroutines s') + 3 * effective_starts s
     = length (goroutines s) + 3 * effective_starts s')%nat.
Proof.
  induction calls as [|c rest IH]; intros s s'.
  - simpl. intros H. inversion H; subst. reflexivity.
  - destruct c; cbn [run].
    + destruct (Start_step s) as (o & s1 & Hs & Hlen). rewrite Hs.
      intros H. apply IH in H. lia.
    + destruct (StopAutomaticStatusManagement s) as [[o|] s1] eqn:Hs; [|discriminate].
      apply Stop_step in Hs. intros H. apply IH in H. lia.
Qed.

(** X12. Whatever start and stop requests a fresh service has answered
    without panic, it has started its three loops at most twice, and it
    has started them a second time only after the stop channel was
    closed. *)
Theorem cron_started_at_most_twice (calls : list Call) (s : EnhancedCronService) :
  run calls NewEnhancedCronService = Some s ->
  (length (goroutines s) = 0 \/ length (goroutines s) = 3 \/ length (goroutines s) = 6)%nat /\
  (length (goroutines s) = 6%nat -> stopChan_closed s = true /\ isRunning s = true) /\
  (length (goroutines s) = 0%nat -> stopChan_closed s = false /\ isRunning s = false).
Proof.
  intros H. apply run_states in H. revert H.
  unfold effective_starts.
  cbn [NewEnhancedCronService isRunning stopChan_closed goroutines length].
  destruct (isRunning s), (stopChan_closed s); intros H;
    repeat split; try lia; try reflexivity.
Qed.

Lemma cron_started_at_most_twice_witness :
  exists s,
    run [CallStart; CallStart; CallStop; CallStop; CallStart; CallStart]
        NewEnhancedCronService = Some s /\
    length (goroutines s) = 6%nat /\ stopChan_closed s = true /\ isRunning s = true.
Proof.
  eexists. split; [reflexivity|].
  pose proof (cron_started_at_most_twice
                [CallStart; CallStart; CallStop; CallStop; CallStart; CallStart] _ eq_refl)
    as (_ & H6 & _).
  split; [reflexivity|]. apply H6. reflexivity.
Defined.

End CronControlFacts.

(** ** Forcing a status update *)

Module ForceFacts.
Import Store Repo Clock Scheduler CronControl SchedulerSpec SampleEnv TableFacts.

Lemma determineRestaurantStatus_values (E : Env) (restaurant : option Restaurant) :
  determineRestaurantStatus E restaurant = "open"
  \/ determineRestaurantStatus E restaurant = "closed".
Proof.
  unfold determineRestaurantStatus.
  destruct restaurant as [r|]; [|right; reflexivity].
  destruct (negb (r_AutoOpenClose r)).
  - destruct (r_IsOpen r); [left | right]; reflexivity.
  - destruct (Hours.shouldRestaurantBeOpenAtTime r (time_Now E)); [left | right]; reflexivity.
Qed.

(** X13. [ForceStatusUpdate] on a restaurant that is found: the status it
    computes is [open] or [closed], and it compares that with the status
    column (whose values are active, inactive, suspended, closed) and not
    with the [is_open] flag.  When the two differ and the write succeeds,
    the row is stored with the status column overwritten by the computed
    status and the update stamped, the [is_open] flag and every other
    column as they were, and one line is logged; when they agree nothing
    is written. *)
Theorem ForceStatusUpdate_overwrites_status
  (E : Env) (w : World) (restaurantID : string) (id : UUID) (restaurant : Restaurant) :
  uuid_Parse E restaurantID = Some id ->
  restaurantRepo_GetByID E id w = (Done (Ok restaurant), w) ->
  db_fault E (RestaurantUpdate (r_ID restaurant)) = false ->
  (determineRestaurantStatus E (Some restaurant) = "open"
   \/ determineRestaurantStatus E (Some restaurant) = "closed") /\
  (r_Status restaurant = determineRestaurantStatus E (Some restaurant) ->
   ForceStatusUpdate E restaurantID w = (Done (None, []), w)) /\
  (r_Status restaurant <> determineRestaurantStatus E (Some restaurant) ->
   ForceStatusUpdate E restaurantID w
   = (Done (None, [LogForceUpdated (r_Name restaurant)
                     (determineRestaurantStatus E (Some restaurant))]),
      set_w_restaurants
        (save_restaurant
           (mkRestaurant (r_ID restaurant) (r_Name restaurant) (r_Description restaurant)
              (determineRestaurantStatus E (Some restaurant))
              (r_IsOpen restaurant) (r_AutoOpenClose restaurant)
              (r_OpeningHours restaurant) (Some (t_unix (time_Now E))))
           (w_restaurants w)) w)).
Proof.
  intros Hparse Hread Hok.
  split; [apply determineRestaurantStatus_values|].
  split.
  - intros Heq.
    unfold ForceStatusUpdate. rewrite Hparse. unfold bind at 1. rewrite Hread.
    rewrite <- Heq. rewrite String.eqb_refl. reflexivity.
  - intros Hne.
    unfold ForceStatusUpdate. rewrite Hparse. unfold bind at 1. rewrite Hread.
    destruct (String.eqb_spec (r_Status restaurant)
                (determineRestaurantStatus E (Some restaurant))) as [e|_]; [contradiction|].
    cbn [negb]. unfold bind, restaurantRepo_Update, ret.
    cbn [r_ID r_Name set_r_LastStatusUpdate set_r_Status]. rewrite Hok. reflexivity.
Qed.

Lemma ForceStatusUpdate_witness :
  ForceStatusUpdate (env no_fault) "9" (world_with "pending" "pending")
  = (Done (None, [LogForceUpdated "Spice Route" "open"]),
     set_w_restaurants
       [mkRestaurant 9%N "Spice Route" "" "open" true false None (Some 1700000000)]
       (world_with "pending" "pending")).
Proof.
  destruct (ForceStatusUpdate_overwrites_status (env no_fault)
              (world_with "pending" "pending") "9" 9%N restaurant_9)
    as (_ & _ & Hwrite);
    [vm_compute; reflexivity | vm_compute; reflexivity | vm_compute; reflexivity |].
  rewrite Hwrite by (vm_compute; discriminate). reflexivity.
Defined.

Lemma range_filter_auto_managed (allRestaurants : list Restaurant) :
  forall (limit : nat) (acc : list Restaurant) (r : Restaurant),
    In r (range_filter allRestaurants limit acc) ->
    In r acc \/ auto_managed r = true.
Proof.
  induction allRestaurants as [|x rest IH]; intros limit acc r; simpl; [auto|].
  destruct (r_AutoOpenClose x && String.eqb (r_Status x) "active") eqn:Hx.
  - destruct (limit <=? length (acc ++ [x]))%nat.
    + intros Hin. apply in_app_or in Hin. destruct Hin as [Hin|[<-|[]]]; auto.
    + intros Hin. apply IH in Hin. destruct Hin as [Hin|Hin]; [|auto].
      apply in_app_or in Hin. destruct Hin as [Hin|[<-|[]]]; auto.
  - intros Hin. apply IH in Hin. exact Hin.
Qed.

(** X14. Once [ForceStatusUpdate] has returned without error for a
    restaurant, the scheduler's query no longer returns that restaurant:
    its status column is [open] or [closed], and the query keeps only rows
    whose status column is [active].  This holds for every page the
    query is asked for, in a table whose rows have distinct ids. *)
Theorem forced_restaurant_leaves_schedule
  (E E' : Env) (w w' : World) (restaurantID : string) (id : UUID)
  (logs : list CronLog) (limit offset : nat) (page : list Restaurant) :
  NoDup (map r_ID (w_restaurants w)) ->
  uuid_Parse E restaurantID = Some id ->
  ForceStatusUpdate E restaurantID w = (Done (None, logs), w') ->
  getRestaurantsWithAutoOpenClose E' limit offset w' = (Done (Ok page), w') ->
  ~ In id (map r_ID page).
Proof.
  intros Hnd Hparse Hforce Hpage Hin.
  apply in_map_iff in Hin. destruct Hin as (x & Hxid & Hx).
  (* the rows of the page are auto-managed active rows of the table *)
  assert (Hxrow : In x (w_restaurants w') /\ auto_managed x = true).
  { destruct (SchedulerFacts.getRestaurantsWithAutoOpenClose_cases E' limit offset w')
      as [[err Hget] | (page' & Hget & Hrows & _)];
      rewrite Hget in Hpage; inversion Hpage; subst page'.
    split; [apply Hrows; exact Hx|].
    unfold getRestaurantsWithAutoOpenClose, bind, restaurantRepo_Search in Hget.
    destruct (db_fault E' (RestaurantSearch (limit * 2) offset)); [inversion Hget|].
    unfold ret in Hget. inversion Hget as [Hp]. rewrite <- Hp in Hx.
    apply range_filter_auto_managed in Hx. destruct Hx as [[]|Hx]. exact Hx. }
  destruct Hxrow as [Hxin Hauto].
  (* the row of [id] after the forced update has status open or closed *)
  assert (Hforced : exists r', In r' (w_restaurants w') /\ r_ID r' = id /\
                               NoDup (map r_ID (w_restaurants w')) /\
                               (r_Status r' = "open" \/ r_Status r' = "closed")).
  { unfold ForceStatusUpdate in Hforce. rewrite Hparse in Hforce.
    unfold bind at 1 in Hforce. unfold restaurantRepo_GetByID in Hforce.
    destruct (db_fault E (RestaurantGetByID id)); [inversion Hforce|].
    destruct (row_of id (w_restaurants w)) as [r|] eqn:Hrow; [|inversion Hforce].
    apply row_of_Some in Hrow. destruct Hrow as [Hrin Hrid].
    pose proof (determineRestaurantStatus_values E (Some r)) as Hvals.
    destruct (String.eqb_spec (r_Status r) (determineRestaurantStatus E (Some r)))
      as [Heq|Hne]; cbn [negb] in Hforce.
    - inversion Hforce; subst w'. exists r.
      split; [exact Hrin|]. split; [exact Hrid|]. split; [exact Hnd|].
      rewrite Heq. exact Hvals.
    - unfold bind, restaurantRepo_Update, ret in Hforce.
      cbn [r_ID set_r_LastStatusUpdate set_r_Status] in Hforce.
      destruct (db_fault E (RestaurantUpdate (r_ID r))); inversion Hforce; subst w'.
      cbn [w_restaurants set_w_restaurants].
      set (r' := set_r_LastStatusUpdate (Some (t_unix (time_Now E)))
                   (set_r_Status (determineRestaurantStatus E (Some r)) r)).
      exists r'. split.
      { assert (Hrow' : row_of id (save_restaurant r' (w_restaurants w)) = Some r').
        { rewrite SchedulerFacts.row_of_save. unfold r'.
          cbn [r_ID set_r_LastStatusUpdate set_r_Status]. rewrite Hrid, N.eqb_refl.
          reflexivity. }
        apply row_of_Some in Hrow'. tauto. }
      split; [exact Hrid|]. split; [|exact Hvals].
      rewrite SchedulerFacts.save_restaurant_ids; [exact Hnd|].
      unfold r'. cbn [r_ID set_r_LastStatusUpdate set_r_Status]. apply in_map. exact Hrin. }
  destruct Hforced as (r' & Hr'in & Hr'id & Hnd' & Hstatus).
  assert (Hsame : x = r')
    by (apply (same_id_same_row (w_restaurants w')); try assumption; congruence).
  subst x. unfold auto_managed in Hauto. apply andb_prop in Hauto. destruct Hauto as [_ Hact].
  apply String.eqb_eq in Hact. destruct Hstatus as [Hs|Hs]; rewrite Hs in Hact; discriminate.
Qed.

Lemma forced_restaurant_witness :
  exists w',
    ForceStatusUpdate (env no_fault) "22" SampleTick.world_ABC
    = (Done (None, [LogForceUpdated "B" "open"]), w') /\
    (forall page,
       getRestaurantsWithAutoOpenClose (env no_fault) 100 0 w' = (Done (Ok page), w') ->
       ~ In 22%N (map r_ID page)) /\
    In 22%N (map r_ID (List.filter auto_managed (w_restaurants SampleTick.world_ABC))).
Proof.
  eexists. split; [vm_compute; reflexivity|]. split.
  - intros page Hpage.
    eapply (forced_restaurant_leaves_schedule (env no_fault) (env no_fault)
              SampleTick.world_ABC _ "22" 22%N _ 100 0 page);
      [|vm_compute; reflexivity|vm_compute; reflexivity|exact Hpage].
    repeat (constructor;
            [simpl; intros H; apply list_elem_of_In in H; simpl in H;
             repeat (destruct H as [H|H]; [discriminate H|]); exact H|]).
    constructor.
  - vm_compute. right. left. reflexivity.
Defined.

End ForceFacts.

(** ** The window the tick reads *)

Module PagingFacts.
Import Store Repo Scheduler SchedulerSpec Clock SampleEnv SampleTick SampleLongTable.

Lemma range_filter_below_limit (allRestaurants : list Restaurant) :
  forall (acc : list Restaurant) (limit : nat),
    (length acc + length (List.filter auto_managed allRestaurants) < limit)%nat ->
    range_filter allRestaurants limit acc
    = (acc ++ List.filter auto_managed allRestaurants)%list.
Proof.
  induction allRestaurants as [|r rest IH]; intros acc limit Hlen; simpl.
  - rewrite app_nil_r. reflexivity.
  - simpl in Hlen. unfold auto_managed at 1. unfold auto_managed at 1 in Hlen.
    destruct (r_AutoOpenClose r && String.eqb (r_Status r) "active").
    + simpl in Hlen.
      assert (Hlt : (limit <=? length (acc ++ [r]))%nat = false).
      { apply Nat.leb_gt. rewrite length_app. simpl. lia. }
      rewrite Hlt. rewrite IH.
      * rewrite <- app_assoc. reflexivity.
      * rewrite length_app. simpl. lia.
    + apply IH. exact Hlen.
Qed.

Lemma NoDup_ids_app (l1 l2 : list Restaurant) (x y : Restaurant) :
  NoDup (map r_ID (l1 ++ l2)) -> In x l1 -> In y l2 -> r_ID x <> r_ID y.
Proof.
  rewrite map_app. intros Hnd Hx Hy Heq.
  apply NoDup_app in Hnd. destruct Hnd as (_ & Hdisj & _).
  apply (Hdisj (r_ID x)).
  - apply list_elem_of_In. apply in_map. exact Hx.
  - apply list_elem_of_In. rewrite Heq. apply in_map. exact Hy.
Qed.

(** X15. The tick reads rows beyond the first two hundred only after a
    full page.  In a table with distinct ids whose first 200 rows hold
    fewer than 100 auto-managed active restaurants, read without fault,
    the tick handles those restaurants and ends: every row from the 201st
    on is left as it was, also one that is auto-managed and whose flag
    disagrees with its schedule. *)
Theorem tick_reads_first_window_only (E : Env) (w : World) :
  NoDup (map r_ID (w_restaurants w)) ->
  db_fault E (RestaurantSearch 200 0) = false ->
  (length (List.filter auto_managed (take 200 (w_restaurants w))) < 100)%nat ->
  exists w',
    updateAllRestaurantStatuses E w = (Done true, w') /\
    (forall r, In r (drop 200 (w_restaurants w)) ->
               row_of (r_ID r) (w_restaurants w') = Some r) /\
    (exists totalUpdated totalErrors,
       In (EvLogTickDone totalUpdated totalErrors) (w_trace w') /\
       (totalUpdated + totalErrors
        = length (List.filter auto_managed (take 200 (w_restaurants w))))%nat).
Proof.
  intros Hnd Hsearch Hfew.
  set (w0 := mkWorld (w_orders w) (w_refunds w) (w_restaurants w) (w_deliveries w)
                     (w_partner_links w) (w_partner_companies w)
                     (w_trace w ++ [EvLogTickStart])).
  set (page := List.filter auto_managed (take 200 (w_restaurants w))).
  assert (Hget : getRestaurantsWithAutoOpenClose E 100 0 w0 = (Done (Ok page), w0)).
  { unfold getRestaurantsWithAutoOpenClose, bind, restaurantRepo_Search.
    change (100 * 2)%nat with 200%nat. rewrite Hsearch.
    rewrite SchedulerFacts.filter_all_true by apply SchedulerFacts.ilike_empty_query.
    rewrite drop_0. unfold ret. cbn [w_restaurants w0].
    rewrite range_filter_below_limit by (simpl; exact Hfew). reflexivity. }
  assert (Hpage_in : forall r, In r page -> In r (take 200 (w_restaurants w)))
    by (intros r Hr; apply filter_In in Hr; tauto).
  assert (Hnd_page : NoDup (map r_ID page)).
  { apply SchedulerFacts.NoDup_ids_filter.
    rewrite <- (take_drop 200 (w_restaurants w)), map_app in Hnd.
    apply NoDup_app in Hnd. tauto. }
  assert (Hbeyond : forall r, In r (drop 200 (w_restaurants w)) ->
                      ~ In (r_ID r) (map r_ID page)).
  { intros r Hr Hin. apply in_map_iff in Hin. destruct Hin as (x & Hid & Hx).
    apply (NoDup_ids_app (take 200 (w_restaurants w)) (drop 200 (w_restaurants w)) x r);
      [rewrite take_drop; exact Hnd | apply Hpage_in; exact Hx | exact Hr | exact Hid]. }
  assert (Hrow : forall r, In r (drop 200 (w_restaurants w)) ->
                   row_of (r_ID r) (w_restaurants w) = Some r).
  { intros r Hr. apply SchedulerFacts.row_of_In; [exact Hnd|].
    rewrite <- (take_drop 200 (w_restaurants w)). apply in_or_app. right. exact Hr. }
  unfold updateAllRestaurantStatuses.
  unfold bind at 1. unfold emit at 1. fold w0.
  unfold bind at 1. cbn [page_loop]. unfold bind at 1. rewrite Hget.
  destruct (length page =? 0)%nat eqn:Hz.
  - apply Nat.eqb_eq in Hz.
    unfold bind, emit, ret. eexists. split; [reflexivity|].
    cbn [w_restaurants w_trace w0]. split; [exact Hrow|].
    exists 0%nat, 0%nat. split; [|symmetry; exact Hz].
    apply in_or_app. right. left. reflexivity.
  - destruct (SchedulerFacts.range_restaurants_post E (time_Now E) page Hnd_page
                0%nat 0%nat w0) as (u' & e' & w1 & Hrun & Hp).
    unfold bind at 1. rewrite Hrun.
    assert (Hlt : (length page <? 100)%nat = true) by (apply Nat.ltb_lt; exact Hfew).
    rewrite Hlt. unfold ret at 1. cbn [fst snd].
    unfold bind, emit, ret. eexists. split; [reflexivity|].
    destruct Hp as [Hc He Ho Hw Hfl Hs Ht]. cbn [w_restaurants w_trace w0] in *.
    split.
    + intros r Hr. rewrite (Ho (r_ID r) (Hbeyond r Hr)). apply Hrow. exact Hr.
    + exists u', e'. split; [apply in_or_app; right; left; reflexivity|].
      simpl in Hc. exact Hc.
Qed.

Lemma tick_first_window_witness :
  exists w',
    updateAllRestaurantStatuses (env no_fault) world_201 = (Done true, w') /\
    row_of 21%N (w_restaurants w') = Some restaurant_A /\
    auto_managed restaurant_A = true /\
    status_differs restaurant_A (time_Now (env no_fault)) = true.
Proof.
  destruct (tick_reads_first_window_only (env no_fault) world_201)
    as (w' & Hrun & Hrows & _).
  - refine (bool_decide_unpack _ _). vm_compute. reflexivity.
  - reflexivity.
  - vm_compute. lia.
  - exists w'. split; [exact Hrun|].
    split; [|split; vm_compute; reflexivity].
    apply (Hrows restaurant_A). vm_compute. left. reflexivity.
Defined.

End PagingFacts.

(** ** More on the Porter webhook *)

Module WebhookEffects.
Import Store Repo Porter Clock SampleEnv SamplePayloads.

(** What the first switch does to a row when it does not panic. *)
Lemma apply_status_fields (E : Env) (payload : PorterWebhookPayload)
  (d : PorterDelivery) (w : World) :
  (wp_Status payload = "order_accepted" ->
   is_Some (od_DriverDetails (wp_OrderDetails payload))) ->
  exists d',
    apply_status E payload d w = (Done d', w) /\
    pd_ID d' = pd_ID d /\ pd_OrderID d' = pd_OrderID d /\
    pd_PorterOrderID d' = pd_PorterOrderID d /\
    pd_Status d' = pd_Status d /\
    pd_IsActive d'
    = (if String.eqb (wp_Status payload) "order_cancel" then false else pd_IsActive d).
Proof.
  intros Hdriver. unfold apply_status.
  destruct (String.eqb_spec (wp_Status payload) "order_accepted") as [Hacc|_].
  { destruct (Hdriver Hacc) as [driver Hd]. rewrite Hd, Hacc.
    destruct (0 <? od_EventTs (wp_OrderDetails payload))%Z;
      eexists; (split; [reflexivity|]); repeat split. }
  destruct (String.eqb_spec (wp_Status payload) "order_start_trip") as [Hs|_].
  { rewrite Hs. eexists. split; [reflexivity|]. repeat split. }
  destruct (String.eqb_spec (wp_Status payload) "order_end_job") as [Hs|_].
  { rewrite Hs. eexists. split; [reflexivity|]. repeat split. }
  destruct (String.eqb_spec (wp_Status payload) "order_reopen") as [Hs|_].
  { rewrite Hs. eexists. split; [reflexivity|]. repeat split. }
  destruct (String.eqb (wp_Status payload) "order_cancel");
    eexists; (split; [reflexivity|]); repeat split.
Qed.

Lemma In_save_delivery (d : PorterDelivery) (rows : list PorterDelivery) :
  In d (save_delivery d rows).
Proof.
  induction rows as [|x rest IH]; simpl; [left; reflexivity|].
  destruct (pd_ID x =? pd_ID d)%N; [left; reflexivity | right; exact IH].
Qed.

(** The delivery row as [HandleWebhook] writes it. *)
Lemma HandleWebhook_row_written (E : Env) (payload : PorterWebhookPayload)
  (w : World) (porterDelivery : PorterDelivery) :
  porterDeliveryRepo_GetByPorterOrderID E (wp_OrderID payload) w
  = (Done (Ok porterDelivery), w) ->
  (wp_Status payload = "order_accepted" ->
   is_Some (od_DriverDetails (wp_OrderDetails payload))) ->
  db_fault E (DeliveryUpdate (pd_ID porterDelivery)) = false ->
  exists stored : PorterDelivery,
    pd_ID stored = pd_ID porterDelivery /\
    pd_OrderID stored = pd_OrderID porterDelivery /\
    pd_PorterOrderID stored = pd_PorterOrderID porterDelivery /\
    pd_Status stored = wp_Status payload /\
    pd_UpdatedAt stored = t_unix (time_Now E) /\
    pd_IsActive stored
    = (if String.eqb (wp_Status payload) "order_cancel" then false
       else pd_IsActive porterDelivery) /\
    HandleWebhook E payload w
    = (r <-- orderRepo_GetByID E (pd_OrderID porterDelivery) ;
       match r with
       | Fail err => ret (Some (ErrWrap "failed to get order" err))
       | Ok order =>
           let newOrderStatus := newOrderStatus_of (wp_Status payload) in
           if negb (String.eqb newOrderStatus "")
              && negb (String.eqb (o_OrderStatus order) newOrderStatus)
           then
             e <-- orderRepo_Update E (set_o_OrderStatus newOrderStatus order) ;
             match e with
             | Some err => ret (Some (ErrWrap "failed to update order status" err))
             | None => ret None
             end
           else ret None
       end)
      (set_w_deliveries (save_delivery stored (w_deliveries w)) w).
Proof.
  intros Hfind Hdriver Hok.
  destruct (apply_status_fields E payload
              (set_pd_UpdatedAt (t_unix (time_Now E))
                 (set_pd_Status (wp_Status payload) porterDelivery)) w Hdriver)
    as (d' & Hd & Hid & Hoid & Hpid & Hst & Hact).
  cbn [pd_ID pd_OrderID pd_PorterOrderID pd_Status pd_IsActive
       set_pd_UpdatedAt set_pd_Status] in Hid, Hoid, Hpid, Hst, Hact.
  exists (set_pd_UpdatedAt (t_unix (time_Now E)) d').
  cbn [pd_ID pd_OrderID pd_PorterOrderID pd_Status pd_IsActive pd_UpdatedAt set_pd_UpdatedAt].
  repeat (split; [assumption || reflexivity|]).
  unfold HandleWebhook. unfold bind at 1. rewrite Hfind.
  unfold bind at 1. rewrite Hd.
  unfold bind at 1. unfold porterDeliveryRepo_Update. rewrite Hid, Hok.
  rewrite Hoid. reflexivity.
Qed.

(** X16. [HandleWebhook] is not atomic.  When the delivery row is found
    and written, the order is found and its status has to change, and the
    write of the order fails, the call returns the error "failed to update
    order status" with the orders as they were and the messages as they
    were, but the delivery row stays written: it carries the carrier's
    status, and is inactive if the status is [order_cancel]. *)
Theorem HandleWebhook_not_atomic
  (E : Env) (payload : PorterWebhookPayload) (w : World)
  (porterDelivery : PorterDelivery) (order : Order) :
  porterDeliveryRepo_GetByPorterOrderID E (wp_OrderID payload) w
  = (Done (Ok porterDelivery), w) ->
  (wp_Status payload = "order_accepted" ->
   is_Some (od_DriverDetails (wp_OrderDetails payload))) ->
  db_fault E (DeliveryUpdate (pd_ID porterDelivery)) = false ->
  orderRepo_GetByID E (pd_OrderID porterDelivery) w = (Done (Ok order), w) ->
  newOrderStatus_of (wp_Status payload) <> "" ->
  o_OrderStatus order <> newOrderStatus_of (wp_Status payload) ->
  db_fault E (OrderUpdate (o_ID order)) = true ->
  exists (stored : PorterDelivery) (w' : World),
    HandleWebhook E payload w
    = (Done (Some (ErrWrap "failed to update order status"
                           (ErrDb (OrderUpdate (o_ID order))))), w') /\
    w_orders w' = w_orders w /\
    w_trace w' = w_trace w /\
    In stored (w_deliveries w') /\
    pd_ID stored = pd_ID porterDelivery /\
    pd_Status stored = wp_Status payload /\
    (wp_Status payload = "order_cancel" -> pd_IsActive stored = false).
Proof.
  intros Hfind Hdriver Hok Horder Hmapped Hdiffers Hfail.
  destruct (HandleWebhook_row_written E payload w porterDelivery Hfind Hdriver Hok)
    as (stored & Hid & Hoid & _ & Hst & _ & Hact & Hrun).
  exists stored. eexists. rewrite Hrun. split.
  - unfold bind at 1. unfold orderRepo_GetByID in *.
    cbn [w_orders set_w_deliveries].
    destruct (db_fault E (OrderGetByID (pd_OrderID porterDelivery))); [inversion Horder|].
    destruct (w_orders w !! pd_OrderID porterDelivery) as [o|]; inversion Horder; subst o.
    destruct (String.eqb_spec (newOrderStatus_of (wp_Status payload)) "") as [e|_];
      [contradiction|].
    destruct (String.eqb_spec (o_OrderStatus order) (newOrderStatus_of (wp_Status payload)))
      as [e|_]; [contradiction|].
    cbn [negb andb]. unfold bind, orderRepo_Update, ret. cbn [o_ID set_o_OrderStatus].
    rewrite Hfail. reflexivity.
  - cbn [w_orders w_trace w_deliveries set_w_deliveries].
    split; [reflexivity|]. split; [reflexivity|].
    split; [apply In_save_delivery|]. split; [exact Hid|]. split; [exact Hst|].
    intros Hc. rewrite Hact, Hc. reflexivity.
Qed.

Lemma HandleWebhook_not_atomic_witness :
  let fault := fun op => match op with OrderUpdate _ => true | _ => false end in
  exists stored w',
    HandleWebhook (env fault) cancel_payload (world_with "dispatched" "pending")
    = (Done (Some (ErrWrap "failed to update order status" (ErrDb (OrderUpdate 1%N)))), w') /\
    w_orders w' = w_orders (world_with "dispatched" "pending") /\
    In stored (w_deliveries w') /\ pd_ID stored = 11%N /\ pd_IsActive stored = false.
Proof.
  intros fault.
  destruct (HandleWebhook_not_atomic (env fault) cancel_payload
              (world_with "dispatched" "pending")
              (delivery_of 11%N 1%N "CRN1" true) (order_of 1%N 9%N "dispatched"))
    as (stored & w' & Hrun & Horders & _ & Hin & Hid & _ & Hact);
    [vm_compute; reflexivity | discriminate | vm_compute; reflexivity
     | vm_compute; reflexivity | discriminate | discriminate | vm_compute; reflexivity |].
  exists stored, w'. split; [exact Hrun|]. split; [exact Horders|].
  split; [exact Hin|]. split; [exact Hid|]. apply Hact. reflexivity.
Defined.

(** X17. An [order_accepted] webhook without driver details, for a
    delivery row that is found, makes [HandleWebhook] panic before
    anything is written, and with it the handler once it has found the
    row and its order. *)
Theorem accepted_without_driver_panics
  (E : Env) (payload : PorterWebhookPayload) (w : World)
  (porterDelivery : PorterDelivery) :
  wp_Status payload = "order_accepted" ->
  od_DriverDetails (wp_OrderDetails payload) = None ->
  porterDeliveryRepo_GetByPorterOrderID E (wp_OrderID payload) w
  = (Done (Ok porterDelivery), w) ->
  HandleWebhook E payload w = (Panic, w) /\
  (wp_OrderID payload <> "" ->
   forall order,
     orderRepo_GetByID E (pd_OrderID porterDelivery) w = (Done (Ok order), w) ->
     Webhook E (Some payload) w = (Panic, w)).
Proof.
  intros Hst Hdriver Hfind.
  assert (Hpanic : HandleWebhook E payload w = (Panic, w)).
  { unfold HandleWebhook. unfold bind at 1. rewrite Hfind.
    unfold bind at 1. unfold apply_status. rewrite Hst. cbn [String.eqb Ascii.eqb Bool.eqb].
    rewrite Hdriver. reflexivity. }
  split; [exact Hpanic|].
  intros Hid order Horder. unfold Webhook.
  destruct (String.eqb_spec (wp_OrderID payload) "") as [e|_]; [contradiction|].
  destruct (String.eqb_spec (wp_Status payload) "") as [e|_];
    [rewrite Hst in e; discriminate e|].
  cbn [orb].
  unfold bind at 1. rewrite Hfind. unfold bind at 1. rewrite Horder.
  unfold bind at 1. rewrite Hpanic. reflexivity.
Qed.

Lemma accepted_without_driver_witness :
  HandleWebhook (env no_fault) accepted_without_driver (world_with "preparing" "pending")
  = (Panic, world_with "preparing" "pending") /\
  Webhook (env no_fault) (Some accepted_without_driver) (world_with "preparing" "pending")
  = (Panic, world_with "preparing" "pending").
Proof.
  destruct (accepted_without_driver_panics (env no_fault) accepted_without_driver
              (world_with "preparing" "pending") (delivery_of 11%N 1%N "CRN1" true))
    as [Hh Hw]; [reflexivity | reflexivity | vm_compute; reflexivity |].
  split; [exact Hh|].
  apply (Hw ltac:(discriminate) (order_of 1%N 9%N "preparing")).
  vm_compute. reflexivity.
Defined.

(** X18. The answer of the handler to a webhook it has processed names
    the order's status as it was read before the status sync: when the
    sync has changed the status, the stored order carries the mapped
    status and the answer the old one. *)
Theorem Webhook_reports_status_before_sync
  (E : Env) (payload : PorterWebhookPayload)
  (w w1 : World) (porterDelivery : PorterDelivery) (order : Order) :
  wp_OrderID payload <> "" ->
  wp_Status payload <> "" ->
  porterDeliveryRepo_GetByPorterOrderID E (wp_OrderID payload) w
  = (Done (Ok porterDelivery), w) ->
  orderRepo_GetByID E (pd_OrderID porterDelivery) w = (Done (Ok order), w) ->
  HandleWebhook E payload w = (Done None, w1) ->
  exists resp w2,
    Webhook E (Some payload) w = (Done resp, w2) /\
    resp_code resp = 200 /\
    resp_body resp !! "order_status" = Some (JStr (o_OrderStatus order)) /\
    resp_body resp !! "porter_status" = Some (JStr (wp_Status payload)) /\
    w_orders w2 = w_orders w1 /\
    (newOrderStatus_of (wp_Status payload) <> "" ->
     o_OrderStatus order <> newOrderStatus_of (wp_Status payload) ->
     o_OrderStatus <$> (w_orders w2 !! o_ID order)
     = Some (newOrderStatus_of (wp_Status payload))).
Proof.
  intros Hid Hst Hfind Hget Hsync.
  pose proof (WebhookFacts.HandleWebhook_success E payload w w1 Hsync)
    as (d & order' & Hd & Ho & _ & Horders).
  assert (Hd' : d = porterDelivery).
  { unfold porterDeliveryRepo_GetByPorterOrderID in Hfind.
    destruct (db_fault E (DeliveryGetByPorterOrderID (wp_OrderID payload)));
      [inversion Hfind|].
    rewrite Hd in Hfind. inversion Hfind. reflexivity. }
  subst d.
  assert (Ho' : order' = order).
  { unfold orderRepo_GetByID in Hget.
    destruct (db_fault E (OrderGetByID (pd_OrderID porterDelivery))); [inversion Hget|].
    rewrite Ho in Hget. inversion Hget. reflexivity. }
  subst order'.
  unfold Webhook.
  destruct (String.eqb_spec (wp_OrderID payload) "") as [e|_]; [contradiction|].
  destruct (String.eqb_spec (wp_Status payload) "") as [e|_]; [contradiction|].
  cbn [orb]. unfold bind at 1. rewrite Hfind.
  unfold bind at 1. rewrite Hget.
  unfold bind at 1. rewrite Hsync.
  destruct (String.eqb (wp_Status payload) "order_cancel");
    destruct (String.eqb (o_OrderStatus order) "cancelled"); cbn [negb andb];
    unfold bind, emit, ret; cbn [resp_code resp_body w_orders];
    eexists; eexists; (split; [reflexivity|]); cbn [resp_code resp_body w_orders];
    (split; [reflexivity|]);
    (split; [repeat (rewrite lookup_insert_ne by discriminate);
             rewrite lookup_insert_eq; reflexivity|]);
    (split; [repeat (rewrite lookup_insert_ne by discriminate);
             rewrite lookup_insert_eq; reflexivity|]);
    (split; [reflexivity|]);
    intros Hm Hdiff; rewrite Horders;
    (destruct (String.eqb_spec (newOrderStatus_of (wp_Status payload)) "") as [e|_];
       [contradiction|]);
    (destruct (String.eqb_spec (o_OrderStatus order) (newOrderStatus_of (wp_Status payload)))
       as [e|_]; [contradiction|]);
    cbn [negb andb]; rewrite lookup_insert_eq; reflexivity.
Qed.

Lemma Webhook_reports_status_witness :
  exists resp w2,
    Webhook (env no_fault) (Some cancel_payload) (world_with "dispatched" "pending")
    = (Done resp, w2) /\
    resp_body resp !! "order_status" = Some (JStr "dispatched") /\
    o_OrderStatus <$> (w_orders w2 !! 1%N) = Some "cancelled".
Proof.
  pose (w := world_with "dispatched" "pending").
  pose (r := HandleWebhook (env no_fault) cancel_payload w).
  destruct (Webhook_reports_status_before_sync (env no_fault) cancel_payload
              w (snd r) (delivery_of 11%N 1%N "CRN1" true) (order_of 1%N 9%N "dispatched"))
    as (resp & w2 & Hw & _ & Hbody & _ & _ & Hstored);
    [discriminate | discriminate | vm_compute; reflexivity | vm_compute; reflexivity
     | vm_compute; reflexivity |].
  exists resp, w2. split; [exact Hw|]. split; [exact Hbody|].
  apply Hstored; discriminate.
Defined.

(** X19. A webhook that the handler answers with 400 or 404 has changed
    nothing: no table and no message. *)
Theorem Webhook_rejection_leaves_world
  (E : Env) (body : option PorterWebhookPayload) (w w' : World) (resp : Response) :
  Webhook E body w = (Done resp, w') ->
  resp_code resp = 400 \/ resp_code resp = 404 ->
  w' = w.
Proof.
  unfold Webhook.
  destruct body as [payload|]; [|intros H; inversion H; reflexivity].
  destruct (String.eqb (wp_OrderID payload) "" || String.eqb (wp_Status payload) "");
    [intros H; inversion H; reflexivity|].
  unfold bind at 1. unfold porterDeliveryRepo_GetByPorterOrderID.
  destruct (db_fault E (DeliveryGetByPorterOrderID (wp_OrderID payload)));
    [intros H; inversion H; reflexivity|].
  destruct (first_by_pk _ (w_deliveries w)) as [d|]; [|intros H; inversion H; reflexivity].
  unfold bind at 1. unfold orderRepo_GetByID.
  destruct (db_fault E (OrderGetByID (pd_OrderID d))); [intros H; inversion H; reflexivity|].
  destruct (w_orders w !! pd_OrderID d) as [order|]; [|intros H; inversion H; reflexivity].
  unfold bind at 1.
  destruct (HandleWebhook E payload w) as [[[err|]|] w1].
  - intros H; inversion H; subst. cbn [resp_code]. intros [Hc|Hc]; discriminate Hc.
  - destruct (String.eqb (wp_Status payload) "order_cancel");
      destruct (negb (String.eqb (o_OrderStatus order) "cancelled"));
      unfold bind, emit, ret; intros H; inversion H; subst; cbn [resp_code];
      intros [Hc|Hc]; discriminate Hc.
  - intros H; inversion H.
Qed.

Lemma Webhook_rejection_witness :
  Webhook (env no_fault) (Some (mkPayload "order_cancel" "CRN9" (mkOrderDetails 0 None)))
    (world_with "dispatched" "pending")
  = (Done (mkResponse 404
             (<["error" := JStr "Porter delivery not found for order ID: CRN9"]>
             (<["porter_order_id" := JStr "CRN9"]>
             (<["status" := JStr "order_cancel"]> ∅)))),
     world_with "dispatched" "pending").
Proof.
  pose (r := Webhook (env no_fault)
               (Some (mkPayload "order_cancel" "CRN9" (mkOrderDetails 0 None)))
               (world_with "dispatched" "pending")).
  assert (Hr : Webhook (env no_fault)
                 (Some (mkPayload "order_cancel" "CRN9" (mkOrderDetails 0 None)))
                 (world_with "dispatched" "pending")
               = (Done (mkResponse 404
                          (<["error" := JStr "Porter delivery not found for order ID: CRN9"]>
                          (<["porter_order_id" := JStr "CRN9"]>
                          (<["status" := JStr "order_cancel"]> ∅)))), snd r))
    by (vm_compute; reflexivity).
  rewrite Hr.
  rewrite (Webhook_rejection_leaves_world _ _ _ _ _ Hr (or_intror eq_refl)).
  reflexivity.
Defined.

End WebhookEffects.

(** ** More on dispatch and reassignment *)

Module DispatchFacts.
Import Store Repo Porter Clock ReassignSpec SampleEnv.

(** What the Porter dispatch leaves in the tables. *)
Lemma PorterService_CreateDeliveryOrder_tables
  (E : Env) (order : Order) (restaurant : Restaurant) (w w' : World)
  (out : outcome (Order * result PorterCreateOrderResponse)) :
  PorterService_CreateDeliveryOrder E order restaurant w = (out, w') ->
  w_deliveries w' = w_deliveries w /\
  (w_orders w' = w_orders w \/
   exists logs, w_orders w' = <[o_ID order := set_o_OrderLogs logs order]> (w_orders w)) /\
  (forall order' porterOrder, out = Done (order', Ok porterOrder) ->
     exists logs, order' = set_o_OrderLogs logs order).
Proof.
  unfold PorterService_CreateDeliveryOrder, PorterService_GetQuote, PorterService_CreateOrder,
    orderRepo_Update, bind, emit, ret.
  cbn [o_ID set_o_OrderLogs].
  destruct (porter_GetQuote E (o_ID order));
    [|intros H; inversion H; subst; cbn; split; [reflexivity|]; split; [left; reflexivity|];
      intros ? ? Ho; inversion Ho].
  destruct (porter_CreateOrder E (o_ID order));
    [|intros H; inversion H; subst; cbn; split; [reflexivity|]; split; [left; reflexivity|];
      intros ? ? Ho; inversion Ho].
  destruct (db_fault E (OrderUpdate (o_ID order)));
    intros H; inversion H; subst; cbn; (split; [reflexivity|]); split;
    try (left; reflexivity); try (right; eexists; reflexivity);
    intros ? ? Ho; inversion Ho; eexists; reflexivity.
Qed.

Lemma CreateDeliveryOrder_tables
  (E : Env) (order : Order) (w w' : World) (out : outcome (Order * option error)) :
  CreateDeliveryOrder E order w = (out, w') ->
  w_deliveries w' = w_deliveries w /\
  (w_orders w' = w_orders w \/
   exists logs, w_orders w' = <[o_ID order := set_o_OrderLogs logs order]> (w_orders w)) /\
  (forall order', out = Done (order', None) -> is_Some (o_DeliveryPartnerID order')).
Proof.
  unfold CreateDeliveryOrder. unfold bind at 1. unfold restaurantRepo_GetByID.
  assert (Hstop : forall (o : Order) (e : error) (x : outcome (Order * option error)) (v : World),
            (Done (o, Some e), w) = (x, v) ->
            w_deliveries v = w_deliveries w /\
            (w_orders v = w_orders w \/
             exists logs, w_orders v = <[o_ID order := set_o_OrderLogs logs order]> (w_orders w)) /\
            (forall order', x = Done (order', None) -> is_Some (o_DeliveryPartnerID order'))).
  { intros o e x v H. inversion H; subst. split; [reflexivity|]. split; [left; reflexivity|].
    intros ? Ho. inversion Ho. }
  destruct (db_fault E (RestaurantGetByID (o_RestaurantID order))); [apply Hstop|].
  destruct (row_of (o_RestaurantID order) (w_restaurants w)) as [restaurant|];
    [|apply Hstop].
  unfold bind at 1. unfold restaurantDeliveryPartnerRepo_GetByRestaurantID.
  destruct (db_fault E (PartnerLinksGetByRestaurantID (o_RestaurantID order)));
    [apply Hstop|].
  destruct (List.filter _ (w_partner_links w)) as [|deliveryPartner rest]; [apply Hstop|].
  unfold bind at 1. unfold deliveryPartnerRepo_GetByID.
  destruct (db_fault E (PartnerCompanyGetByID (rdp_DeliveryPartnerCompanyID deliveryPartner)));
    [apply Hstop|].
  destruct (w_partner_companies w !! rdp_DeliveryPartnerCompanyID deliveryPartner)
    as [partnerCompany|]; [|apply Hstop].
  clear Hstop.
  destruct (String.eqb (dpc_Name partnerCompany) "Porter").
  - unfold bind at 1.
    destruct (PorterService_CreateDeliveryOrder E order restaurant w) as [o1 w1] eqn:Hp.
    apply PorterService_CreateDeliveryOrder_tables in Hp.
    destruct Hp as (Hdel & Hord & _).
    destruct o1 as [[order1 [porterOrder|err]]|].
    + unfold bind, emit, ret. intros H; inversion H; subst. cbn [w_deliveries w_orders].
      split; [exact Hdel|]. split; [exact Hord|].
      intros order' Ho. inversion Ho; subst. cbn. eexists. reflexivity.
    + intros H; inversion H; subst. split; [exact Hdel|]. split; [exact Hord|].
      intros ? Ho. inversion Ho.
    + intros H; inversion H; subst. split; [exact Hdel|]. split; [exact Hord|].
      intros ? Ho. inversion Ho.
  - unfold createLegacyDeliveryOrder, bind, emit, ret.
    intros H; inversion H; subst. cbn [w_deliveries w_orders].
    split; [reflexivity|]. split; [left; reflexivity|].
    intros order' Ho. inversion Ho; subst. cbn. eexists. reflexivity.
Qed.

(** X20. The dispatch never stores the delivery partner.  Called for an
    order whose struct agrees with the stored row on the delivery partner
    column, [CreateDeliveryOrder] leaves that column of every stored order
    as it was, although on success the struct it was given carries the
    partner; and it adds no delivery row. *)
Theorem CreateDeliveryOrder_never_stores_partner
  (E : Env) (order : Order) (w w' : World) (out : outcome (Order * option error)) :
  CreateDeliveryOrder E order w = (out, w') ->
  o_DeliveryPartnerID <$> (w_orders w !! o_ID order) = Some (o_DeliveryPartnerID order) ->
  (forall id,
     o_DeliveryPartnerID <$> (w_orders w' !! id)
     = o_DeliveryPartnerID <$> (w_orders w !! id)) /\
  w_deliveries w' = w_deliveries w /\
  (forall order', out = Done (order', None) -> is_Some (o_DeliveryPartnerID order')).
Proof.
  intros Hrun Hstored. apply CreateDeliveryOrder_tables in Hrun.
  destruct Hrun as (Hdel & Hord & Hret).
  split; [|split; [exact Hdel | exact Hret]].
  intros id. destruct Hord as [-> | [logs ->]]; [reflexivity|].
  destruct (decide (o_ID order = id)) as [<-|Hne].
  - rewrite lookup_insert_eq, Hstored. reflexivity.
  - rewrite lookup_insert_ne by exact Hne. reflexivity.
Qed.

Lemma CreateDeliveryOrder_partner_witness :
  exists order' w',
    CreateDeliveryOrder (env no_fault) (order_of 1%N 9%N "dispatched")
      (world_with "dispatched" "pending") = (Done (order', None), w') /\
    o_DeliveryPartnerID order' = Some 31%N /\
    o_DeliveryPartnerID <$> (w_orders w' !! 1%N) = Some None.
Proof.
  pose (r := CreateDeliveryOrder (env no_fault) (order_of 1%N 9%N "dispatched")
               (world_with "dispatched" "pending")).
  assert (Hr : exists order',
             CreateDeliveryOrder (env no_fault) (order_of 1%N 9%N "dispatched")
               (world_with "dispatched" "pending") = (Done (order', None), snd r) /\
             o_DeliveryPartnerID order' = Some 31%N)
    by (eexists; split; vm_compute; reflexivity).
  destruct Hr as (order' & Hr & Hp).
  destruct (CreateDeliveryOrder_never_stores_partner _ _ _ _ _ Hr) as (Hcol & _ & _);
    [vm_compute; reflexivity|].
  exists order', (snd r). split; [exact Hr|]. split; [exact Hp|].
  rewrite Hcol. vm_compute. reflexivity.
Defined.

(** X21. A reassignment to a partner other than [porter] does nothing
    but return an error: no row is deactivated, nothing is sent to the
    carrier, nothing is logged. *)
Theorem ReassignDeliveryPartner_other_partner
  (E : Env) (orderID : UUID) (preferredPartner : string) (w : World) :
  preferredPartner <> "porter" ->
  exists err, ReassignDeliveryPartner E orderID preferredPartner w = (Done (Some err), w).
Proof.
  intros Hne. unfold ReassignDeliveryPartner. unfold bind at 1. unfold orderRepo_GetByID.
  destruct (db_fault E (OrderGetByID orderID)); [eexists; reflexivity|].
  destruct (w_orders w !! orderID) as [order|]; [|eexists; reflexivity].
  destruct (String.eqb_spec preferredPartner "porter") as [e|_]; [contradiction|].
  eexists. reflexivity.
Qed.

Lemma ReassignDeliveryPartner_other_partner_witness :
  ReassignDeliveryPartner (env no_fault) 1%N "dunzo" (world_with "dispatched" "pending")
  = (Done (Some (ErrNew "reassignment for partner dunzo not yet implemented")),
     world_with "dispatched" "pending").
Proof.
  destruct (ReassignDeliveryPartner_other_partner (env no_fault) 1%N "dunzo"
              (world_with "dispatched" "pending")) as [err Hrun]; [discriminate|].
  rewrite Hrun. vm_compute in Hrun. inversion Hrun. reflexivity.
Defined.

(** X22. After a reassignment to [porter] that has got past the
    deactivation, whether the dispatch that follows succeeds or fails, the
    delivery rows are exactly the old rows with those of the order
    deactivated: no row is added for the new carrier order, no row of the
    order is active, and the lookup of the order's active delivery finds
    nothing. *)
Theorem reassignment_leaves_no_active_delivery
  (E : Env) (orderID : UUID) (order : Order) (w w' : World)
  (out : outcome (option error)) :
  orderRepo_GetByID E orderID w = (Done (Ok order), w) ->
  db_fault E (DeliveryDeactivateOld orderID) = false ->
  ReassignDeliveryPartner E orderID "porter" w = (out, w') ->
  w_deliveries w' = deactivate_rows orderID (t_unix (time_Now E)) (w_deliveries w) /\
  (forall d, In d (w_deliveries w') -> pd_OrderID d = orderID -> pd_IsActive d = false) /\
  exists err, porterDeliveryRepo_GetActiveByOrderID E orderID w' = (Done (Fail err), w').
Proof.
  intros Hread Hok. unfold ReassignDeliveryPartner. unfold bind at 1. rewrite Hread.
  cbn [String.eqb Ascii.eqb Bool.eqb]. unfold bind at 1.
  destruct (porterDeliveryRepo_DeactivateOldDeliveries E orderID w) as [o1 w1] eqn:Hde.
  assert (Hw1 : o1 = Done None /\
                w_deliveries w1
                = deactivate_rows orderID (t_unix (time_Now E)) (w_deliveries w)).
  { unfold porterDeliveryRepo_DeactivateOldDeliveries in Hde. rewrite Hok in Hde.
    inversion Hde; subst. split; reflexivity. }
  destruct Hw1 as [-> Hrows].
  destruct (ReassignFacts.GetActive_after_Deactivate E orderID w w1 Hde) as [_ [err Hga]].
  unfold bind at 1. unfold bind at 1. rewrite Hga. unfold ret at 1. unfold bind at 1.
  destruct (CreateDeliveryOrder E order w1) as [o2 w2] eqn:Hcd.
  apply CreateDeliveryOrder_tables in Hcd. destruct Hcd as (Hdel & _ & _).
  assert (Hfinal : w_deliveries w' = w_deliveries w1 -> 
            w_deliveries w' = deactivate_rows orderID (t_unix (time_Now E)) (w_deliveries w) /\
            (forall d, In d (w_deliveries w') -> pd_OrderID d = orderID ->
                       pd_IsActive d = false) /\
            exists err, porterDeliveryRepo_GetActiveByOrderID E orderID w'
                        = (Done (Fail err), w')).
  { intros Heq. split; [rewrite Heq; exact Hrows|].
    assert (Hnone : forall d, In d (w_deliveries w') ->
                      (pd_OrderID d =? orderID)%N && pd_IsActive d = false).
    { intros d Hin. rewrite Heq, Hrows in Hin.
      eapply ReassignFacts.deactivate_rows_none_active. exact Hin. }
    split.
    - intros d Hin Hid. specialize (Hnone d Hin). rewrite Hid, N.eqb_refl in Hnone.
      exact Hnone.
    - unfold porterDeliveryRepo_GetActiveByOrderID.
      destruct (db_fault E (DeliveryGetActiveByOrderID orderID)); [eexists; reflexivity|].
      rewrite ReassignFacts.first_by_pk_none by exact Hnone. eexists. reflexivity. }
  destruct o2 as [d|]; intros H; inversion H; subst; apply Hfinal; exact Hdel.
Qed.

Lemma reassignment_no_active_witness :
  exists w',
    ReassignDeliveryPartner (env no_fault) 1%N "porter" (world_with "dispatched" "pending")
    = (Done None, w') /\
    w_deliveries w'
    = [mkPorterDelivery 11%N 1%N "CRN1" "open" false "" "" "" None None None 1700000000] /\
    porterDeliveryRepo_GetActiveByOrderID (env no_fault) 1%N w'
    = (Done (Fail ErrRecordNotFound), w').
Proof.
  pose (r := ReassignDeliveryPartner (env no_fault) 1%N "porter"
               (world_with "dispatched" "pending")).
  assert (Hr : ReassignDeliveryPartner (env no_fault) 1%N "porter"
                 (world_with "dispatched" "pending") = (Done None, snd r))
    by (vm_compute; reflexivity).
  destruct (reassignment_leaves_no_active_delivery (env no_fault) 1%N
              (order_of 1%N 9%N "dispatched") (world_with "dispatched" "pending")
              (snd r) (Done None)) as (Hrows & _ & err & Hga);
    [vm_compute; reflexivity | vm_compute; reflexivity | exact Hr |].
  exists (snd r). split; [exact Hr|]. split; [rewrite Hrows; vm_compute; reflexivity|].
  rewrite Hga. vm_compute in Hga. inversion Hga. reflexivity.
Defined.

End DispatchFacts.

(** ** The customer's phone number *)

Module PhoneFacts.
Import PorterRequest StringFacts.

Lemma slice_from_append (p s : string) :
  slice_from (String.length p) (p ++ s) = s.
Proof.
  unfold slice_from. induction p as [|c p IH]; simpl.
  - rewrite Nat.sub_0_r. apply substring_all.
  - exact IH.
Qed.

(** X23. [extractPhoneNumber]: a contact of at most ten characters is
    returned as it is, whatever it starts with; a longer one that starts
    with +91 loses these three characters, and a longer one that starts
    with 91 loses these two. *)
Theorem extractPhoneNumber_cases (contact number : string) :
  ((String.length contact <= 10)%nat -> extractPhoneNumber contact = contact) /\
  ((8 <= String.length number)%nat -> extractPhoneNumber ("+91" ++ number) = number) /\
  ((9 <= String.length number)%nat -> extractPhoneNumber ("91" ++ number) = number).
Proof.
  split; [|split].
  - intros Hlen. unfold extractPhoneNumber.
    assert (Hshort : (10 <? String.length contact)%nat = false)
      by (apply Nat.ltb_ge; exact Hlen).
    rewrite Hshort. reflexivity.
  - intros Hlen. unfold extractPhoneNumber.
    assert (Hlong : (10 <? String.length ("+91" ++ number))%nat = true)
      by (apply Nat.ltb_lt; rewrite length_append; simpl; lia).
    rewrite Hlong.
    pose proof (substring_append_prefix "+91" number) as Hp.
    cbn [String.length] in Hp. rewrite Hp. cbn [String.eqb Ascii.eqb Bool.eqb andb].
    apply (slice_from_append "+91" number).
  - intros Hlen. unfold extractPhoneNumber.
    assert (Hlong : (10 <? String.length ("91" ++ number))%nat = true)
      by (apply Nat.ltb_lt; rewrite length_append; simpl; lia).
    rewrite Hlong.
    assert (Hplus : String.eqb (substring 0 3 ("91" ++ number)) "+91" = false).
    { destruct number as [|c number]; reflexivity. }
    rewrite Hplus. cbn [andb].
    pose proof (substring_append_prefix "91" number) as Hp.
    cbn [String.length] in Hp. rewrite Hp. cbn [String.eqb Ascii.eqb Bool.eqb andb].
    apply (slice_from_append "91" number).
Qed.

Lemma extractPhoneNumber_witness :
  extractPhoneNumber "9123456789" = "9123456789" /\
  extractPhoneNumber "+919876543210" = "9876543210" /\
  extractPhoneNumber "919876543210" = "9876543210".
Proof.
  destruct (extractPhoneNumber_cases "9123456789" "9876543210") as (H1 & H2 & H3).
  split; [apply H1; simpl; lia|]. split; [apply H2; simpl; lia | apply H3; simpl; lia].
Defined.

End PhoneFacts.

(** ** Availability of a listed product *)

Module ListingFacts.
Import Clock Availability GoInt GoIntFacts Listing Samples.

Lemma range_active_find (timeGroups : list TimeRangeProductsGroup) :
  range_active timeGroups = g_StartTime <$> List.find g_IsActive timeGroups.
Proof.
  induction timeGroups as [|g rest IH]; simpl; [reflexivity|].
  destruct (g_IsActive g); [reflexivity | exact IH].
Qed.

(** X24. The availability fields of a listed product.  An available
    product carries no reason and no hint.  An unavailable one carries
    one of the three reasons and never "Unknown reason"; its hint, when
    present, is the start time of the first active group of the product in
    list order, whatever the evaluation time is, and it is absent exactly
    when the product has no active group. *)
Theorem availability_info_cases
  (product : Product) (timeGroups : list TimeRangeProductsGroup)
  (targetTime : Time) (restaurantIsOpen : bool) :
  let info := availability_info product timeGroups targetTime restaurantIsOpen in
  ai_IsAvailable info = isProductAvailable product timeGroups targetTime restaurantIsOpen /\
  (ai_IsAvailable info = true -> ai_Reason info = "" /\ ai_NextAvailable info = None) /\
  (ai_IsAvailable info = false ->
   (ai_Reason info = "Restaurant is closed"
    \/ ai_Reason info = "Product is currently unavailable"
    \/ ai_Reason info = "Product not available at this time") /\
   ai_NextAvailable info = g_StartTime <$> List.find g_IsActive timeGroups /\
   (ai_NextAvailable info = None <->
    forall group, In group timeGroups -> g_IsActive group = false)).
Proof.
  unfold availability_info.
  destruct (isProductAvailable product timeGroups targetTime restaurantIsOpen) eqn:Hav;
    cbn [negb ai_IsAvailable ai_Reason ai_NextAvailable].
  - split; [reflexivity|]. split; [intros _; split; reflexivity | discriminate].
  - split; [reflexivity|]. split; [discriminate|]. intros _.
    split; [|split].
    + unfold isProductAvailable in Hav. unfold getUnavailabilityReason.
      destruct (negb restaurantIsOpen); [left; reflexivity|].
      destruct (negb (p_IsAvailable product)); [right; left; reflexivity|].
      destruct timeGroups as [|g rest]; [discriminate Hav|].
      right. right. reflexivity.
    + unfold findNextAvailableTime.
      destruct timeGroups as [|g rest]; [reflexivity|].
      cbn [length Nat.eqb]. apply range_active_find.
    + unfold findNextAvailableTime.
      assert (Hloop : range_active timeGroups = None <->
                      forall group, In group timeGroups -> g_IsActive group = false).
      { clear. induction timeGroups as [|g rest IH]; simpl.
        - split; [intros _ ? [] | reflexivity].
        - destruct (g_IsActive g) eqn:Hg.
          + split; [discriminate|]. intros H. specialize (H g (or_introl eq_refl)).
            congruence.
          + rewrite IH. split.
            * intros H group [<-|Hin]; [exact Hg | apply H; exact Hin].
            * intros H group Hin. apply H. right. exact Hin. }
      destruct timeGroups as [|g rest]; [split; [intros _ ? [] | reflexivity]|].
      cbn [length Nat.eqb]. exact Hloop.
Qed.

Lemma availability_info_witness :
  let groups := [mkGroup "Dinner" "18:00" "22:00" true; lunch] in
  ai_IsAvailable (availability_info (mkProduct 7 true) groups (monday_at 9 0) true) = false /\
  ai_Reason (availability_info (mkProduct 7 true) groups (monday_at 9 0) true)
  = "Product not available at this time" /\
  ai_NextAvailable (availability_info (mkProduct 7 true) groups (monday_at 9 0) true)
  = Some "18:00".
Proof.
  intros groups.
  destruct (availability_info_cases (mkProduct 7 true) groups (monday_at 9 0) true)
    as (Hav & _ & Hun).
  assert (Hfalse : ai_IsAvailable
                     (availability_info (mkProduct 7 true) groups (monday_at 9 0) true)
                   = false) by (rewrite Hav; vm_compute; reflexivity).
  destruct (Hun Hfalse) as (_ & Hnext & _).
  split; [exact Hfalse|]. split; [vm_compute; reflexivity|].
  rewrite Hnext. reflexivity.
Defined.

Lemma paginate_page {A : Type} (Page Limit : Z) (productInfos : list A) :
  - 2 ^ 31 < Page < 2 ^ 31 -> 0 <= Limit < 2 ^ 31 ->
  (1 <= Page ->
   paginate Page Limit productInfos
   = Some (take (Z.to_nat Limit) (drop (Z.to_nat ((Page - 1) * Limit)) productInfos))) /\
  (Page < 1 -> 0 < Limit -> paginate Page Limit productInfos = None).
Proof.
  intros Hpage Hlimit.
  assert (H31 : 2 ^ 31 = 2147483648) by reflexivity.
  assert (H63 : 2 ^ 63 = 9223372036854775808) by reflexivity.
  rewrite H31 in Hpage, Hlimit.
  assert (Hsub : sub64 Page 1 = Page - 1) by (apply wrap64_small; lia).
  assert (Hmul : mul64 (sub64 Page 1) Limit = (Page - 1) * Limit).
  { rewrite Hsub. apply wrap64_small. rewrite H63. nia. }
  assert (Hadd : add64 ((Page - 1) * Limit) Limit = Page * Limit).
  { unfold add64. replace ((Page - 1) * Limit + Limit) with (Page * Limit) by ring.
    apply wrap64_small. rewrite H63. nia. }
  unfold paginate. rewrite Hmul, Hadd.
  set (len := Z.of_nat (length productInfos)).
  assert (Hlen : 0 <= len) by (unfold len; lia).
  split.
  - intros Hp.
    assert (Hs0 : 0 <= (Page - 1) * Limit) by nia.
    assert (Hse : (Page - 1) * Limit <= Page * Limit) by nia.
    destruct (Z.ltb_spec len (Page * Limit)) as [He|He];
      destruct (Z.ltb_spec len ((Page - 1) * Limit)) as [Hs|Hs].
    + (* the page lies beyond the end *)
      replace (0 <=? len) with true by (symmetry; apply Z.leb_le; lia).
      rewrite Z.leb_refl. cbn [andb]. f_equal.
      rewrite Z.sub_diag. cbn [Z.to_nat]. rewrite take_0.
      rewrite (drop_ge productInfos (Z.to_nat ((Page - 1) * Limit)))
        by (unfold len in Hs; lia).
      rewrite take_nil. reflexivity.
    + (* the page holds the last items *)
      replace (0 <=? (Page - 1) * Limit) with true by (symmetry; apply Z.leb_le; lia).
      replace ((Page - 1) * Limit <=? len) with true by (symmetry; apply Z.leb_le; lia).
      cbn [andb]. f_equal.
      rewrite !take_ge; [reflexivity | |]; rewrite length_drop; unfold len in *; lia.
    + lia.
    + replace (0 <=? (Page - 1) * Limit) with true by (symmetry; apply Z.leb_le; lia).
      replace ((Page - 1) * Limit <=? Page * Limit) with true
        by (symmetry; apply Z.leb_le; lia).
      cbn [andb]. f_equal. f_equal. f_equal. ring.
  - intros Hp Hpos.
    assert (Hneg : (Page - 1) * Limit < 0) by nia.
    replace (len <? (Page - 1) * Limit) with false by (symmetry; apply Z.ltb_ge; lia).
    replace (0 <=? (Page - 1) * Limit) with false by (symmetry; apply Z.leb_gt; lia).
    reflexivity.
Qed.

(** X25. The pagination of a listing, for a page number and a
    non-negative page size below 2^31.  From page 1 on the slice does not
    panic and the page is the [Limit] items after the first
    (Page - 1) * Limit; the pages 1 to n laid end to end are the first
    n * Limit items of the list.  For a page number below 1 and a positive
    page size the slice expression panics. *)
Theorem paginate_pages {A : Type} (Page Limit : Z) (productInfos : list A) :
  - 2 ^ 31 < Page < 2 ^ 31 -> 0 <= Limit < 2 ^ 31 ->
  (1 <= Page ->
   paginate Page Limit productInfos
   = Some (take (Z.to_nat Limit) (drop (Z.to_nat ((Page - 1) * Limit)) productInfos))) /\
  (Page < 1 -> 0 < Limit -> paginate Page Limit productInfos = None) /\
  (forall n : nat,
     Z.of_nat n < 2 ^ 31 ->
     first_pages n Limit productInfos
     = Some (take (n * Z.to_nat Limit) productInfos)).
Proof.
  intros Hpage Hlimit.
  destruct (paginate_page Page Limit productInfos Hpage Hlimit) as [H1 H0].
  split; [exact H1|]. split; [exact H0|].
  induction n as [|n IH]; intros Hn; [reflexivity|].
  cbn [first_pages]. rewrite IH by lia.
  destruct (paginate_page (Z.of_nat (S n)) Limit productInfos) as [Hp _];
    [lia | exact Hlimit |].
  rewrite Hp by lia. f_equal.
  replace (Z.to_nat ((Z.of_nat (S n) - 1) * Limit)) with (n * Z.to_nat Limit)%nat by nia.
  rewrite take_take_drop. f_equal. lia.
Qed.

Lemma paginate_pages_witness :
  paginate 2 2 ["a"; "b"; "c"] = Some ["c"] /\
  paginate 0 2 ["a"; "b"; "c"] = None /\
  first_pages 2 2 ["a"; "b"; "c"] = Some ["a"; "b"; "c"].
Proof.
  destruct (paginate_pages 2 2 ["a"; "b"; "c"]) as (H2 & _ & Hall); try lia.
  destruct (paginate_pages 0 2 ["a"; "b"; "c"]) as (_ & H0 & _); try lia.
  split; [rewrite H2 by lia; reflexivity|].
  split; [apply H0; lia|]. rewrite (Hall 2%nat) by (simpl; lia). reflexivity.
Defined.

End ListingFacts.

(** ** Weekday keys and clock order *)

Module ScheduleFacts.
Import Clock Hours ClockSpec Samples.

Lemma title_key_not_lowercase (checkTime : Time) :
  GoString.ToLower (title_key checkTime) <> title_key checkTime.
Proof. unfold title_key. destruct (t_weekday checkTime); discriminate. Qed.

Lemma lower_key_lowercase (checkTime : Time) :
  GoString.ToLower (lower_key checkTime) = lower_key checkTime.
Proof. unfold lower_key. destruct (t_weekday checkTime); reflexivity. Qed.

(** X26. The evaluators do not read the same schedule.  For an
    auto-managed restaurant with a schedule, at every instant: if all keys
    of the schedule are in lower case, [ShopTimeService.isRestaurantOpenAtTime]
    and [CronService.shouldRestaurantBeOpen], which look the day up under
    its capitalised name, report closed; and if no key of the schedule is
    in lower case, the scheduler's evaluator, which looks the day up under
    its lower-case name, reports closed. *)
Theorem evaluators_read_different_keys
  (restaurant : Restaurant) (openingHours : gmap string jvalue) (checkTime : Time) :
  r_AutoOpenClose restaurant = true ->
  r_OpeningHours restaurant = Some openingHours ->
  ((forall key, is_Some (openingHours !! key) -> GoString.ToLower key = key) ->
   isRestaurantOpenAtTime restaurant checkTime = false /\
   shouldRestaurantBeOpen restaurant checkTime = false) /\
  ((forall key, is_Some (openingHours !! key) -> GoString.ToLower key <> key) ->
   shouldRestaurantBeOpenAtTime restaurant checkTime = false).
Proof.
  intros Hauto Hoh. split.
  - intros Hlower.
    assert (Hnone : openingHours !! title_key checkTime = None).
    { destruct (openingHours !! title_key checkTime) as [v|] eqn:Hv; [|reflexivity].
      exfalso. apply (title_key_not_lowercase checkTime). apply Hlower.
      rewrite Hv. eexists. reflexivity. }
    unfold isRestaurantOpenAtTime, shouldRestaurantBeOpen.
    rewrite Hauto, Hoh. cbn [negb]. fold (title_key checkTime). rewrite Hnone.
    split; reflexivity.
  - intros Hupper.
    assert (Hnone : openingHours !! lower_key checkTime = None).
    { destruct (openingHours !! lower_key checkTime) as [v|] eqn:Hv; [|reflexivity].
      exfalso. apply (Hupper (lower_key checkTime)); [rewrite Hv; eexists; reflexivity|].
      apply lower_key_lowercase. }
    unfold shouldRestaurantBeOpenAtTime.
    rewrite Hauto, Hoh. cbn [negb]. fold (lower_key checkTime). rewrite Hnone.
    reflexivity.
Qed.

Lemma evaluators_keys_witness :
  isRestaurantOpenAtTime
    (mkRestaurant 21%N "A" "" "active" false true SampleTick.all_day None) (monday_at 12 0)
  = false /\
  shouldRestaurantBeOpenAtTime
    (mkRestaurant 21%N "A" "" "active" false true SampleTick.all_day None) (monday_at 12 0)
  = true.
Proof.
  destruct (evaluators_read_different_keys
              (mkRestaurant 21%N "A" "" "active" false true SampleTick.all_day None)
              (<["monday" := day_entry true "00:00" "23:59"]> ∅) (monday_at 12 0))
    as [Hlower _]; [reflexivity | reflexivity |].
  split; [|vm_compute; reflexivity].
  apply Hlower. intros key [v Hv].
  destruct (decide (key = "monday")) as [->|Hne]; [reflexivity|].
  rewrite lookup_insert_ne in Hv by (intros Heq; apply Hne; symmetry; exact Heq).
  rewrite lookup_empty in Hv. discriminate Hv.
Defined.

Lemma compare_append_same_length (a b s t : string) :
  String.length a = String.length b ->
  String.compare (a ++ s) (b ++ t)
  = match String.compare a b with
    | Eq => String.compare s t
    | r => r
    end.
Proof.
  revert b. induction a as [|c a IH]; intros [|d b]; simpl; try discriminate.
  - reflexivity.
  - intros Hlen. destruct (Ascii.compare c d); try reflexivity.
    apply IH. lia.
Qed.

Lemma pad2_compare (a b : nat) :
  (a < 60)%nat -> (b < 60)%nat ->
  String.compare (pad2 a) (pad2 b) = Nat.compare a b.
Proof.
  intros Ha Hb.
  assert (Hall : forallb (fun a => forallb (fun b =>
                    comparison_eqb (String.compare (pad2 a) (pad2 b)) (Nat.compare a b))
                    (seq 0 60)) (seq 0 60) = true) by (vm_compute; reflexivity).
  rewrite forallb_forall in Hall.
  specialize (Hall a ltac:(apply in_seq; lia)).
  rewrite forallb_forall in Hall.
  specialize (Hall b ltac:(apply in_seq; lia)).
  destruct (String.compare (pad2 a) (pad2 b)), (Nat.compare a b);
    try reflexivity; discriminate Hall.
Qed.

(** The order of two formatted times is the order of the times. *)
Lemma Format1504_compare (t1 t2 : Time) :
  wellformed t1 -> wellformed t2 ->
  String.compare (Format1504 t1) (Format1504 t2) = Nat.compare (minutes t1) (minutes t2).
Proof.
  intros [Hh1 Hm1] [Hh2 Hm2]. unfold Format1504, minutes.
  rewrite compare_append_same_length by reflexivity.
  rewrite pad2_compare by lia.
  change (String.compare (":" ++ pad2 (t_minute t1)) (":" ++ pad2 (t_minute t2)))
    with (String.compare (pad2 (t_minute t1)) (pad2 (t_minute t2))).
  rewrite pad2_compare by lia.
  destruct (Nat.compare_spec (t_hour t1) (t_hour t2)) as [Hh|Hh|Hh].
  - subst. destruct (Nat.compare_spec (t_minute t1) (t_minute t2)) as [Hm|Hm|Hm];
      symmetry; [apply Nat.compare_eq_iff | apply Nat.compare_lt_iff
                 | apply Nat.compare_gt_iff]; lia.
  - symmetry. apply Nat.compare_lt_iff. lia.
  - symmetry. apply Nat.compare_gt_iff. lia.
Qed.

Lemma GoString_order (t1 t2 : Time) :
  wellformed t1 -> wellformed t2 ->
  GoString.lt (Format1504 t1) (Format1504 t2) = (minutes t1 <? minutes t2)%nat /\
  GoString.le (Format1504 t1) (Format1504 t2) = (minutes t1 <=? minutes t2)%nat /\
  GoString.ge (Format1504 t1) (Format1504 t2) = (minutes t2 <=? minutes t1)%nat.
Proof.
  intros H1 H2. unfold GoString.lt, GoString.le, GoString.ge.
  rewrite (Format1504_compare t1 t2 H1 H2).
  destruct (Nat.compare_spec (minutes t1) (minutes t2)) as [H|H|H];
    repeat split; symmetry;
    try (apply Nat.ltb_lt; lia); try (apply Nat.ltb_ge; lia);
    try (apply Nat.leb_le; lia); try (apply Nat.leb_gt; lia).
Qed.

(** X27. On times of day written as the clock writes them, the
    comparison of strings is the comparison of times: the window test of
    the evaluators and of the product groups, applied to the formatted
    instant and the formatted bounds, is the window rule on minutes since
    midnight; so is the scheduler's verdict on an auto-managed restaurant
    whose entry for the day is open between two such bounds. *)
Theorem window_rule_in_minutes (checkTime openTime closeTime : Time) :
  wellformed checkTime -> wellformed openTime -> wellformed closeTime ->
  in_window (Format1504 checkTime) (Format1504 openTime) (Format1504 closeTime)
  = in_window_minutes (minutes checkTime) (minutes openTime) (minutes closeTime) /\
  Availability.isTimeInRange (Format1504 checkTime)
    (Format1504 openTime) (Format1504 closeTime)
  = in_window_minutes (minutes checkTime) (minutes openTime) (minutes closeTime) /\
  (forall (restaurant : Restaurant) (openingHours : gmap string jvalue),
     r_AutoOpenClose restaurant = true ->
     r_OpeningHours restaurant = Some openingHours ->
     openingHours !! lower_key checkTime
     = Some (day_entry true (Format1504 openTime) (Format1504 closeTime)) ->
     shouldRestaurantBeOpenAtTime restaurant checkTime
     = in_window_minutes (minutes checkTime) (minutes openTime) (minutes closeTime)).
Proof.
  intros Ht Ho Hc.
  destruct (GoString_order closeTime openTime Hc Ho) as (Hlt & _ & _).
  destruct (GoString_order checkTime openTime Ht Ho) as (_ & _ & Hge).
  destruct (GoString_order checkTime closeTime Ht Hc) as (_ & Hle & _).
  assert (Hwin : in_window (Format1504 checkTime) (Format1504 openTime)
                   (Format1504 closeTime)
                 = in_window_minutes (minutes checkTime) (minutes openTime)
                     (minutes closeTime)).
  { unfold in_window, in_window_minutes. rewrite Hlt, Hge, Hle. reflexivity. }
  split; [exact Hwin|]. split; [exact Hwin|].
  intros restaurant openingHours Hauto Hoh Hday.
  assert (Hfields : forall (b : bool) (o c : string),
            Json.as_bool (day_fields b o c !! "is_open") = b /\
            Json.as_string (day_fields b o c !! "open_time") = o /\
            Json.as_string (day_fields b o c !! "close_time") = c).
  { intros b o c. unfold day_fields.
    rewrite lookup_insert_eq.
    rewrite lookup_insert_ne by discriminate. rewrite lookup_insert_eq.
    rewrite lookup_insert_ne by discriminate. rewrite lookup_insert_ne by discriminate.
    rewrite lookup_insert_eq. repeat split. }
  destruct (Hfields true (Format1504 openTime) (Format1504 closeTime)) as (Hb & Hopen & Hclose).
  rewrite (HoursFacts.shouldRestaurantBeOpenAtTime_window restaurant checkTime openingHours
             (day_fields true (Format1504 openTime) (Format1504 closeTime)) Hauto Hoh Hday Hb).
  - rewrite Hopen, Hclose. exact Hwin.
  - rewrite Hopen. unfold Format1504, pad2. discriminate.
  - rewrite Hclose. unfold Format1504, pad2. discriminate.
Qed.

Lemma window_rule_witness :
  in_window "23:00" "22:00" "04:00" = true /\
  shouldRestaurantBeOpenAtTime (overnight_restaurant "monday") (monday_at 23 0) = true.
Proof.
  destruct (window_rule_in_minutes (monday_at 23 0) (monday_at 22 0) (monday_at 4 0))
    as (Hwin & _ & Heval); try (split; simpl; lia).
  split; [exact Hwin|].
  apply (Heval (overnight_restaurant "monday")
           (<["monday" := day_entry true "22:00" "04:00"]> ∅));
    vm_compute; reflexivity.
Defined.

End ScheduleFacts.

(** ** Shop timing and its cache *)

Module ShopTimeFacts.
Import Store Repo Clock Hours Scheduler SchedulerSpec ShopTime ShopTimeSpec
       SampleEnv SampleClock SampleTick StringFacts TableFacts.

(** The key the updates delete is not the key the timing is cached
    under. *)
Lemma cache_keys_differ (restaurantID : string) :
  String.append "restaurant" (String.append ":" restaurantID)
  <> String.append "restaurant:" (String.append restaurantID ":timing").
Proof.
  intros H. apply (f_equal String.length) in H.
  rewrite !length_append in H. cbn [String.length] in H. lia.
Qed.

(** X28. The cached shop timing outlives an update.  After a read of the
    shop timing that filled the cache, a successful [UpdateShopTiming] of
    the same restaurant deletes another key than the one the timing is
    cached under; so a later read, made before the five minutes of the
    entry are over, still answers with the restaurant as it was before
    the update, while the table holds the updated row. *)
Theorem shop_timing_cache_outlives_update
  (E1 E2 E3 : Env) (cache_fault : string -> bool) (restaurantID : string)
  (req : UpdateShopTimingRequest) (cache cache1 cache2 : gmap string CacheEntry) (w w1 w2 : World)
  (before after : Restaurant) :
  cache_fault (String.append "restaurant:" (String.append restaurantID ":timing")) = false ->
  cache !! String.append "restaurant:" (String.append restaurantID ":timing") = None ->
  GetShopTiming E1 cache_fault restaurantID cache w = (Done (Ok before, cache1), w1) ->
  UpdateShopTiming E2 cache_fault restaurantID req cache1 w1
  = (Done (Ok after, cache2), w2) ->
  uuid_Parse E3 restaurantID = uuid_Parse E1 restaurantID ->
  t_unix (time_Now E3) < t_unix (time_Now E1) + 300 ->
  GetShopTiming E3 cache_fault restaurantID cache2 w2 = (Done (Ok before, cache2), w2) /\
  row_of (r_ID after) (w_restaurants w2) = Some after /\
  r_OpeningHours after = Some (range_days (ust_OpeningHours req)) /\
  r_AutoOpenClose after = ust_AutoOpenClose req.
Proof.
  intros Hup Hmiss Hread Hupdate Hparse Hfresh.
  set (key := String.append "restaurant:" (String.append restaurantID ":timing")) in *.
  (* the first read fills the cache *)
  assert (Hc1 : cache1 = <[key := mkCacheEntry before (t_unix (time_Now E1) + 300)]> cache
                /\ w1 = w /\ is_Some (uuid_Parse E1 restaurantID)).
  { unfold GetShopTiming in Hread.
    destruct (uuid_Parse E1 restaurantID) as [u|]; [|inversion Hread].
    fold key in Hread. unfold cache_Get in Hread. rewrite Hup, Hmiss in Hread.
    unfold bind, restaurantRepo_GetByID, ret in Hread.
    destruct (db_fault E1 (RestaurantGetByID u)); [inversion Hread|].
    destruct (row_of u (w_restaurants w)) as [r|]; inversion Hread; subst.
    unfold cache_Set. rewrite Hup. repeat split. eexists. reflexivity. }
  destruct Hc1 as (-> & -> & [u Hu]).
  (* the update writes the row and deletes another key *)
  assert (Hc2 : cache2 !! key = Some (mkCacheEntry before (t_unix (time_Now E1) + 300)) /\
                row_of (r_ID after) (w_restaurants w2) = Some after /\
                r_OpeningHours after = Some (range_days (ust_OpeningHours req)) /\
                r_AutoOpenClose after = ust_AutoOpenClose req).
  { unfold UpdateShopTiming in Hupdate.
    destruct (uuid_Parse E2 restaurantID) as [u2|]; [|inversion Hupdate].
    unfold bind at 1 in Hupdate. unfold restaurantRepo_GetByID in Hupdate.
    destruct (db_fault E2 (RestaurantGetByID u2)); [inversion Hupdate|].
    destruct (row_of u2 (w_restaurants w)) as [r|]; [|inversion Hupdate].
    unfold bind, restaurantRepo_Update, ret in Hupdate.
    cbn [r_ID set_r_OpeningHours set_r_AutoOpenClose] in Hupdate.
    destruct (db_fault E2 (RestaurantUpdate (r_ID r))); inversion Hupdate; subst.
    cbn [w_restaurants set_w_restaurants r_ID r_OpeningHours r_AutoOpenClose].
    split.
    - unfold cache_DeleteWithPrefix.
      destruct (cache_fault (String.append "restaurant" (String.append ":" restaurantID))).
      + apply lookup_insert_eq.
      + rewrite lookup_delete_ne by apply cache_keys_differ. apply lookup_insert_eq.
    - split; [|split; reflexivity].
      rewrite SchedulerFacts.row_of_save. cbn [r_ID]. rewrite N.eqb_refl. reflexivity. }
  destruct Hc2 as (Hentry & Hrow & Hhours & Hauto).
  split; [|split; [exact Hrow | split; [exact Hhours | exact Hauto]]].
  unfold GetShopTiming. rewrite Hparse, Hu. fold key.
  unfold cache_Get. rewrite Hup, Hentry. cbn [ce_expires ce_value].
  assert (Hlt : (t_unix (time_Now E3) <? t_unix (time_Now E1) + 300) = true)
    by (apply Z.ltb_lt; exact Hfresh).
  rewrite Hlt. reflexivity.
Qed.

Lemma shop_timing_cache_witness :
  let req := mkUpdateShopTimingRequest
               (<["monday" := mkDayTiming true "09:00" "17:00"]> ∅) true in
  exists cache2 w2 after,
    GetShopTiming (env_at 1700000299) cache_up "9" cache2 w2
    = (Done (Ok restaurant_9, cache2), w2) /\
    row_of 9%N (w_restaurants w2) = Some after /\
    r_AutoOpenClose after = true /\
    r_AutoOpenClose restaurant_9 = false.
Proof.
  intros req.
  pose (w := world_with "pending" "pending").
  pose (r1 := GetShopTiming (env_at 1700000000) cache_up "9" ∅ w).
  pose (cache1 := snd (match fst r1 with Done x => x | Panic => (Fail ErrRecordNotFound, ∅) end)).
  pose (r2 := UpdateShopTiming (env_at 1700000100) cache_up "9" req cache1 w).
  pose (out2 := match fst r2 with Done x => x | Panic => (Fail ErrRecordNotFound, ∅) end).
  pose (after := match fst out2 with Ok r => r | Fail _ => restaurant_9 end).
  destruct (shop_timing_cache_outlives_update
              (env_at 1700000000) (env_at 1700000100) (env_at 1700000299) cache_up "9" req
              ∅ cache1 (snd out2) w w (snd r2) restaurant_9 after)
    as (Hread & Hrow & _ & Hauto);
    [reflexivity | reflexivity | vm_compute; reflexivity | vm_compute; reflexivity
     | reflexivity | simpl; lia |].
  exists (snd out2), (snd r2), after.
  split; [exact Hread|]. split; [exact Hrow|]. split; [exact Hauto | reflexivity].
Defined.

Lemma day_fields_read (b : bool) (o c : string) :
  Json.as_bool (day_fields b o c !! "is_open") = b /\
  Json.as_string (day_fields b o c !! "open_time") = o /\
  Json.as_string (day_fields b o c !! "close_time") = c.
Proof.
  unfold day_fields.
  rewrite lookup_insert_eq.
  rewrite lookup_insert_ne by discriminate. rewrite lookup_insert_eq.
  rewrite lookup_insert_ne by discriminate. rewrite lookup_insert_ne by discriminate.
  rewrite lookup_insert_eq. repeat split.
Qed.

(** X29. A shop timing read back by the evaluators.  After a successful
    [UpdateShopTiming] the stored restaurant carries the request's days
    under the request's keys, its [is_open] flag untouched.  With
    automatic management switched on, [isRestaurantOpenAtTime] decides by
    the same-day comparison on the day filed under the capitalised
    weekday name, and the scheduler's evaluator by the window rule on the
    day filed under the lower-case name; with it switched off both return
    the flag. *)
Theorem UpdateShopTiming_read_back
  (E : Env) (cache_fault : string -> bool) (restaurantID : string)
  (req : UpdateShopTimingRequest) (cache cache' : gmap string CacheEntry) (w w' : World)
  (after : Restaurant) :
  UpdateShopTiming E cache_fault restaurantID req cache w = (Done (Ok after, cache'), w') ->
  row_of (r_ID after) (w_restaurants w') = Some after /\
  (exists before, row_of (r_ID after) (w_restaurants w) = Some before /\
                  r_IsOpen after = r_IsOpen before) /\
  (forall checkTime : Time,
     ust_AutoOpenClose req = true ->
     isRestaurantOpenAtTime after checkTime
     = verdict_same_day (r_IsOpen after)
         (ust_OpeningHours req !! title_key checkTime) (Format1504 checkTime) /\
     shouldRestaurantBeOpenAtTime after checkTime
     = verdict_window (ust_OpeningHours req !! lower_key checkTime)
         (Format1504 checkTime)) /\
  (forall checkTime : Time,
     ust_AutoOpenClose req = false ->
     isRestaurantOpenAtTime after checkTime = r_IsOpen after /\
     shouldRestaurantBeOpenAtTime after checkTime = r_IsOpen after).
Proof.
  unfold UpdateShopTiming.
  destruct (uuid_Parse E restaurantID) as [u|]; [|intros H; inversion H].
  unfold bind at 1. unfold restaurantRepo_GetByID.
  destruct (db_fault E (RestaurantGetByID u)); [intros H; inversion H|].
  destruct (row_of u (w_restaurants w)) as [r|] eqn:Hrow; [|intros H; inversion H].
  unfold bind, restaurantRepo_Update, ret.
  cbn [r_ID set_r_OpeningHours set_r_AutoOpenClose].
  destruct (db_fault E (RestaurantUpdate (r_ID r))); intros H; inversion H; subst.
  cbn [w_restaurants set_w_restaurants r_ID r_IsOpen set_r_OpeningHours set_r_AutoOpenClose].
  apply row_of_Some in Hrow as Hr. destruct Hr as [_ Hid].
  split; [rewrite SchedulerFacts.row_of_save; cbn [r_ID]; rewrite N.eqb_refl; reflexivity|].
  split; [exists r; split; [rewrite Hid; exact Hrow | reflexivity]|].
  split.
  - intros checkTime Hauto.
    unfold isRestaurantOpenAtTime, shouldRestaurantBeOpenAtTime.
    rewrite Hauto.
    cbn [r_AutoOpenClose r_OpeningHours r_IsOpen set_r_AutoOpenClose set_r_OpeningHours negb].
    fold (lower_key checkTime). fold (title_key checkTime).
    unfold range_days. rewrite !lookup_fmap.
    split.
    + destruct (ust_OpeningHours req !! title_key checkTime) as [timing|];
        [|cbn [fmap option_fmap option_map verdict_same_day]; reflexivity].
      cbn [fmap option_fmap option_map verdict_same_day Json.as_object day_entry].
      destruct (day_fields_read (dt_IsOpen timing) (dt_OpenTime timing) (dt_CloseTime timing))
        as (-> & -> & ->).
      reflexivity.
    + destruct (ust_OpeningHours req !! lower_key checkTime) as [timing|];
        [|cbn [fmap option_fmap option_map verdict_window]; reflexivity].
      cbn [fmap option_fmap option_map verdict_window Json.as_object day_entry].
      destruct (day_fields_read (dt_IsOpen timing) (dt_OpenTime timing) (dt_CloseTime timing))
        as (-> & -> & ->).
      unfold in_window. reflexivity.
  - intros checkTime Hauto.
    unfold isRestaurantOpenAtTime, shouldRestaurantBeOpenAtTime.
    rewrite Hauto.
    cbn [r_AutoOpenClose r_OpeningHours r_IsOpen set_r_AutoOpenClose set_r_OpeningHours negb].
    split; reflexivity.
Qed.

Lemma UpdateShopTiming_read_back_witness :
  let req := mkUpdateShopTimingRequest
               (<["monday" := mkDayTiming true "22:00" "04:00"]> ∅) true in
  exists after cache' w',
    UpdateShopTiming (env no_fault) cache_up "9" req ∅ (world_with "pending" "pending")
    = (Done (Ok after, cache'), w') /\
    shouldRestaurantBeOpenAtTime after (Samples.monday_at 23 0) = true /\
    isRestaurantOpenAtTime after (Samples.monday_at 23 0) = false.
Proof.
  intros req.
  pose (r := UpdateShopTiming (env no_fault) cache_up "9" req ∅
               (world_with "pending" "pending")).
  pose (after := set_r_AutoOpenClose true
                   (set_r_OpeningHours (Some (range_days (ust_OpeningHours req)))
                      restaurant_9)).
  assert (Hr : UpdateShopTiming (env no_fault) cache_up "9" req ∅
                 (world_with "pending" "pending") = (Done (Ok after, ∅), snd r))
    by (vm_compute; reflexivity).
  destruct (UpdateShopTiming_read_back _ _ _ _ _ _ _ _ _ Hr) as (_ & _ & Hon & _).
  destruct (Hon (Samples.monday_at 23 0) eq_refl) as [Hshop Hsched].
  exists after, ∅, (snd r). split; [exact Hr|].
  split; [rewrite Hsched | rewrite Hshop]; vm_compute; reflexivity.
Defined.

(** X30. The tick overrides a manual status.  After [UpdateShopStatus]
    has stored a flag for a restaurant that is auto-managed and active, a
    tick over the table (fewer than 100 rows with distinct ids, read
    without fault) leaves the restaurant with the flag its schedule gives
    at the instant of the tick, whichever flag was set by hand. *)
Theorem manual_status_overridden_by_tick
  (E : Env) (cache_fault : string -> bool) (restaurantID : string)
  (req : ShopStatusRequest) (cache cache' : gmap string CacheEntry) (w w1 : World) (after : Restaurant) :
  NoDup (map r_ID (w_restaurants w)) ->
  (length (w_restaurants w) < 100)%nat ->
  db_fault E (RestaurantSearch 200 0) = false ->
  UpdateShopStatus E cache_fault restaurantID req cache w = (Done (Ok after, cache'), w1) ->
  r_AutoOpenClose after = true ->
  r_Status after = "active" ->
  r_IsOpen after = ssr_IsOpen req /\
  exists w2,
    updateAllRestaurantStatuses E w1 = (Done true, w2) /\
    r_IsOpen <$> row_of (r_ID after) (w_restaurants w2)
    = Some (shouldRestaurantBeOpenAtTime after (time_Now E)).
Proof.
  intros Hnd Hlen Hsearch Hrun Hauto Hactive.
  unfold UpdateShopStatus in Hrun.
  destruct (uuid_Parse E restaurantID) as [u|]; [|inversion Hrun].
  unfold bind at 1 in Hrun. unfold restaurantRepo_GetByID in Hrun.
  destruct (db_fault E (RestaurantGetByID u)); [inversion Hrun|].
  destruct (row_of u (w_restaurants w)) as [r|] eqn:Hrow; [|inversion Hrun].
  unfold bind, restaurantRepo_Update, ret in Hrun. cbn [r_ID set_r_IsOpen] in Hrun.
  destruct (db_fault E (RestaurantUpdate (r_ID r))) eqn:Hwrite; inversion Hrun; subst.
  clear Hrun. cbn [r_IsOpen set_r_IsOpen]. split; [reflexivity|].
  apply row_of_Some in Hrow. destruct Hrow as [Hin Hid].
  set (after := set_r_IsOpen (ssr_IsOpen req) r) in *.
  set (w1 := set_w_restaurants (save_restaurant after (w_restaurants w)) w).
  assert (Hids : map r_ID (w_restaurants w1) = map r_ID (w_restaurants w)).
  { cbn [w1 w_restaurants set_w_restaurants]. apply SchedulerFacts.save_restaurant_ids.
    cbn [after r_ID set_r_IsOpen]. apply in_map. exact Hin. }
  assert (Hnd1 : NoDup (map r_ID (w_restaurants w1))) by (rewrite Hids; exact Hnd).
  assert (Hlen1 : (length (w_restaurants w1) < 100)%nat).
  { rewrite <- (length_map r_ID), Hids, length_map. exact Hlen. }
  assert (Hrow1 : row_of (r_ID after) (w_restaurants w1) = Some after).
  { cbn [w1 w_restaurants set_w_restaurants]. rewrite SchedulerFacts.row_of_save.
    rewrite N.eqb_refl. reflexivity. }
  apply row_of_Some in Hrow1 as Hin1. destruct Hin1 as [Hin1 _].
  destruct (SchedulerFacts.single_page_tick E w1 Hnd1 Hlen1 Hsearch)
    as (w2 & Htick & Hrows & _).
  exists w2. split; [exact Htick|].
  assert (Hmanaged : auto_managed after = true).
  { unfold auto_managed. rewrite Hauto, Hactive. reflexivity. }
  destruct (Hrows after Hin1 Hmanaged) as (Hflip & _ & Hsame).
  destruct (status_differs after (time_Now E)) eqn:Hd.
  - rewrite Hflip; [reflexivity | reflexivity | exact Hwrite].
  - rewrite Hsame by reflexivity. cbn [fmap option_fmap option_map]. f_equal.
    unfold status_differs in Hd. apply negb_false_iff in Hd.
    apply Bool.eqb_prop in Hd. exact Hd.
Qed.

Lemma manual_status_witness :
  exists after cache' w1 w2,
    UpdateShopStatus (env no_fault) cache_up "21" (mkShopStatusRequest false) ∅ world_ABC
    = (Done (Ok after, cache'), w1) /\
    updateAllRestaurantStatuses (env no_fault) w1 = (Done true, w2) /\
    r_IsOpen <$> row_of 21%N (w_restaurants w2) = Some true.
Proof.
  pose (r := UpdateShopStatus (env no_fault) cache_up "21" (mkShopStatusRequest false) ∅
               world_ABC).
  assert (Hr : UpdateShopStatus (env no_fault) cache_up "21" (mkShopStatusRequest false) ∅
                 world_ABC = (Done (Ok restaurant_A, ∅), snd r))
    by (vm_compute; reflexivity).
  destruct (manual_status_overridden_by_tick (env no_fault) cache_up "21"
              (mkShopStatusRequest false) ∅ ∅ world_ABC (snd r) restaurant_A)
    as (_ & w2 & Htick & Hflag);
    [|simpl; lia|reflexivity|exact Hr|reflexivity|reflexivity|].
  { repeat (constructor;
            [simpl; intros H; apply list_elem_of_In in H; simpl in H;
             repeat (destruct H as [H|H]; [discriminate H|]); exact H|]).
    constructor. }
  exists restaurant_A, ∅, (snd r), w2. split; [exact Hr|]. split; [exact Htick|].
  etrans; [exact Hflag|]. vm_compute. reflexivity.
Defined.

End ShopTimeFacts.
